(** * Deadline engine and invoice ledger of the PayForeman API

    A shallow embedding of the route handlers in [src/routes/deadlines.ts]
    and [src/routes/invoices.ts], of the transaction helper in
    [src/utils/database.ts] and of the schema they run against, with the
    project deletion of [src/routes/projects.ts] and the day count of the
    deadline warning in [src/routes/emails.ts], followed by the properties
    of the specification that were checked against them and by further
    properties of the handlers.

    Conventions of the embedding:
    - money columns are [DECIMAL(12,2)]: a stored amount is the integer
      number of cents, a value assigned to the column is rounded to the
      cent, half away from zero, and a statement whose result does not fit
      the column fails;
    - a percentage column is [DECIMAL(5,2)]: an integer number of
      hundredths of a percent, rounded in the same way;
    - a number of a request is a rational counted in the same hundredths,
      so that amounts with more than two decimals are covered; arithmetic
      that the handlers do in JavaScript is done in binary64;
    - a JavaScript [Date] is its time value, an integer number of
      milliseconds since the epoch, or NaN ([None]);
    - a calendar date ([DATE] column, ISO text [YYYY-MM-DD]) is a [Civil]
      record;
    - a table with a primary key is a finite map from the key to the row;
      the payment ledger is the list of its rows in insertion order;
    - identifiers are texts; the id of a stored row is a UUID, and a
      statement that looks an invoice up under a text that is no UUID
      fails;
    - the columns [created_at] and [updated_at], and the project columns
      that a SELECT joins to its rows, are not modelled: a row is the
      other columns of its table. *)

From Stdlib Require Import ZArith QArith Lia Bool Ascii.
From stdpp Require Import base option list sorting strings gmap.

Local Open Scope Z_scope.

(** ** The JavaScript runtime the handlers rely on *)

Module JS.

(** *** Truthiness *)

(** A text field of a JSON body: [None] when the key is absent or null. *)
Definition truthy_text (v : option string) : bool :=
  match v with
  | None => false
  | Some s => negb (String.eqb s EmptyString)
  end.

(** A text field to which a handler gives a default.  The default of a
    destructuring pattern applies to an absent key only: null stays
    null. *)
Inductive jstext : Type :=
| Absent
| NullText
| Text (s : string).

(** [const { key = d } = req.body]; [None] is null. *)
Definition or_default (d : string) (v : jstext) : option string :=
  match v with
  | Absent => Some d
  | NullText => None
  | Text s => Some s
  end.

(** [v === s] on such a value. *)
Definition strict_eq (v : option string) (s : string) : bool :=
  match v with
  | Some t => String.eqb t s
  | None => false
  end.

(** A numeric field of a JSON body: absent, null, a number, or a text in
    decimal notation.  The model counts in hundredths, as the columns do:
    [Num q] is the number that JavaScript prints as [q / 100], so 66.656
    is [Num 6665.6], and [NumText q] is the non-empty text of that
    decimal, which JavaScript and the store both read as that number.
    Booleans, other text, arrays and objects are not modelled. *)
Inductive jsnum : Type :=
| Undefined
| Null
| Num (q : Q)
| NumText (q : Q).

(** [!v] is false: a number other than 0, or a non-empty text. *)
Definition truthy_num (v : jsnum) : bool :=
  match v with
  | Num q => negb (Qnum q =? 0)
  | NumText _ => true
  | _ => false
  end.

(** [v !== undefined] *)
Definition defined (v : jsnum) : bool :=
  match v with
  | Undefined => false
  | _ => true
  end.

(** The value bound to a query parameter, in hundredths: undefined and
    null are both sent as SQL NULL, a number as the decimal JavaScript
    prints, a text as it is. *)
Definition to_param (v : jsnum) : option Q :=
  match v with
  | Num q => Some q
  | NumText q => Some q
  | _ => None
  end.

(** *** Numbers (IEEE 754 binary64, ECMAScript 6.1.6.1) *)

Definition pow2 (e : Z) : Q :=
  if 0 <=? e then inject_Z (2 ^ e) else 1 # Z.to_pos (2 ^ (- e)).

Definition pow10 (e : Z) : Q :=
  if 0 <=? e then inject_Z (10 ^ e) else 1 # Z.to_pos (10 ^ (- e)).

(** The exponents [e] with [2^e <= q < 2^(e+1)] and
    [10^e <= q < 10^(e+1)], for a positive [q]. *)
Definition binade (q : Q) : Z :=
  let e := Z.log2 (Qnum q) - Z.log2 (Zpos (Qden q)) in
  if Qle_bool (pow2 e) q then e else e - 1.

Definition decade (q : Q) : Z :=
  let e := binade q * 30103 / 100000 in
  if Qle_bool (pow10 (e + 1)) q then e + 1
  else if Qle_bool (pow10 e) q then e
  else e - 1.

Definition floor (q : Q) : Z := Qnum q / Zpos (Qden q).

(** The nearest integer, a tie going to the even one. *)
Definition round_half_even (q : Q) : Z :=
  let f := floor q in
  match 2 * (Qnum q mod Zpos (Qden q)) ?= Zpos (Qden q) with
  | Lt => f
  | Gt => f + 1
  | Eq => if Z.even f then f else f + 1
  end.

Definition magnitude (q : Q) : Q := Z.abs (Qnum q) # Qden q.

Definition with_sign (q m : Q) : Q := (Z.sgn (Qnum q) * Qnum m) # Qden m.

(** The Number nearest to a real: a significand of 53 bits, a tie going
    to the even significand.  Overflow to Infinity and the subnormal
    numbers (beyond 1.8e308, below 2.2e-308) are not modelled. *)
Definition fl_pos (q : Q) : Q :=
  let u := pow2 (binade q - 52) in
  Qred (inject_Z (round_half_even (q / u)) * u).

Definition fl (q : Q) : Q :=
  if Qnum q =? 0 then 0%Q else with_sign q (fl_pos (magnitude q)).

(** [a * b] and [a / b] on Numbers. *)
Definition js_mul (a b : Q) : Q := fl (a * b).
Definition js_div (a b : Q) : Q := fl (a / b).

(** Number::toString, as a value: the decimal of fewest digits that reads
    back as the same Number, the nearest one to it when there are
    several.  [shortest] tries [k] digits, then [k + 1], on a positive
    Number [v] of decade [n]; 17 digits always suffice. *)
Fixpoint shortest (fuel : nat) (k : Z) (v : Q) (n : Z) : Q :=
  match fuel with
  | O => v
  | S fuel' =>
      let scale := pow10 (n - k + 1) in
      let s := floor (v / scale) in
      let lo := Qred (inject_Z s * scale) in
      let hi := Qred (inject_Z (s + 1) * scale) in
      let ok_lo := Qeq_bool (fl_pos lo) v in
      let ok_hi := Qeq_bool (fl_pos hi) v in
      if ok_lo && ok_hi
      then match (v - lo ?= hi - v)%Q with
           | Lt => lo
           | Gt => hi
           | Eq => if Z.even s then lo else hi
           end
      else if ok_lo then lo
      else if ok_hi then hi
      else shortest fuel' (k + 1) v n
  end.

Definition Number_toString (v : Q) : Q :=
  if Qnum v =? 0 then 0%Q
  else with_sign v (shortest 17 1 (magnitude v) (decade (magnitude v))).

(** ToNumber of a field: null converts to 0, undefined to NaN ([None]);
    the Number is the field's own value, [q / 100]. *)
Definition to_number (v : jsnum) : option Q :=
  match v with
  | Undefined => None
  | Null => Some 0%Q
  | Num q => Some (fl (q / 100))
  | NumText q => Some (fl (q / 100))
  end.

(** The parameter bound for a Number, in hundredths: node-postgres sends
    the text JavaScript prints. *)
Definition number_param (v : Q) : Q := (Number_toString v * 100)%Q.

(** *** Calendar (ECMAScript 21.4.1: Day, YearFromTime, MakeDay, ...) *)

Definition msPerDay : Z := 86400000.
Definition msPerHour : Z := 3600000.

Definition Day (t : Z) : Z := t / msPerDay.
Definition TimeWithinDay (t : Z) : Z := t mod msPerDay.

Record Civil : Type := mkCivil { year : Z; month : Z; day : Z }.

(** Year of the era (0..399, counted from 1 March) of day [doe] of a
    400-year era, and the day of the era on which such a year starts. *)
Definition year_of_era (doe : Z) : Z :=
  (doe - doe / 1460 + doe / 36524 - doe / 146096) / 365.

Definition year_start (yoe : Z) : Z := 365 * yoe + yoe / 4 - yoe / 100.

(** Month (1..12) and day of the month of day [doy] of a year that starts
    on 1 March, and the day of such a year on which month [m] starts. *)
Definition month_day (doy : Z) : Z * Z :=
  let mp := (5 * doy + 2) / 153 in
  (if mp <? 10 then mp + 3 else mp - 9, doy - (153 * mp + 2) / 5 + 1).

Definition month_start (m : Z) : Z :=
  (153 * (if 2 <? m then m - 3 else m + 9) + 2) / 5.

Definition era_split (doe : Z) : Z * Z * Z :=
  let yoe := year_of_era doe in
  let '(m, d) := month_day (doe - year_start yoe) in
  (yoe, m, d).

Definition era_month_start (yoe m : Z) : Z := year_start yoe + month_start m.

Definition civil_from_days (n : Z) : Civil :=
  let z := n + 719468 in
  let era := z / 146097 in
  let doe := z mod 146097 in
  let '(yoe, m, d) := era_split doe in
  let y := yoe + era * 400 in
  {| year := if m <=? 2 then y + 1 else y; month := m; day := d |}.

Definition days_from_civil (y m d : Z) : Z :=
  let y' := if m <=? 2 then y - 1 else y in
  let era := y' / 400 in
  let yoe := y' mod 400 in
  era * 146097 + era_month_start yoe m + (d - 1) - 719468.

Definition YearFromTime (t : Z) : Z := year (civil_from_days (Day t)).
(** Months are numbered from 0 in JavaScript. *)
Definition MonthFromTime (t : Z) : Z := month (civil_from_days (Day t)) - 1.
Definition DateFromTime (t : Z) : Z := day (civil_from_days (Day t)).

Definition MakeDay (yr mon date : Z) : Z :=
  let ym := yr + mon / 12 in
  let mn := mon mod 12 in
  days_from_civil ym (mn + 1) 1 + date - 1.

Definition MakeDate (dy time : Z) : Z := dy * msPerDay + time.

Definition maxTime : Z := 8640000000000000.

Definition TimeClip (t : Z) : option Z :=
  if Z.abs t <=? maxTime then Some t else None.

(** *** Local time *)

(** The host's time zone: the offset of local time from UTC, in
    milliseconds, at a UTC instant and at a local clock reading
    (LocalTZA with isUTC true and false). *)
Record TimeZone : Type := mkTimeZone {
  offset_at_utc : Z -> Z;
  offset_at_local : Z -> Z
}.

Definition LocalTime (tz : TimeZone) (t : Z) : Z := t + offset_at_utc tz t.
Definition UTC (tz : TimeZone) (t : Z) : Z := t - offset_at_local tz t.

Definition fixed_zone (c : Z) : TimeZone :=
  {| offset_at_utc := fun _ => c; offset_at_local := fun _ => c |}.

Definition utc_zone : TimeZone := fixed_zone 0.

(** A zone without daylight saving: one offset all year. *)
Definition fixed_offset (tz : TimeZone) (c : Z) : Prop :=
  forall t, offset_at_utc tz t = c /\ offset_at_local tz t = c.

(** America/Denver around 2024: UTC-7, and UTC-6 from 10 March 2024
    02:00 local (09:00 UTC) until 3 November 2024 02:00 local
    (08:00 UTC). *)
Definition denver_2024 : TimeZone :=
  let dst_from_utc := MakeDate (days_from_civil 2024 3 10) (9 * msPerHour) in
  let dst_to_utc := MakeDate (days_from_civil 2024 11 3) (8 * msPerHour) in
  let dst_from_local := MakeDate (days_from_civil 2024 3 10) (3 * msPerHour) in
  let dst_to_local := MakeDate (days_from_civil 2024 11 3) (2 * msPerHour) in
  {| offset_at_utc := fun t =>
       if (dst_from_utc <=? t) && (t <? dst_to_utc)
       then -6 * msPerHour else -7 * msPerHour;
     offset_at_local := fun t =>
       if (dst_from_local <=? t) && (t <? dst_to_local)
       then -6 * msPerHour else -7 * msPerHour |}.

(** *** Date objects *)

(** The time value of a [Date]; [None] is NaN (an Invalid Date). *)
Definition Date : Type := option Z.

(** The text of a date field of a request.  [IsoDate y m d] is the
    date-only ISO form [YYYY-MM-DD]; [OtherText] is text that
    [Date.parse] does not recognise.  Date-time forms are not modelled. *)
Inductive date_text : Type :=
| IsoDate (y m d : Z)
| OtherText (s : string).

(** [new Date(text)]: the date-only form is read as midnight UTC.  V8
    accepts a day of month up to 31 in every month and lets [MakeDay]
    carry the excess into the next month. *)
Definition Date_parse (s : date_text) : Date :=
  match s with
  | IsoDate y m d =>
      if (0 <=? y) && (y <=? 9999) && (1 <=? m) && (m <=? 12)
         && (1 <=? d) && (d <=? 31)
      then TimeClip (MakeDate (MakeDay y (m - 1) d) 0)
      else None
  | OtherText _ => None
  end.

(** [new Date(null)] is the epoch. *)
Definition Date_of_null : Date := Some 0.

(** [d.getDate()]: day of the month in local time. *)
Definition getDate (tz : TimeZone) (d : Date) : option Z :=
  match d with
  | Some t => Some (DateFromTime (LocalTime tz t))
  | None => None
  end.

(** [d.setDate(dt)]: replaces the day of the month in local time and
    returns the new time value of [d]. *)
Definition setDate (tz : TimeZone) (d : Date) (dt : option Z) : Date :=
  match d, dt with
  | Some t0, Some n =>
      let t := LocalTime tz t0 in
      let newDate :=
        MakeDate (MakeDay (YearFromTime t) (MonthFromTime t) n)
                 (TimeWithinDay t) in
      TimeClip (UTC tz newDate)
  | _, _ => None
  end.

(** [a + b] on numbers, NaN absorbing. *)
Definition num_add (a b : option Z) : option Z :=
  match a, b with
  | Some x, Some y => Some (x + y)
  | _, _ => None
  end.

(** [d.toISOString().split('T')[0]]: the UTC calendar date; [None] is
    the RangeError raised on an Invalid Date. *)
Definition toISODate (d : Date) : option Civil :=
  match d with
  | Some t => Some (civil_from_days (Day t))
  | None => None
  end.

(** [Math.ceil(a / b)] for a positive divisor. *)
Definition ceil_div (a b : Z) : Z := - ((- a) / b).

(** *** The Gregorian calendar, as a specification *)

Definition is_leap (y : Z) : bool :=
  (y mod 4 =? 0) && (negb (y mod 100 =? 0) || (y mod 400 =? 0)).

Definition days_in_month (y m : Z) : Z :=
  if m =? 2 then (if is_leap y then 29 else 28)
  else if (m =? 4) || (m =? 6) || (m =? 9) || (m =? 11) then 30
  else 31.

(** A date that exists in the calendar. *)
Definition valid_civil (c : Civil) : bool :=
  (1 <=? month c) && (month c <=? 12)
  && (1 <=? day c) && (day c <=? days_in_month (year c) (month c)).

(** The day after [c] in the calendar. *)
Definition next_day (c : Civil) : Civil :=
  if day c <? days_in_month (year c) (month c)
  then mkCivil (year c) (month c) (day c + 1)
  else if month c <? 12 then mkCivil (year c) (month c + 1) 1
  else mkCivil (year c + 1) 1 1.

(** Whether the year of the era that starts on 1 March of year [yoe]
    ends with a 29 February. *)
Definition leap_after (yoe : Z) : Z := if is_leap (yoe + 1) then 1 else 0.

(** The calendar date [k] days after [c]. *)
Definition add_days (c : Civil) (k : Z) : Civil :=
  civil_from_days (days_from_civil (year c) (month c) (day c) + k).

End JS.

Import JS.

(** ** The relational store *)

Module Store.

(** *** Enumerated columns (the CHECK constraints of the schema) *)

Inductive PaymentStatus : Type := Pending | Partial | Paid | Overdue.
Inductive DeadlineStatus : Type := DPending | DCompleted | DCancelled.
Inductive Priority : Type := Low | Normal | High | Critical.
Inductive DeadlineType : Type :=
| PreliminaryNotice | MechanicsLien | RetainageRelease
| PaymentBondClaim | Custom.

#[global] Instance PaymentStatus_eq_dec : EqDecision PaymentStatus.
Proof. solve_decision. Defined.
#[global] Instance DeadlineStatus_eq_dec : EqDecision DeadlineStatus.
Proof. solve_decision. Defined.
#[global] Instance Priority_eq_dec : EqDecision Priority.
Proof. solve_decision. Defined.
#[global] Instance DeadlineType_eq_dec : EqDecision DeadlineType.
Proof. solve_decision. Defined.

Definition payment_status_of_text (s : string) : option PaymentStatus :=
  if String.eqb s "pending" then Some Pending
  else if String.eqb s "partial" then Some Partial
  else if String.eqb s "paid" then Some Paid
  else if String.eqb s "overdue" then Some Overdue
  else None.

Definition status_text (s : DeadlineStatus) : string :=
  match s with
  | DPending => "pending"
  | DCompleted => "completed"
  | DCancelled => "cancelled"
  end.

Definition status_of_text (s : string) : option DeadlineStatus :=
  if String.eqb s "pending" then Some DPending
  else if String.eqb s "completed" then Some DCompleted
  else if String.eqb s "cancelled" then Some DCancelled
  else None.

Definition priority_of_text (s : string) : option Priority :=
  if String.eqb s "low" then Some Low
  else if String.eqb s "normal" then Some Normal
  else if String.eqb s "high" then Some High
  else if String.eqb s "critical" then Some Critical
  else None.

Definition deadline_type_of_text (s : string) : option DeadlineType :=
  if String.eqb s "preliminary_notice" then Some PreliminaryNotice
  else if String.eqb s "mechanics_lien" then Some MechanicsLien
  else if String.eqb s "retainage_release" then Some RetainageRelease
  else if String.eqb s "payment_bond_claim" then Some PaymentBondClaim
  else if String.eqb s "custom" then Some Custom
  else None.

(** *** Rows *)

Record Project : Type := mkProject {
  pr_user : string;
  project_name : string;
  project_type : option string;
  work_start_date : option Civil;
  work_end_date : option Civil
}.

Record Invoice : Type := mkInvoice {
  inv_user : string;
  inv_project : option string;
  invoice_number : string;
  invoice_date : Civil;
  due_date : Civil;
  amount : Z;
  retainage_percent : option Z;
  retainage_amount : option Z;
  amount_paid : Z;
  payment_status : PaymentStatus;
  paid_date : option Civil;
  inv_description : option string;
  inv_notes : option string
}.

Record Payment : Type := mkPayment {
  pay_id : string;
  pay_invoice : string;
  payment_date : Civil;
  pay_amount : Z;
  payment_method : option string;
  check_number : option string;
  pay_notes : option string
}.

Record Deadline : Type := mkDeadline {
  dl_user : string;
  dl_project : option string;
  deadline_type : DeadlineType;
  deadline_date : Civil;
  trigger_date : option Civil;
  title : string;
  dl_description : option string;
  status : DeadlineStatus;
  priority : option Priority;
  dl_notes : option string;
  completed_date : option Civil
}.

Record LienRule : Type := mkLienRule {
  rule_type : string;
  rule_project_type : string;
  deadline_days : Z;
  rule_description : string;
  trigger_event : string;
  statutory_reference : option string
}.

Record DB : Type := mkDB {
  users : gset string;
  projects : gmap string Project;
  invoices : gmap string Invoice;
  payments : list Payment;
  deadlines : gmap string Deadline;
  colorado_lien_rules : list LienRule
}.

Definition with_invoices (db : DB) (m : gmap string Invoice) : DB :=
  mkDB (users db) (projects db) m (payments db) (deadlines db)
       (colorado_lien_rules db).

Definition with_payments (db : DB) (l : list Payment) : DB :=
  mkDB (users db) (projects db) (invoices db) l (deadlines db)
       (colorado_lien_rules db).

Definition with_deadlines (db : DB) (m : gmap string Deadline) : DB :=
  mkDB (users db) (projects db) (invoices db) (payments db) m
       (colorado_lien_rules db).

(** *** Column types *)

(** [DECIMAL(12,2)], in cents. *)
Definition fits_money (n : Z) : bool := Z.abs n <? 10 ^ 12.

(** [DECIMAL(5,2)], in hundredths. *)
Definition fits_percent (n : Z) : bool := Z.abs n <? 10 ^ 5.

(** [VARCHAR(n)]: a longer text is refused (trailing blanks apart). *)
Definition fits_varchar (n : nat) (s : string) : bool :=
  (String.length s <=? n)%nat.

(** Rounding of a numeric to the scale of its column: half away from
    zero.  [x] counts units of [1/den] of the column's unit. *)
Definition round_half_away (x den : Z) : Z :=
  Z.sgn x * ((2 * Z.abs x + den) / (2 * den)).

(** A numeric value, in hundredths, as a column of scale 2 stores it. *)
Definition to_column (q : Q) : Z :=
  round_half_away (Qnum q) (Zpos (Qden q)).

(** A text bound to a [UUID] column or compared with one: sixteen bytes
    of two hexadecimal digits each, with an optional hyphen after every
    second byte but the last, the whole optionally in braces.  Any other
    text makes the statement fail. *)
Definition is_xdigit (c : Ascii.ascii) : bool :=
  let n := Ascii.nat_of_ascii c in
  ((48 <=? n) && (n <=? 57) || (65 <=? n) && (n <=? 70)
   || (97 <=? n) && (n <=? 102))%nat.

Fixpoint uuid_bytes (i n : nat) (s : string) : option string :=
  match n with
  | O => Some s
  | S n' =>
      match s with
      | String a (String b rest) =>
          if is_xdigit a && is_xdigit b
          then uuid_bytes (S i) n'
                 match rest with
                 | String "-"%char rest' =>
                     if Nat.odd i && (i <? 15)%nat then rest' else rest
                 | _ => rest
                 end
          else None
      | _ => None
      end
  end.

Definition is_uuid (s : string) : bool :=
  match s with
  | String "{"%char src =>
      match uuid_bytes 0 16 src with
      | Some rest => String.eqb rest "}"
      | None => false
      end
  | _ =>
      match uuid_bytes 0 16 s with
      | Some rest => String.eqb rest ""
      | None => false
      end
  end.

(** A text bound to a [DATE] column: it has to name a date of the
    calendar, written with a four-digit year. *)
Definition sql_date_ok (c : Civil) : bool :=
  valid_civil c && (1 <=? year c) && (year c <=? 9999).

Definition sql_date (t : date_text) : option Civil :=
  match t with
  | IsoDate y m d =>
      if sql_date_ok (mkCivil y m d) then Some (mkCivil y m d) else None
  | OtherText _ => None
  end.

(** *** Statements and handlers *)

(** One SQL statement: [None] when the store rejects it, which leaves the
    store as it was. *)
Definition Stmt (A : Type) : Type := DB -> option (A * DB).

(** What a handler body has done so far: a value, or an exception, each
    with the store as committed at that point. *)
Inductive Result (A : Type) : Type :=
| Ok (a : A) (db : DB)
| Throw (db : DB).
Arguments Ok {A} a db.
Arguments Throw {A} db.

Definition M (A : Type) : Type := DB -> Result A.

#[global] Instance M_ret : MRet M := fun A a db => Ok a db.
#[global] Instance M_bind : MBind M := fun A B f m db =>
  match m db with
  | Ok a db' => f a db'
  | Throw db' => Throw db'
  end.

Definition raise {A : Type} : M A := fun db => Throw db.

(** [query] of [utils/database.ts]: runs one statement on the pool, each
    in its own implicit transaction, and rethrows what the store reports.
    [lost] says that the statement did not reach the store. *)
Definition query {A : Type} (lost : bool) (s : Stmt A) : M A :=
  fun db =>
    if lost then Throw db
    else match s db with
         | Some (a, db') => Ok a db'
         | None => Throw db
         end.

(** [transaction] of [utils/database.ts]: BEGIN, the callback, COMMIT; on
    an exception ROLLBACK and rethrow. *)
Definition transaction {A : Type} (callback : M A) : M A :=
  fun db =>
    match callback db with
    | Ok a db' => Ok a db'
    | Throw _ => Throw db
    end.

Inductive Response (A : Type) : Type :=
| R200 (body : A)
| R201 (body : A)
| R400
| R404
| R500.
Arguments R200 {A} body.
Arguments R201 {A} body.
Arguments R400 {A}.
Arguments R404 {A}.
Arguments R500 {A}.

(** [try { ... } catch (error) { res.status(500) ... }] *)
Definition handle {A : Type} (body : M (Response A)) (db : DB)
  : Response A * DB :=
  match body db with
  | Ok r db' => (r, db')
  | Throw db' => (R500, db')
  end.

(** The store a handler body leaves behind, and the bodies that keep a
    property of the store whichever way they end. *)
Definition final {A : Type} (r : Result A) : DB :=
  match r with
  | Ok _ db => db
  | Throw db => db
  end.

Definition keeps {A : Type} (P : DB -> Prop) (m : M A) : Prop :=
  forall db, P db -> P (final (m db)).

(** [COALESCE($n, column)] *)
Definition coalesce {A : Type} (param : option A) (column : A) : A :=
  match param with
  | Some v => v
  | None => column
  end.

Definition coalesce_null {A : Type} (param column : option A) : option A :=
  match param with
  | Some v => Some v
  | None => column
  end.

(** A nullable parameter that the store has to convert: [None] when the
    conversion fails. *)
Definition convert_opt {A B : Type} (f : A -> option B) (p : option A)
  : option (option B) :=
  match p with
  | None => Some None
  | Some a => match f a with
              | Some b => Some (Some b)
              | None => None
              end
  end.

Definition truthy_date (v : option date_text) : bool :=
  match v with
  | None => false
  | Some (OtherText s) => negb (String.eqb s EmptyString)
  | Some (IsoDate _ _ _) => true
  end.

End Store.

Import Store.

(** ** [routes/invoices.ts] *)

Module Invoices.

(** [(amount * retainagePercent) / 100], a Number. *)
Definition retainage (amount percent : jsnum) : option Q :=
  match to_number amount, to_number percent with
  | Some a, Some p => Some (js_div (js_mul a p) 100)
  | _, _ => None
  end.

(** *** POST / *)

Record CreateBody : Type := mkCreateBody {
  c_userId : option string;
  c_projectId : option string;
  c_invoiceNumber : option string;
  c_invoiceDate : option date_text;
  c_dueDate : option date_text;
  c_amount : jsnum;
  c_retainagePercent : jsnum;
  c_description : option string;
  c_notes : option string
}.

(** [INSERT INTO invoices (...) VALUES ($1, ..., $11) RETURNING *]; the
    numeric parameters are rounded to the scale of their columns. *)
Definition insert_invoice (id : string) (userId : option string)
    (projectId invoiceNumber : option string)
    (invoiceDate dueDate : option date_text)
    (amount retainagePercent retainageAmount : option Q)
    (description notes : option string) : Stmt Invoice :=
  fun db =>
    match userId, invoiceNumber, invoiceDate ≫= sql_date,
          dueDate ≫= sql_date, amount with
    | Some u, Some num, Some idate, Some ddate, Some a =>
        let rp := to_column <$> retainagePercent in
        let ra := to_column <$> retainageAmount in
        if bool_decide (invoices db !! id = None)
           && bool_decide (u ∈ users db)
           && match projectId with
              | Some p => bool_decide (is_Some (projects db !! p))
              | None => true
              end
           && fits_varchar 100 num
           && fits_money (to_column a)
           && from_option fits_percent true rp
           && from_option fits_money true ra
        then
          let row := {| inv_user := u; inv_project := projectId;
                        invoice_number := num; invoice_date := idate;
                        due_date := ddate; amount := to_column a;
                        retainage_percent := rp;
                        retainage_amount := ra;
                        amount_paid := 0; payment_status := Pending;
                        paid_date := None;
                        inv_description := description;
                        inv_notes := notes |} in
          Some (row, with_invoices db (<[id := row]> (invoices db)))
        else None
    | _, _, _, _, _ => None
    end.

Definition create (lost : nat -> bool) (id : string) (body : CreateBody)
  : DB -> Response Invoice * DB :=
  handle (
    let retainagePercent :=
      match c_retainagePercent body with
      | Undefined => Num 0
      | v => v
      end in
    if negb (truthy_text (c_userId body))
       || negb (truthy_text (c_invoiceNumber body))
       || negb (truthy_date (c_invoiceDate body))
       || negb (truthy_date (c_dueDate body))
       || negb (truthy_num (c_amount body))
    then mret R400
    else
      let retainageAmount := retainage (c_amount body) retainagePercent in
      row ← query (lost 0%nat)
              (insert_invoice id (c_userId body) (c_projectId body)
                 (c_invoiceNumber body) (c_invoiceDate body)
                 (c_dueDate body) (to_param (c_amount body))
                 (to_param retainagePercent)
                 (number_param <$> retainageAmount)
                 (c_description body) (c_notes body));
      mret (R201 row)).

(** *** PUT /:id *)

Record UpdateBody : Type := mkUpdateBody {
  u_invoiceNumber : option string;
  u_invoiceDate : option date_text;
  u_dueDate : option date_text;
  u_amount : jsnum;
  u_retainagePercent : jsnum;
  u_paymentStatus : option string;
  u_paidDate : option date_text;
  u_description : option string;
  u_notes : option string
}.

(** [UPDATE invoices SET column = COALESCE($n, column), ... WHERE id = $11
    RETURNING *]: the rows it returns.  A text that is no UUID makes the
    statement fail. *)
Definition update_invoice (id : string) (invoiceNumber : option string)
    (invoiceDate dueDate : option date_text)
    (amount retainagePercent retainageAmount : option Q)
    (paymentStatus : option string) (paidDate : option date_text)
    (description notes : option string) : Stmt (option Invoice) :=
  fun db =>
    match convert_opt sql_date invoiceDate, convert_opt sql_date dueDate,
          convert_opt sql_date paidDate with
    | Some idate, Some ddate, Some pdate =>
        match invoices db !! id with
        | None => if is_uuid id then Some (None, db) else None
        | Some old =>
            match convert_opt payment_status_of_text paymentStatus with
            | None => None
            | Some pstatus =>
                let row :=
                  {| inv_user := inv_user old;
                     inv_project := inv_project old;
                     invoice_number :=
                       coalesce invoiceNumber (invoice_number old);
                     invoice_date := coalesce idate (invoice_date old);
                     due_date := coalesce ddate (due_date old);
                     amount :=
                       coalesce (to_column <$> amount) (Store.amount old);
                     retainage_percent :=
                       coalesce_null (to_column <$> retainagePercent)
                                     (retainage_percent old);
                     retainage_amount :=
                       coalesce_null (to_column <$> retainageAmount)
                                     (retainage_amount old);
                     amount_paid := amount_paid old;
                     payment_status :=
                       coalesce pstatus (payment_status old);
                     paid_date := coalesce_null pdate (paid_date old);
                     inv_description :=
                       coalesce_null description (inv_description old);
                     inv_notes := coalesce_null notes (inv_notes old) |} in
                if fits_varchar 100 (invoice_number row)
                   && fits_money (Store.amount row)
                   && from_option fits_percent true (retainage_percent row)
                   && from_option fits_money true (retainage_amount row)
                then Some (Some row,
                           with_invoices db (<[id := row]> (invoices db)))
                else None
            end
        end
    | _, _, _ => None
    end.

Definition update (lost : nat -> bool) (id : string) (body : UpdateBody)
  : DB -> Response Invoice * DB :=
  handle (
    (* Calculate retainage if amount or percent changes *)
    let retainageAmount :=
      if defined (u_amount body) && defined (u_retainagePercent body)
      then retainage (u_amount body) (u_retainagePercent body)
      else None in
    rows ← query (lost 0%nat)
             (update_invoice id (u_invoiceNumber body) (u_invoiceDate body)
                (u_dueDate body) (to_param (u_amount body))
                (to_param (u_retainagePercent body))
                (number_param <$> retainageAmount)
                (u_paymentStatus body) (u_paidDate body)
                (u_description body) (u_notes body));
    match rows with
    | None => mret R404
    | Some row => mret (R200 row)
    end).

(** *** POST /:id/payments *)

Record PaymentBody : Type := mkPaymentBody {
  p_paymentDate : option date_text;
  p_amount : jsnum;
  p_paymentMethod : option string;
  p_checkNumber : option string;
  p_notes : option string
}.

(** [INSERT INTO payments (...) VALUES ($1, ..., $7) RETURNING *]; the
    amount is rounded to the cent. *)
Definition insert_payment (paymentId invoiceId : string)
    (paymentDate : option date_text) (amount : option Q)
    (paymentMethod checkNumber notes : option string) : Stmt Payment :=
  fun db =>
    match paymentDate ≫= sql_date, amount with
    | Some pdate, Some a =>
        if forallb (fun p => negb (String.eqb (pay_id p) paymentId))
                   (payments db)
           && bool_decide (is_Some (invoices db !! invoiceId))
           && fits_money (to_column a)
           && from_option (fits_varchar 50) true paymentMethod
           && from_option (fits_varchar 100) true checkNumber
        then
          let row := {| pay_id := paymentId; pay_invoice := invoiceId;
                        payment_date := pdate; pay_amount := to_column a;
                        payment_method := paymentMethod;
                        check_number := checkNumber;
                        pay_notes := notes |} in
          Some (row, with_payments db (payments db ++ [row]))
        else None
    | _, _ => None
    end.

(** [amount_paid + $1], the sum on which both CASE expressions decide: it
    is not rounded, where the value assigned to the column is. *)
Definition new_total (amount : Q) (old : Invoice) : Q :=
  inject_Z (amount_paid old) + amount.

(** [UPDATE invoices SET amount_paid = amount_paid + $1,
    payment_status = CASE ... END, paid_date = CASE ... END
    WHERE id = $3]; every right-hand side reads the row as it was. *)
Definition apply_payment (amount : Q) (paymentDate : Civil)
    (old : Invoice) : Invoice :=
  {| inv_user := inv_user old; inv_project := inv_project old;
     invoice_number := invoice_number old;
     invoice_date := invoice_date old; due_date := due_date old;
     amount := Store.amount old;
     retainage_percent := retainage_percent old;
     retainage_amount := retainage_amount old;
     amount_paid := to_column (new_total amount old);
     payment_status :=
       if Qle_bool (inject_Z (Store.amount old)) (new_total amount old)
       then Paid
       else if negb (Qle_bool (new_total amount old) 0) then Partial
       else Pending;
     paid_date :=
       if Qle_bool (inject_Z (Store.amount old)) (new_total amount old)
       then Some paymentDate
       else paid_date old;
     inv_description := inv_description old;
     inv_notes := inv_notes old |}.

Definition update_invoice_paid (amount : option Q)
    (paymentDate : option date_text) (invoiceId : string) : Stmt unit :=
  fun db =>
    match amount, paymentDate ≫= sql_date with
    | Some a, Some pdate =>
        match invoices db !! invoiceId with
        | None => Some (tt, db)
        | Some old =>
            let row := apply_payment a pdate old in
            if fits_money (amount_paid row)
            then Some (tt, with_invoices db
                             (<[invoiceId := row]> (invoices db)))
            else None
        end
    | _, _ => None
    end.

Definition recordPayment (lost : nat -> bool) (paymentId : string)
    (invoiceId : string) (body : PaymentBody)
  : DB -> Response Payment * DB :=
  handle (
    if negb (truthy_date (p_paymentDate body))
       || negb (truthy_num (p_amount body))
    then mret R400
    else
      (* Insert payment *)
      paymentResult ← query (lost 0%nat)
        (insert_payment paymentId invoiceId (p_paymentDate body)
           (to_param (p_amount body)) (p_paymentMethod body)
           (p_checkNumber body) (p_notes body));
      (* Update invoice amount_paid and status *)
      _ ← query (lost 1%nat)
        (update_invoice_paid (to_param (p_amount body))
           (p_paymentDate body) invoiceId);
      mret (R201 paymentResult)).

End Invoices.

(** ** [routes/deadlines.ts] *)

Module Deadlines.

(** *** GET / *)

Record Listed : Type := mkListed {
  l_id : string;
  l_row : Deadline;
  days_remaining : Z;
  calculated_priority : Priority
}.

Definition date_le (a b : string * Deadline) : Prop :=
  days_from_civil (year (deadline_date a.2)) (month (deadline_date a.2))
                  (day (deadline_date a.2))
  <= days_from_civil (year (deadline_date b.2)) (month (deadline_date b.2))
                     (day (deadline_date b.2)).

#[global] Instance date_le_dec (a b : string * Deadline)
  : Decision (date_le a b).
Proof. unfold date_le. apply _. Defined.

(** [SELECT d.* FROM deadlines d WHERE d.user_id = $1 [AND d.status = $2]
    ORDER BY d.deadline_date ASC]; the joined project columns are left
    out. *)
Definition select_deadlines (userId : string) (status : option string)
  : Stmt (list (string * Deadline)%type) :=
  fun db =>
    let mine := fun r : string * Deadline =>
      String.eqb (dl_user r.2) userId
      && match status with
         | Some st => String.eqb (status_text (Store.status r.2)) st
         | None => true
         end in
    Some (merge_sort date_le
            (List.filter mine (map_to_list (deadlines db))), db).

(** The body of the [map] callback.  [deadlineDate] is the time value of
    the [Date] the driver delivers for the row's [deadline_date];
    [today] is the clock when the callback runs. *)
Definition derive (deadlineDate today : Z) (r : string * Deadline)
  : Listed :=
  let diffTime := deadlineDate - today in
  let daysRemaining := ceil_div diffTime (1000 * 60 * 60 * 24) in
  (* Determine priority based on days remaining if not manually set *)
  let autoPriority :=
    match priority r.2 with
    | None | Some Normal =>
        if daysRemaining <? 0 then Critical
        else if daysRemaining <=? 7 then Critical
        else if daysRemaining <=? 14 then High
        else if daysRemaining <=? 30 then Normal
        else Low
    | Some p => p
    end in
  {| l_id := r.1; l_row := r.2; days_remaining := daysRemaining;
     calculated_priority := autoPriority |}.

(** [pg_date] is the driver's reading of a [DATE] column as a [Date];
    [clock i] is [new Date()] in the callback of row [i]. *)
Definition listAll (lost : nat -> bool) (pg_date : Civil -> Z)
    (clock : nat -> Z) (userId status : option string)
  : DB -> Response (list Listed) * DB :=
  handle (
    match userId with
    | Some u =>
        if negb (truthy_text userId) then mret R400
        else
          rows ← query (lost 0%nat)
                   (select_deadlines u
                      (if truthy_text status then status else None));
          mret (R200 (imap (fun i r =>
                              derive (pg_date (deadline_date r.2))
                                     (clock i) r) rows))
    | None => mret R400
    end).

(** *** POST /calculate *)

Record CalculateBody : Type := mkCalculateBody {
  k_deadlineType : option string;
  k_triggerDate : option date_text;
  k_projectType : jstext
}.

Record Calculated : Type := mkCalculated {
  deadlineDate : Civil;
  deadlineDays : Z;
  description : string;
  triggerEvent : string;
  statutoryReference : option string
}.

(** [SELECT * FROM colorado_lien_rules WHERE rule_type = $1 AND
    project_type = $2 LIMIT 1]; [project_type = NULL] holds of no row. *)
Definition select_rule (deadlineType : string) (projectType : option string)
  : Stmt (option LienRule) :=
  fun db =>
    Some (List.find (fun r => String.eqb (rule_type r) deadlineType
                              && match projectType with
                                 | Some pt =>
                                     String.eqb (rule_project_type r) pt
                                 | None => false
                                 end)
                    (colorado_lien_rules db), db).

(** [const d = new Date(from); d.setDate(d.getDate() + days);
    d.toISOString().split('T')[0]]; the last step throws on an Invalid
    Date. *)
Definition plus_days_iso (tz : TimeZone) (from : Date) (days : Z)
  : option Civil :=
  let d := from in
  let d := setDate tz d (num_add (getDate tz d) (Some days)) in
  toISODate d.

Definition of_exception {A : Type} (v : option A) : M A :=
  match v with
  | Some a => mret a
  | None => raise
  end.

Definition calculate (lost : nat -> bool) (tz : TimeZone)
    (body : CalculateBody) : DB -> Response Calculated * DB :=
  handle (
    let projectType := or_default "private" (k_projectType body) in
    match k_deadlineType body, k_triggerDate body with
    | Some deadlineType, Some triggerDate =>
        if negb (truthy_text (k_deadlineType body))
           || negb (truthy_date (k_triggerDate body))
        then mret R400
        else
          (* Get Colorado lien law rule *)
          ruleResult ← query (lost 0%nat)
                         (select_rule deadlineType projectType);
          match ruleResult with
          | None => mret R404
          | Some rule =>
              let trigger := Date_parse triggerDate in
              iso ← of_exception
                      (plus_days_iso tz trigger (deadline_days rule));
              mret (R200 {| deadlineDate := iso;
                            deadlineDays := deadline_days rule;
                            description := rule_description rule;
                            triggerEvent := trigger_event rule;
                            statutoryReference :=
                              statutory_reference rule |})
          end
    | _, _ => mret R400
    end).

(** *** Inserting a deadline (POST / and POST /auto-create) *)

Definition iso_text (c : Civil) : date_text :=
  IsoDate (year c) (month c) (day c).

(** [INSERT INTO deadlines (id, user_id, project_id, deadline_type,
    deadline_date, trigger_date, title, description, priority[, notes])
    VALUES (...) RETURNING *] *)
Definition insert_deadline (id : string) (userId projectId : option string)
    (deadlineType : option string) (deadlineDate : option date_text)
    (triggerDate : option date_text) (title description : option string)
    (priority : option string) (notes : option string)
  : Stmt (string * Deadline)%type :=
  fun db =>
    match userId, deadlineType ≫= deadline_type_of_text,
          deadlineDate ≫= sql_date, convert_opt sql_date triggerDate,
          title, convert_opt priority_of_text priority with
    | Some u, Some ty, Some ddate, Some tdate, Some ttl, Some prio =>
        if bool_decide (deadlines db !! id = None)
           && bool_decide (u ∈ users db)
           && match projectId with
              | Some p => bool_decide (is_Some (projects db !! p))
              | None => true
              end
           && fits_varchar 255 ttl
        then
          let row := {| dl_user := u; dl_project := projectId;
                        deadline_type := ty; deadline_date := ddate;
                        trigger_date := tdate; title := ttl;
                        dl_description := description;
                        status := DPending; priority := prio;
                        dl_notes := notes; completed_date := None |} in
          Some ((id, row), with_deadlines db (<[id := row]> (deadlines db)))
        else None
    | _, _, _, _, _, _ => None
    end.

(** *** POST / *)

Record CreateBody : Type := mkCreateBody {
  c_userId : option string;
  c_projectId : option string;
  c_deadlineType : option string;
  c_deadlineDate : option date_text;
  c_triggerDate : option date_text;
  c_title : option string;
  c_description : option string;
  c_priority : jstext;
  c_notes : option string
}.

Definition create (lost : nat -> bool) (id : string) (body : CreateBody)
  : DB -> Response (string * Deadline)%type * DB :=
  handle (
    let priority := or_default "normal" (c_priority body) in
    if negb (truthy_text (c_userId body))
       || negb (truthy_text (c_deadlineType body))
       || negb (truthy_date (c_deadlineDate body))
       || negb (truthy_text (c_title body))
    then mret R400
    else
      row ← query (lost 0%nat)
              (insert_deadline id (c_userId body) (c_projectId body)
                 (c_deadlineType body) (c_deadlineDate body)
                 (c_triggerDate body) (c_title body) (c_description body)
                 priority (c_notes body));
      mret (R201 row)).

(** *** POST /auto-create *)

Record AutoCreateBody : Type := mkAutoCreateBody {
  a_userId : option string;
  a_projectId : option string;
  a_workStartDate : option date_text;
  a_workEndDate : option date_text;
  a_projectType : jstext
}.

(** [SELECT * FROM projects WHERE id = $1] *)
Definition select_project (projectId : string) : Stmt (option Project) :=
  fun db => Some (projects db !! projectId, db).

(** [new Date(workStartDate || project.work_start_date)]: the column
    arrives as a [Date] or as null. *)
Definition start_date (pg_date : Civil -> Z)
    (workStartDate : option date_text) (project : Project) : Date :=
  if truthy_date workStartDate
  then workStartDate ≫= Date_parse
  else match work_start_date project with
       | Some c => Some (pg_date c)
       | None => Date_of_null
       end.

(** A [Date] object is truthy, valid or not. *)
Definition truthy_object {A : Type} (o : A) : bool := true.

Definition autoCreate (lost : nat -> bool) (tz : TimeZone)
    (pg_date : Civil -> Z) (prelimId lienId : string)
    (body : AutoCreateBody)
  : DB -> Response (list (string * Deadline)%type) * DB :=
  handle (
    let projectType := or_default "private" (a_projectType body) in
    match a_projectId body with
    | Some projectId =>
        if negb (truthy_text (a_userId body))
           || negb (truthy_text (a_projectId body))
        then mret R400
        else
          (* Get project details *)
          projectResult ← query (lost 0%nat) (select_project projectId);
          match projectResult with
          | None => mret R404
          | Some project =>
              let startDate :=
                start_date pg_date (a_workStartDate body) project in
              let endDate : option Date :=
                if truthy_date (a_workEndDate body)
                then Some (a_workEndDate body ≫= Date_parse)
                else None in
              (* Create preliminary notice deadline (10 days from start) *)
              created1 ←
                (if truthy_object startDate
                    && strict_eq projectType "private"
                 then
                   prelimDeadline ← of_exception
                                      (plus_days_iso tz startDate 10);
                   startIso ← of_exception (toISODate startDate);
                   prelimResult ← query (lost 1%nat)
                     (insert_deadline prelimId (a_userId body)
                        (Some projectId) (Some "preliminary_notice")
                        (Some (iso_text prelimDeadline))
                        (Some (iso_text startIso))
                        (Some ("Preliminary Notice - "
                               +:+ project_name project))
                        (Some "Send preliminary notice within 10 days of starting work (Colorado law)")
                        (Some "high") None);
                   mret [prelimResult]
                 else mret []);
              (* Create mechanics lien deadline (120 days from end) *)
              created2 ←
                match endDate with
                | Some endDate =>
                    lienDeadline ← of_exception
                                     (plus_days_iso tz endDate 120);
                    endIso ← of_exception (toISODate endDate);
                    lienResult ← query (lost 2%nat)
                      (insert_deadline lienId (a_userId body)
                         (Some projectId)
                         (Some (if strict_eq projectType "private"
                                then "mechanics_lien"
                                else "payment_bond_claim"))
                         (Some (iso_text lienDeadline))
                         (Some (iso_text endIso))
                         (Some ((if strict_eq projectType "private"
                                 then "Mechanics Lien"
                                 else "Payment Bond Claim")
                                +:+ " Filing - " +:+ project_name project))
                         (Some ("File "
                                +:+ (if strict_eq projectType "private"
                                     then "mechanics lien"
                                     else "payment bond claim")
                                +:+ " within 4 months of last work (Colorado law)"))
                         (Some "critical") None);
                    mret (created1 ++ [lienResult])
                | None => mret created1
                end;
              mret (R201 created2)
          end
    | None => mret R400
    end).

(** *** PUT /:id *)

Record UpdateBody : Type := mkUpdateBody {
  u_deadlineDate : option date_text;
  u_title : option string;
  u_description : option string;
  u_status : option string;
  u_priority : option string;
  u_notes : option string;
  u_completedDate : option date_text
}.

(** [UPDATE deadlines SET column = COALESCE($n, column), ...
    WHERE id = $8 RETURNING *] *)
Definition update_deadline (id : string) (body : UpdateBody)
  : Stmt (option (string * Deadline)%type) :=
  fun db =>
    match convert_opt sql_date (u_deadlineDate body),
          convert_opt sql_date (u_completedDate body) with
    | Some ddate, Some cdate =>
        match deadlines db !! id with
        | None => Some (None, db)
        | Some old =>
            match convert_opt status_of_text (u_status body),
                  convert_opt priority_of_text (u_priority body) with
            | Some st, Some prio =>
                let row :=
                  {| dl_user := dl_user old; dl_project := dl_project old;
                     deadline_type := deadline_type old;
                     deadline_date := coalesce ddate (deadline_date old);
                     trigger_date := trigger_date old;
                     title := coalesce (u_title body) (title old);
                     dl_description :=
                       coalesce_null (u_description body)
                                     (dl_description old);
                     status := coalesce st (status old);
                     priority := coalesce_null prio (priority old);
                     dl_notes := coalesce_null (u_notes body) (dl_notes old);
                     completed_date :=
                       coalesce_null cdate (completed_date old) |} in
                if fits_varchar 255 (title row)
                then Some (Some (id, row),
                           with_deadlines db
                             (<[id := row]> (deadlines db)))
                else None
            | _, _ => None
            end
        end
    | _, _ => None
    end.

Definition update (lost : nat -> bool) (id : string) (body : UpdateBody)
  : DB -> Response (string * Deadline)%type * DB :=
  handle (
    result ← query (lost 0%nat) (update_deadline id body);
    match result with
    | None => mret R404
    | Some row => mret (R200 row)
    end).

(** *** POST /:id/complete *)

(** [UPDATE deadlines SET status = 'completed',
    completed_date = CURRENT_DATE WHERE id = $1 RETURNING *] *)
Definition complete_deadline (current_date : Civil) (id : string)
  : Stmt (option (string * Deadline)%type) :=
  fun db =>
    match deadlines db !! id with
    | None => Some (None, db)
    | Some old =>
        let row :=
          {| dl_user := dl_user old; dl_project := dl_project old;
             deadline_type := deadline_type old;
             deadline_date := deadline_date old;
             trigger_date := trigger_date old; title := title old;
             dl_description := dl_description old;
             status := DCompleted; priority := priority old;
             dl_notes := dl_notes old;
             completed_date := Some current_date |} in
        Some (Some (id, row),
              with_deadlines db (<[id := row]> (deadlines db)))
    end.

Definition complete (lost : nat -> bool) (current_date : Civil)
    (id : string) : DB -> Response (string * Deadline)%type * DB :=
  handle (
    result ← query (lost 0%nat) (complete_deadline current_date id);
    match result with
    | None => mret R404
    | Some row => mret (R200 row)
    end).

(** *** DELETE /:id *)

(** [DELETE FROM deadlines WHERE id = $1 RETURNING *] *)
Definition delete_deadline (id : string)
  : Stmt (option (string * Deadline)%type) :=
  fun db =>
    match deadlines db !! id with
    | None => Some (None, db)
    | Some old =>
        Some (Some (id, old),
              with_deadlines db (delete id (deadlines db)))
    end.

Definition delete (lost : nat -> bool) (id : string)
  : DB -> Response unit * DB :=
  handle (
    result ← query (lost 0%nat) (delete_deadline id);
    match result with
    | None => mret R404
    | Some _ => mret (R200 tt)
    end).

End Deadlines.

(** ** What the specification expects of deadline rows *)

Module Expected.

(** completed_date is present iff status = completed. *)
Definition consistent (d : Deadline) : Prop :=
  is_Some (completed_date d) <-> status d = DCompleted.

#[global] Instance consistent_dec (d : Deadline) : Decision (consistent d).
Proof. unfold consistent. apply _. Defined.

Definition all_consistent (db : DB) : Prop :=
  map_Forall (fun _ d => consistent d) (deadlines db).

#[global] Instance all_consistent_dec (db : DB)
  : Decision (all_consistent db).
Proof. unfold all_consistent. apply _. Defined.

(** The preliminary notice of a project: 10 days after the start of
    work, priority high. *)
Definition preliminary_notice_of (userId projectId name : string)
    (start : Civil) : Deadline :=
  {| dl_user := userId; dl_project := Some projectId;
     deadline_type := PreliminaryNotice;
     deadline_date := add_days start 10;
     trigger_date := Some start;
     title := "Preliminary Notice - " +:+ name;
     dl_description :=
       Some "Send preliminary notice within 10 days of starting work (Colorado law)";
     status := DPending; priority := Some High;
     dl_notes := None; completed_date := None |}.

(** The filing of a project: a mechanics lien on a private project, a
    payment bond claim otherwise, 120 days after the end of work,
    priority critical. *)
Definition filing_of (userId projectId name : string) (private : bool)
    (finish : Civil) : Deadline :=
  {| dl_user := userId; dl_project := Some projectId;
     deadline_type := if private then MechanicsLien else PaymentBondClaim;
     deadline_date := add_days finish 120;
     trigger_date := Some finish;
     title := (if private then "Mechanics Lien" else "Payment Bond Claim")
              +:+ " Filing - " +:+ name;
     dl_description :=
       Some ("File "
             +:+ (if private then "mechanics lien"
                  else "payment bond claim")
             +:+ " within 4 months of last work (Colorado law)");
     status := DPending; priority := Some Critical;
     dl_notes := None; completed_date := None |}.

(** The project type of a request is private when the request says so or
    says nothing; a null project type is not private. *)
Definition is_private (projectType : jstext) : bool :=
  strict_eq (or_default "private" projectType) "private".

(** The deadlines of a project: the preliminary notice, on a private
    project only, then the filing, when the end of work is known. *)
Definition auto_deadlines (prelimId lienId userId projectId name : string)
    (private : bool) (start : Civil) (finish : option Civil)
  : list (string * Deadline)%type :=
  (if private
   then [(prelimId, preliminary_notice_of userId projectId name start)]
   else [])
  ++ match finish with
     | Some e => [(lienId, filing_of userId projectId name private e)]
     | None => []
     end.

(** The priority tier of a number of days remaining. *)
Definition tier_of (days : Z) (p : Priority) : Prop :=
  (days < 0 -> p = Critical)
  /\ (0 <= days <= 7 -> p = Critical)
  /\ (7 < days <= 14 -> p = High)
  /\ (14 < days <= 30 -> p = Normal)
  /\ (30 < days -> p = Low).

End Expected.

(** ** Concrete stores and requests *)

Module Samples.

(** The rows seeded by the schema script. *)
Definition seeded_rules : list LienRule :=
  [ mkLienRule "preliminary_notice" "private" 10
      "Preliminary notice must be sent within 10 days of first furnishing labor or materials"
      "first_work_date" (Some "C.R.S. § 38-22-109");
    mkLienRule "mechanics_lien" "private" 120
      "Mechanics lien must be filed within 4 months (120 days) from the last day labor or materials were furnished"
      "last_work_date" (Some "C.R.S. § 38-22-109");
    mkLienRule "mechanics_lien" "public" 120
      "Payment bond claim must be made within 4 months from last furnishing"
      "last_work_date" (Some "C.R.S. § 38-26-107");
    mkLienRule "retainage_release" "private" 60
      "Retainage typically released 30-60 days after project completion"
      "project_completion" (Some "Contract Terms") ].

Definition tower : Project :=
  mkProject "u1" "Tower" (Some "private") None None.

(** One user with one project, no invoice and no deadline yet. *)
Definition db0 : DB :=
  mkDB {["u1"]} {["p1" := tower]} ∅ [] ∅ seeded_rules.

(** Every statement reaches the store. *)
Definition online : nat -> bool := fun _ => false.

(** An invoice of 1000.00 with 10 % retainage. *)
Definition invoice_1000 : Invoices.CreateBody :=
  Invoices.mkCreateBody (Some "u1") (Some "p1") (Some "INV-1")
    (Some (IsoDate 2024 1 2)) (Some (IsoDate 2024 2 1))
    (Num 100000) (Num 1000) None None.

Definition db_invoice : DB := (Invoices.create online "i1" invoice_1000 db0).2.

Definition pay (cents : Q) (y m d : Z) : Invoices.PaymentBody :=
  Invoices.mkPaymentBody (Some (IsoDate y m d)) (Num cents) (Some "check")
    None None.

Definition invoice_open : Invoice :=
  mkInvoice "u1" (Some "p1") "INV-1" (mkCivil 2024 1 2) (mkCivil 2024 2 1)
    100000 (Some 1000) (Some 10000) 0 Pending None None None.

(** An over-payment of 1200.00 on the unpaid invoice. *)
Definition overpaid : Response Payment * DB :=
  Invoices.recordPayment online "pay1" "i1" (pay 120000 2024 1 15)
    db_invoice.

Definition payment_1200 : Payment :=
  mkPayment "pay1" "i1" (mkCivil 2024 1 15) 120000 (Some "check") None None.

(** A first payment of 400.00 ... *)
Definition first_payment : Response Payment * DB :=
  Invoices.recordPayment online "pay1" "i1" (pay 40000 2024 1 15)
    db_invoice.

Definition payment_400 : Payment :=
  mkPayment "pay1" "i1" (mkCivil 2024 1 15) 40000 (Some "check") None None.

Definition db_partial : DB := first_payment.2.

Definition invoice_partial : Invoice :=
  mkInvoice "u1" (Some "p1") "INV-1" (mkCivil 2024 1 2) (mkCivil 2024 2 1)
    100000 (Some 1000) (Some 10000) 40000 Partial None None None.

(** ... and a second payment of 600.00, which settles the invoice. *)
Definition settled : Response Payment * DB :=
  Invoices.recordPayment online "pay2" "i1" (pay 60000 2024 1 20)
    db_partial.

Definition payment_600 : Payment :=
  mkPayment "pay2" "i1" (mkCivil 2024 1 20) 60000 (Some "check") None None.

Definition db_paid : DB := settled.2.

(** A further payment of 1.00 on the settled invoice. *)
Definition paid_again : Response Payment * DB :=
  Invoices.recordPayment online "pay3" "i1" (pay 100 2024 2 20) db_paid.

(** A payment of -200.00 on the partly paid invoice. *)
Definition refunded : Response Payment * DB :=
  Invoices.recordPayment online "pay3" "i1" (pay (-20000) 2024 2 20)
    db_partial.

(** An invoice of 9999999999.99, the largest amount the columns hold,
    paid in full. *)
Definition invoice_max : Invoices.CreateBody :=
  Invoices.mkCreateBody (Some "u1") (Some "p1") (Some "INV-2")
    (Some (IsoDate 2024 1 2)) (Some (IsoDate 2024 2 1))
    (Num 999999999999) Undefined None None.

Definition db_max_paid : DB :=
  (Invoices.recordPayment online "pay1" "i2" (pay 999999999999 2024 1 15)
     (Invoices.create online "i2" invoice_max db0).2).2.

(** A payment of 0.01 on that invoice. *)
Definition torn : Response Payment * DB :=
  Invoices.recordPayment online "pay2" "i2" (pay 1 2024 1 16) db_max_paid.

(** An update that supplies a new amount and nothing else. *)
Definition only_amount (cents : Q) : Invoices.UpdateBody :=
  Invoices.mkUpdateBody None None None (Num cents) Undefined None None
    None None.

(** The amount of the unpaid invoice raised to 2000.00. *)
Definition amount_raised : Response Invoice * DB :=
  Invoices.update online "i1" (only_amount 200000) db_invoice.

(** The create request of [invoice_1000] with amount 0. *)
Definition invoice_zero : Invoices.CreateBody :=
  Invoices.mkCreateBody (Some "u1") (Some "p1") (Some "INV-1")
    (Some (IsoDate 2024 1 2)) (Some (IsoDate 2024 2 1))
    (Num 0) (Num 1000) None None.

Definition notice : Deadlines.CreateBody :=
  Deadlines.mkCreateBody (Some "u1") (Some "p1") (Some "custom")
    (Some (IsoDate 2024 6 1)) None (Some "Send notice") None Absent None.

(** A store with one pending deadline, created through POST /. *)
Definition db_deadline : DB := (Deadlines.create online "d1" notice db0).2.

(** That deadline as listed at 10:00 UTC on 27 May 2024. *)
Definition notice_listed : Deadlines.Listed :=
  Deadlines.mkListed "d1"
    (mkDeadline "u1" (Some "p1") Custom (mkCivil 2024 6 1) None
       "Send notice" None DPending (Some Normal) None None)
    5 Critical.

(** An update that supplies a status and nothing else. *)
Definition only_status (st : string) : Deadlines.UpdateBody :=
  Deadlines.mkUpdateBody None None None (Some st) None None None.

(** The pending deadline set to completed through PUT /:id. *)
Definition marked_completed : Response (string * Deadline) * DB :=
  Deadlines.update online "d1" (only_status "completed") db_deadline.

(** The pending deadline completed through POST /:id/complete on 3 June
    and then set back to pending through PUT /:id. *)
Definition reopened : Response (string * Deadline) * DB :=
  Deadlines.update online "d1" (only_status "pending")
    (Deadlines.complete online (mkCivil 2024 6 3) "d1" db_deadline).2.

Definition auto (start finish : option date_text) (ty : jstext)
  : Deadlines.AutoCreateBody :=
  Deadlines.mkAutoCreateBody (Some "u1") (Some "p1") start finish ty.

(** Work from 1 May to 30 September 2024. *)
Definition may_1 : Civil := mkCivil 2024 5 1.
Definition september_30 : Civil := mkCivil 2024 9 30.

Definition auto_both : Deadlines.AutoCreateBody :=
  auto (Some (Deadlines.iso_text may_1))
       (Deadlines.iso_text <$> Some september_30) Absent.

(** A public project of which only the start of work is known. *)
Definition auto_public_start : Deadlines.AutoCreateBody :=
  auto (Some (IsoDate 2024 5 1)) None (Text "public").

(** A private project of which no date is known. *)
Definition auto_private_undated : Deadlines.AutoCreateBody :=
  auto None None Absent.

(** The clock at 10:00 UTC on 27 May 2024. *)
Definition clock_may_27 : nat -> Z :=
  fun _ => MakeDate (days_from_civil 2024 5 27) (10 * msPerHour).

(** The seeded preliminary-notice rule applied to 1 March 2024. *)
Definition from_march_1 : Deadlines.CalculateBody :=
  Deadlines.mkCalculateBody (Some "preliminary_notice")
    (Some (IsoDate 2024 3 1)) Absent.

(** node-postgres reads a [DATE] as local midnight; on a UTC host that
    is midnight UTC. *)
Definition pg_date_utc (c : Civil) : Z :=
  MakeDate (days_from_civil (year c) (month c) (day c)) 0.

End Samples.

(** ** The other routes of [routes/invoices.ts] *)

Module InvoiceRoutes.

(** *** GET /:id *)

(** [SELECT i.* FROM invoices i WHERE i.id = $1]; the joined project
    columns are left out.  The ids of the table are UUIDs: a text that
    is none finds no row and makes the statement fail. *)
Definition select_invoice (id : string) : Stmt (option Invoice) :=
  fun db =>
    match invoices db !! id with
    | Some invoice => Some (Some invoice, db)
    | None => if is_uuid id then Some (None, db) else None
    end.

Definition later_first (a b : Payment) : Prop :=
  days_from_civil (year (payment_date b)) (month (payment_date b))
                  (day (payment_date b))
  <= days_from_civil (year (payment_date a)) (month (payment_date a))
                     (day (payment_date a)).

#[global] Instance later_first_dec (a b : Payment)
  : Decision (later_first a b).
Proof. unfold later_first. apply _. Defined.

(** [SELECT * FROM payments WHERE invoice_id = $1
    ORDER BY payment_date DESC] *)
Definition select_payments (id : string) : Stmt (list Payment) :=
  fun db =>
    Some (merge_sort later_first
            (List.filter (fun p => String.eqb (pay_invoice p) id)
                         (payments db)), db).

Definition getOne (lost : nat -> bool) (id : string)
  : DB -> Response (Invoice * list Payment)%type * DB :=
  handle (
    invoiceResult ← query (lost 0%nat) (select_invoice id);
    match invoiceResult with
    | None => mret R404
    | Some invoice =>
        paymentsResult ← query (lost 1%nat) (select_payments id);
        mret (R200 (invoice, paymentsResult))
    end).

(** *** DELETE /:id *)

(** [DELETE FROM invoices WHERE id = $1 RETURNING *]; the payments of the
    invoice go with it ([ON DELETE CASCADE]).  A text that is no UUID
    makes the statement fail. *)
Definition delete_invoice (id : string) : Stmt (option Invoice) :=
  fun db =>
    match invoices db !! id with
    | None => if is_uuid id then Some (None, db) else None
    | Some old =>
        Some (Some old,
              with_payments
                (with_invoices db (delete id (invoices db)))
                (List.filter (fun p => negb (String.eqb (pay_invoice p) id))
                             (payments db)))
    end.

Definition remove (lost : nat -> bool) (id : string)
  : DB -> Response unit * DB :=
  handle (
    result ← query (lost 0%nat) (delete_invoice id);
    match result with
    | None => mret R404
    | Some _ => mret (R200 tt)
    end).

(** *** GET /stats/dashboard: the two totals *)

(** The values of the handler's first two statements, in cents.  Its
    third statement counts the projects by [project_status], a column the
    rows modelled here do not carry. *)

Definition sum_balances (l : list (string * Invoice)) : Z :=
  foldr (fun r s => (amount r.2 - amount_paid r.2) + s) 0 l.

(** [SELECT COALESCE(SUM(amount - amount_paid), 0) FROM invoices
    WHERE user_id = $1 AND payment_status != 'paid'] *)
Definition total_outstanding (userId : string) (db : DB) : Z :=
  sum_balances
    (List.filter (fun r => String.eqb (inv_user r.2) userId
                           && negb (bool_decide (payment_status r.2 = Paid)))
                 (map_to_list (invoices db))).

(** [... AND due_date < CURRENT_DATE] *)
Definition total_overdue (current_date : Civil) (userId : string) (db : DB)
  : Z :=
  sum_balances
    (List.filter (fun r => String.eqb (inv_user r.2) userId
                           && negb (bool_decide (payment_status r.2 = Paid))
                           && (days_from_civil (year (due_date r.2))
                                 (month (due_date r.2)) (day (due_date r.2))
                               <? days_from_civil (year current_date)
                                    (month current_date) (day current_date)))
                 (map_to_list (invoices db))).

(** *** POST /import: the status given to an imported invoice *)

(** [dueDate < today] on two [Date]s: false when either is invalid. *)
Definition date_lt (a : Date) (b : Date) : bool :=
  match a, b with
  | Some x, Some y => x <? y
  | _, _ => false
  end.

(** The body of the callback that computes [payment_status]: [paid] and
    [billed] are the parsed amounts, in cents, [dueDate] is
    [new Date(inv.due_date)] and [today] is [new Date()]. *)
Definition imported_status (paid billed : Z) (dueDate today : Date)
  : PaymentStatus :=
  if billed <=? paid then Paid
  else if (0 <? paid) && (paid <? billed) then Partial
  else if date_lt dueDate today && (paid <? billed) then Overdue
  else Pending.

End InvoiceRoutes.

(** ** The other routes of [routes/deadlines.ts] *)

Module DeadlineRoutes.

(** *** GET /upcoming *)

Definition day_number (c : Civil) : Z :=
  days_from_civil (year c) (month c) (day c).

(** [SELECT d.* FROM deadlines d WHERE d.user_id = $1
    AND d.status = 'pending'
    AND d.deadline_date BETWEEN CURRENT_DATE
                            AND CURRENT_DATE + INTERVAL '30 days'
    ORDER BY d.deadline_date ASC LIMIT 10]; the joined project columns are
    left out. *)
Definition is_upcoming (current_date : Civil) (userId : string)
    (r : string * Deadline) : bool :=
  String.eqb (dl_user r.2) userId
  && bool_decide (status r.2 = DPending)
  && (day_number current_date <=? day_number (deadline_date r.2))
  && (day_number (deadline_date r.2) <=? day_number current_date + 30).

Definition select_upcoming (current_date : Civil) (userId : string)
  : Stmt (list (string * Deadline)%type) :=
  fun db =>
    Some (take 10 (merge_sort Deadlines.date_le
                     (List.filter (is_upcoming current_date userId)
                                  (map_to_list (deadlines db)))), db).

Definition upcoming (lost : nat -> bool) (current_date : Civil)
    (userId : option string)
  : DB -> Response (list (string * Deadline)%type) * DB :=
  handle (
    match userId with
    | Some u =>
        if negb (truthy_text userId) then mret R400
        else
          result ← query (lost 0%nat) (select_upcoming current_date u);
          mret (R200 result)
    | None => mret R400
    end).

End DeadlineRoutes.

(** ** [routes/projects.ts]: DELETE /:id *)

Module Projects.

Definition unlink_invoice (projectId : string) (i : Invoice) : Invoice :=
  if bool_decide (inv_project i = Some projectId)
  then mkInvoice (inv_user i) None (invoice_number i) (invoice_date i)
         (due_date i) (amount i) (retainage_percent i) (retainage_amount i)
         (amount_paid i) (payment_status i) (paid_date i)
         (inv_description i) (inv_notes i)
  else i.

Definition unlink_deadline (projectId : string) (d : Deadline) : Deadline :=
  if bool_decide (dl_project d = Some projectId)
  then mkDeadline (dl_user d) None (deadline_type d) (deadline_date d)
         (trigger_date d) (title d) (dl_description d) (status d)
         (priority d) (dl_notes d) (completed_date d)
  else d.

(** [DELETE FROM projects WHERE id = $1 RETURNING *]; invoices and
    deadlines of the project stay, without their project
    ([ON DELETE SET NULL]). *)
Definition delete_project (id : string) : Stmt (option Project) :=
  fun db =>
    match projects db !! id with
    | None => Some (None, db)
    | Some old =>
        Some (Some old,
              mkDB (users db) (delete id (projects db))
                   (unlink_invoice id <$> invoices db) (payments db)
                   (unlink_deadline id <$> deadlines db)
                   (colorado_lien_rules db))
    end.

Definition remove (lost : nat -> bool) (id : string)
  : DB -> Response unit * DB :=
  handle (
    result ← query (lost 0%nat) (delete_project id);
    match result with
    | None => mret R404
    | Some _ => mret (R200 tt)
    end).

End Projects.

(** ** [routes/emails.ts]: the urgency of a deadline warning *)

Module Emails.

Inductive Urgency : Type := URGENT | Important | Upcoming.

(** [Math.floor((deadlineDate.getTime() - today.getTime())
    / (1000 * 60 * 60 * 24))], on the time values of
    [new Date(deadline.deadline_date)] and [new Date()]. *)
Definition daysRemaining (deadlineDate today : Z) : Z :=
  (deadlineDate - today) / (1000 * 60 * 60 * 24).

Definition urgencyLevel (daysRemaining : Z) : Urgency :=
  if daysRemaining <=? 7 then URGENT
  else if daysRemaining <=? 14 then Important
  else Upcoming.

End Emails.

(** ** Properties of the store that the routes are checked against *)

Module Accounts.

(** The payments of the ledger booked on invoice [id], added up. *)
Definition paid_total (id : string) (l : list Payment) : Z :=
  foldr (fun p s => if String.eqb (pay_invoice p) id
                    then pay_amount p + s else s) 0 l.

(** The amounts of a list of payments, added up. *)
Definition total (l : list Payment) : Z :=
  foldr (fun p s => pay_amount p + s) 0 l.

(** Every invoice's amount_paid is the sum of its payments. *)
Definition balanced (db : DB) : Prop :=
  map_Forall (fun id inv => amount_paid inv = paid_total id (payments db))
             (invoices db).

(** Every payment is booked on an invoice of the store (the foreign key
    of [payments.invoice_id]). *)
Definition no_orphans (db : DB) : Prop :=
  Forall (fun p => is_Some (invoices db !! pay_invoice p)) (payments db).

Definition ledger_ok (db : DB) : Prop := balanced db /\ no_orphans db.

#[global] Instance ledger_ok_dec (db : DB) : Decision (ledger_ok db).
Proof. unfold ledger_ok, balanced, no_orphans. apply _. Defined.

(** The columns of an invoice row hold their values. *)
Definition storable (i : Invoice) : bool :=
  fits_varchar 100 (invoice_number i)
  && fits_money (amount i)
  && from_option fits_percent true (retainage_percent i)
  && from_option fits_money true (retainage_amount i).

End Accounts.

(** ** Further requests and stores, for the examples *)

Module Cases.

(** The id of no stored row. *)
Definition unknown_id : string := "3f2504e0-4f89-41d3-9a0c-0305e82c3301".

(** PUT /invoices/:id with a null amount and a retainage of 5 %. *)
Definition null_amount : Invoices.UpdateBody :=
  Invoices.mkUpdateBody None None None Null (Num 500) None None None None.

(** An invoice billed at 1000.00 in the import file, nothing paid. *)
Definition billed_1000 : Invoice :=
  mkInvoice "u1" None "INV-7" (mkCivil 2024 2 1) (mkCivil 2024 2 1)
    100000 (Some 0) (Some 0) 0 Pending None None None.

(** POST /deadlines/calculate with a trigger date that is no date. *)
Definition from_someday : Deadlines.CalculateBody :=
  Deadlines.mkCalculateBody (Some "preliminary_notice")
    (Some (OtherText "someday")) Absent.

(** Work on a private project from 1 May 2024, the end of work given as
    a text that is no date. *)
Definition auto_bad_end : Deadlines.AutoCreateBody :=
  Samples.auto (Some (Deadlines.iso_text Samples.may_1))
    (Some (OtherText "tbd")) Absent.

(** The store of [Samples.db0] with a deadline and an invoice on the
    project. *)
Definition db_project : DB :=
  (Invoices.create Samples.online "i1" Samples.invoice_1000
     Samples.db_deadline).2.

(** An invoice of 100.00 without retainage, on which 33.34 is paid. *)
Definition invoice_100 : Invoices.CreateBody :=
  Invoices.mkCreateBody (Some "u1") (Some "p1") (Some "INV-3")
    (Some (IsoDate 2024 1 2)) (Some (IsoDate 2024 2 1))
    (Num 10000) Undefined None None.

Definition db_third : DB :=
  (Invoices.recordPayment Samples.online "pay1" "i3"
     (Samples.pay 3334 2024 1 15)
     (Invoices.create Samples.online "i3" invoice_100 Samples.db0).2).2.

(** A further payment of 66.656 on that invoice. *)
Definition fraction_paid : Response Payment * DB :=
  Invoices.recordPayment Samples.online "pay2" "i3"
    (Samples.pay 6665.6 2024 1 20) db_third.

(** An invoice of 10.00 on which 1.00 is paid. *)
Definition invoice_10 : Invoices.CreateBody :=
  Invoices.mkCreateBody (Some "u1") (Some "p1") (Some "INV-4")
    (Some (IsoDate 2024 1 2)) (Some (IsoDate 2024 2 1))
    (Num 1000) Undefined None None.

Definition db_one_paid : DB :=
  (Invoices.recordPayment Samples.online "pay1" "i4"
     (Samples.pay 100 2024 1 15)
     (Invoices.create Samples.online "i4" invoice_10 Samples.db0).2).2.

(** A payment of -0.005 on that invoice, and one of 0.004. *)
Definition half_cent_back : Response Payment * DB :=
  Invoices.recordPayment Samples.online "pay2" "i4"
    (Samples.pay (-0.5) 2024 1 20) db_one_paid.

Definition tiny_payment : Response Payment * DB :=
  Invoices.recordPayment Samples.online "pay2" "i4"
    (Samples.pay 0.4 2024 1 20) db_one_paid.

(** The create request of [Samples.invoice_1000] with the amount 0.004,
    and with the text 0 for the amount. *)
Definition invoice_tiny : Invoices.CreateBody :=
  Invoices.mkCreateBody (Some "u1") (Some "p1") (Some "INV-1")
    (Some (IsoDate 2024 1 2)) (Some (IsoDate 2024 2 1))
    (Num 0.4) (Num 1000) None None.

Definition invoice_text_zero : Invoices.CreateBody :=
  Invoices.mkCreateBody (Some "u1") (Some "p1") (Some "INV-1")
    (Some (IsoDate 2024 1 2)) (Some (IsoDate 2024 2 1))
    (NumText 0) (Num 1000) None None.

(** POST /deadlines/auto-create and POST /deadlines/calculate with a
    null project type. *)
Definition auto_null_type : Deadlines.AutoCreateBody :=
  Samples.auto (Some (Deadlines.iso_text Samples.may_1))
    (Deadlines.iso_text <$> Some Samples.september_30) NullText.

Definition from_march_1_null : Deadlines.CalculateBody :=
  Deadlines.mkCalculateBody (Some "preliminary_notice")
    (Some (IsoDate 2024 3 1)) NullText.

End Cases.


(** * Properties *)

(** ** Calendar facts *)

Ltac split_andb :=
  repeat match goal with
  | H : _ && _ = true |- _ => apply andb_prop in H as [? ?]
  end.

Ltac bool_to_Z :=
  repeat match goal with
  | H : _ && _ = true |- _ => apply andb_prop in H as [? ?]
  | H : (_ <=? _) = true |- _ => apply Z.leb_le in H
  | H : (_ <? _) = true |- _ => apply Z.ltb_lt in H
  | H : (_ =? _) = true |- _ => apply Z.eqb_eq in H
  end.

Ltac eqb_cases :=
  repeat match goal with
  | |- context [?a =? ?b] => destruct (Z.eqb_spec a b)
  | |- context [?a <=? ?b] => destruct (Z.leb_spec a b)
  | |- context [?a <? ?b] => destruct (Z.ltb_spec a b)
  end; cbn [negb andb orb].

Ltac div_lia := Z.div_mod_to_equations; lia.

Lemma year_of_era_spec (doe : Z) :
  0 <= doe < 146097 ->
  0 <= year_of_era doe < 400
  /\ 0 <= doe - year_start (year_of_era doe)
          <= 364 + leap_after (year_of_era doe).
Proof.
  intros H. unfold leap_after, is_leap, year_of_era, year_start.
  eqb_cases; div_lia.
Qed.

Lemma year_of_era_unique (yoe r : Z) :
  0 <= yoe < 400 -> 0 <= r <= 364 + leap_after yoe ->
  0 <= year_start yoe + r < 146097
  /\ year_of_era (year_start yoe + r) = yoe.
Proof.
  unfold leap_after, is_leap, year_of_era, year_start.
  eqb_cases; intros; div_lia.
Qed.

Lemma month_range (m : Z) :
  1 <= m <= 12 ->
  m = 1 \/ m = 2 \/ m = 3 \/ m = 4 \/ m = 5 \/ m = 6 \/ m = 7 \/ m = 8
  \/ m = 9 \/ m = 10 \/ m = 11 \/ m = 12.
Proof. lia. Qed.

Ltac each_month H :=
  apply month_range in H;
  repeat (destruct H as [H | H]; [subst|]); [..|subst].

(** Days of a month in a year of the era: February is the last month of
    the year that starts on 1 March. *)
Lemma month_day_spec (yoe doy : Z) :
  0 <= doy <= 364 + leap_after yoe ->
  1 <= (month_day doy).1 <= 12
  /\ 1 <= (month_day doy).2
       <= days_in_month (if (month_day doy).1 <=? 2 then yoe + 1 else yoe)
                        (month_day doy).1
  /\ month_start (month_day doy).1 + ((month_day doy).2 - 1) = doy.
Proof.
  intros H. unfold month_day. cbn [fst snd].
  assert (Hmp : 0 <= (5 * doy + 2) / 153 <= 11)
    by (unfold leap_after in H; destruct (is_leap (yoe + 1)); div_lia).
  set (mp := (5 * doy + 2) / 153) in *.
  assert (Hdoy : (153 * mp + 2) / 5 <= doy < (153 * (mp + 1) + 2) / 5)
    by (subst mp; div_lia).
  assert (mp = 0 \/ mp = 1 \/ mp = 2 \/ mp = 3 \/ mp = 4 \/ mp = 5 \/ mp = 6
          \/ mp = 7 \/ mp = 8 \/ mp = 9 \/ mp = 10 \/ mp = 11) as Hcase by lia.
  clearbody mp.
  repeat (destruct Hcase as [Hcase | Hcase]; [subst mp|]); [..|subst mp];
    unfold days_in_month, month_start, leap_after in *; eqb_cases;
    try lia; destruct (is_leap (yoe + 1)); div_lia.
Qed.

Lemma month_day_unique (yoe m d : Z) :
  1 <= m <= 12 ->
  1 <= d <= days_in_month (if m <=? 2 then yoe + 1 else yoe) m ->
  0 <= month_start m + (d - 1) <= 364 + leap_after yoe
  /\ month_day (month_start m + (d - 1)) = (m, d).
Proof.
  intros Hm Hd.
  assert (Hmp : (5 * (month_start m + (d - 1)) + 2) / 153
                = if 2 <? m then m - 3 else m + 9).
  { each_month Hm; revert Hd; unfold days_in_month, month_start;
      eqb_cases; try lia; intros Hd; destruct (is_leap (yoe + 1)); div_lia. }
  unfold month_day. rewrite Hmp. clear Hmp.
  each_month Hm; revert Hd; unfold days_in_month, month_start, leap_after;
    eqb_cases; try lia; intros Hd; destruct (is_leap (yoe + 1));
    (split; [div_lia|f_equal; div_lia]).
Qed.

Lemma era_split_spec (doe : Z) :
  0 <= doe < 146097 ->
  exists yoe m d,
    era_split doe = (yoe, m, d)
    /\ 0 <= yoe < 400 /\ 1 <= m <= 12
    /\ 1 <= d <= days_in_month (if m <=? 2 then yoe + 1 else yoe) m
    /\ era_month_start yoe m + (d - 1) = doe.
Proof.
  intros H. destruct (year_of_era_spec doe H) as [Hy Hdoy].
  destruct (month_day_spec _ _ Hdoy) as (Hm & Hd & Hs).
  unfold era_split.
  destruct (month_day (doe - year_start (year_of_era doe))) as [m d].
  cbn [fst snd] in *. exists (year_of_era doe), m, d.
  unfold era_month_start. repeat split; try tauto; lia.
Qed.

Lemma era_split_unique (yoe m d : Z) :
  0 <= yoe < 400 -> 1 <= m <= 12 ->
  1 <= d <= days_in_month (if m <=? 2 then yoe + 1 else yoe) m ->
  0 <= era_month_start yoe m + (d - 1) < 146097
  /\ era_split (era_month_start yoe m + (d - 1)) = (yoe, m, d).
Proof.
  intros Hy Hm Hd.
  destruct (month_day_unique yoe m d Hm Hd) as [Hr Hmd].
  destruct (year_of_era_unique yoe _ Hy Hr) as [Hdoe Hyoe].
  unfold era_month_start.
  replace (year_start yoe + month_start m + (d - 1))
    with (year_start yoe + (month_start m + (d - 1))) by lia.
  split; [exact Hdoe|]. unfold era_split. rewrite Hyoe.
  replace (year_start yoe + (month_start m + (d - 1)) - year_start yoe)
    with (month_start m + (d - 1)) by lia.
  rewrite Hmd. reflexivity.
Qed.

Lemma is_leap_shift (a e : Z) : is_leap (a + e * 400) = is_leap a.
Proof.
  unfold is_leap.
  replace (a + e * 400) with (a + (e * 100) * 4) at 1 by lia.
  replace (a + e * 400) with (a + (e * 4) * 100) at 1 by lia.
  rewrite !Z.mod_add by lia. reflexivity.
Qed.

Lemma days_in_month_shift (y e m : Z) :
  days_in_month (y + e * 400) m = days_in_month y m.
Proof. unfold days_in_month. rewrite is_leap_shift. reflexivity. Qed.

(** The calendar date of a day number: it exists in the calendar, and its
    own day number is the one it came from. *)
Lemma civil_from_days_spec (n : Z) :
  valid_civil (civil_from_days n) = true
  /\ days_from_civil (year (civil_from_days n)) (month (civil_from_days n))
                     (day (civil_from_days n)) = n.
Proof.
  unfold civil_from_days.
  pose proof (Z.mod_pos_bound (n + 719468) 146097 ltac:(lia)) as Hdoe.
  pose proof (Z.div_mod (n + 719468) 146097 ltac:(lia)) as Hz.
  destruct (era_split_spec _ Hdoe) as (yoe & m & d & -> & Hy & Hm & Hd & Hs).
  set (e := (n + 719468) / 146097) in *.
  cbn [year month day].
  assert (Hyear : (if m <=? 2 then yoe + e * 400 + 1 else yoe + e * 400)
                  = (if m <=? 2 then yoe + 1 else yoe) + e * 400)
    by (destruct (m <=? 2); lia).
  split.
  - unfold valid_civil. cbn [year month day].
    rewrite Hyear, days_in_month_shift.
    repeat (apply andb_true_intro; split); apply Z.leb_le; lia.
  - unfold days_from_civil.
    replace (if m <=? 2
             then (if m <=? 2 then yoe + e * 400 + 1 else yoe + e * 400) - 1
             else (if m <=? 2 then yoe + e * 400 + 1 else yoe + e * 400))
      with (yoe + e * 400) by (destruct (m <=? 2); lia).
    rewrite Z.div_add by lia. rewrite Z.mod_add by lia.
    rewrite Z.div_small by lia. rewrite Z.mod_small by lia. lia.
Qed.

Lemma valid_civil_from_days (n : Z) : valid_civil (civil_from_days n) = true.
Proof. apply civil_from_days_spec. Qed.

Lemma days_from_civil_from_days (n : Z) :
  days_from_civil (year (civil_from_days n)) (month (civil_from_days n))
                  (day (civil_from_days n)) = n.
Proof. apply civil_from_days_spec. Qed.

Lemma valid_civil_bounds (c : Civil) :
  valid_civil c = true ->
  1 <= month c <= 12 /\ 1 <= day c <= days_in_month (year c) (month c)
  /\ day c <= 31.
Proof.
  unfold valid_civil. intros H. bool_to_Z.
  repeat split; try lia.
  unfold days_in_month in *.
  repeat match goal with
         | H : context [if ?b then _ else _] |- _ => destruct b
         end; lia.
Qed.

(** Going from a calendar date to its day number and back. *)
Lemma civil_from_days_from_civil (c : Civil) :
  valid_civil c = true ->
  civil_from_days (days_from_civil (year c) (month c) (day c)) = c.
Proof.
  intros Hv. destruct (valid_civil_bounds c Hv) as (Hm & Hd & _).
  destruct c as [y m d]. cbn [year month day] in *.
  set (y' := if m <=? 2 then y - 1 else y).
  pose proof (Z.mod_pos_bound y' 400 ltac:(lia)) as Hyoe.
  pose proof (Z.div_mod y' 400 ltac:(lia)) as Hy'.
  assert (Hdim : days_in_month (if m <=? 2 then y' mod 400 + 1
                                else y' mod 400) m
                 = days_in_month y m).
  { rewrite <- (days_in_month_shift _ (y' / 400)). f_equal.
    unfold y' in *. destruct (m <=? 2); lia. }
  destruct (era_split_unique (y' mod 400) m d Hyoe Hm
              ltac:(rewrite Hdim; exact Hd)) as [Hdoe Hsplit].
  unfold civil_from_days, days_from_civil. fold y'.
  replace (y' / 400 * 146097 + era_month_start (y' mod 400) m + (d - 1)
           - 719468 + 719468)
    with (era_month_start (y' mod 400) m + (d - 1) + y' / 400 * 146097)
    by lia.
  rewrite Z.div_add by lia. rewrite Z.mod_add by lia.
  rewrite Z.div_small by lia. rewrite Z.mod_small by lia.
  rewrite Hsplit. f_equal. unfold y' in *. destruct (m <=? 2); lia.
Qed.

Lemma MakeDay_in_year (y m d : Z) :
  1 <= m <= 12 -> MakeDay y (m - 1) d = days_from_civil y m d.
Proof.
  intros Hm. unfold MakeDay.
  replace ((m - 1) / 12) with 0 by (symmetry; apply Z.div_small; lia).
  replace ((m - 1) mod 12 + 1) with m by (rewrite Z.mod_small; lia).
  rewrite Z.add_0_r. unfold days_from_civil. lia.
Qed.

Lemma civil_from_days_month (n : Z) : 1 <= month (civil_from_days n) <= 12.
Proof. apply valid_civil_bounds, valid_civil_from_days. Qed.

(** Going from a day number to the calendar and back, with any day of the
    month substituted, lands that many days away. *)
Lemma MakeDay_civil_from_days (n k : Z) :
  MakeDay (year (civil_from_days n)) (month (civil_from_days n) - 1) k
  = n + (k - day (civil_from_days n)).
Proof.
  rewrite MakeDay_in_year by apply civil_from_days_month.
  pose proof (days_from_civil_from_days n) as H.
  unfold days_from_civil in *. lia.
Qed.

(** The day after a date of the calendar is a date of the calendar, one
    day number further. *)
Lemma days_from_civil_next_day (c : Civil) :
  valid_civil c = true ->
  valid_civil (next_day c) = true
  /\ days_from_civil (year (next_day c)) (month (next_day c))
                     (day (next_day c))
     = days_from_civil (year c) (month c) (day c) + 1.
Proof.
  intros Hv. destruct (valid_civil_bounds c Hv) as (Hm & Hd & _).
  destruct c as [y m d]. cbn [year month day] in *.
  unfold next_day. cbn [year month day].
  destruct (Z.ltb_spec d (days_in_month y m)) as [Hlt | Hge].
  - split.
    + unfold valid_civil. cbn [year month day].
      repeat (apply andb_true_intro; split); apply Z.leb_le; lia.
    + cbn [year month day]. unfold days_from_civil. lia.
  - assert (d = days_in_month y m) as -> by lia. clear Hd Hge Hv.
    destruct (Z.ltb_spec m 12) as [Hm12 | Hm12].
    + cbn [year month day]. split.
      * unfold valid_civil. cbn [year month day].
        repeat (apply andb_true_intro; split); apply Z.leb_le; try lia.
        unfold days_in_month.
        repeat match goal with
               | |- context [if ?b then _ else _] => destruct b
               end; lia.
      * assert (m = 1 \/ m = 2 \/ m = 3 \/ m = 4 \/ m = 5 \/ m = 6 \/ m = 7
                \/ m = 8 \/ m = 9 \/ m = 10 \/ m = 11) as Hcase by lia.
        repeat (destruct Hcase as [Hcase | Hcase]; [subst m|]);
          [..|subst m];
          unfold days_from_civil, era_month_start, year_start, month_start,
                 days_in_month, is_leap;
          eqb_cases; try lia; div_lia.
    + assert (m = 12) as -> by lia. cbn [year month day]. split.
      * reflexivity.
      * unfold days_from_civil, era_month_start, year_start, month_start,
               days_in_month, is_leap.
        eqb_cases; try lia; div_lia.
Qed.

(** The date of day [n + 1] is the day after the date of day [n]. *)
Lemma civil_from_days_succ (n : Z) :
  civil_from_days (n + 1) = next_day (civil_from_days n).
Proof.
  destruct (days_from_civil_next_day (civil_from_days n)
              (valid_civil_from_days n)) as [Hv Hd].
  rewrite days_from_civil_from_days in Hd. rewrite <- Hd.
  apply civil_from_days_from_civil, Hv.
Qed.

Example epoch_is_1970 : civil_from_days 0 = mkCivil 1970 1 1.
Proof. reflexivity. Qed.

(** Adding days is stepping through the calendar a day at a time. *)
Lemma add_days_steps (c : Civil) (k : nat) :
  valid_civil c = true ->
  add_days c (Z.of_nat k) = Nat.iter k next_day c.
Proof.
  intros Hv. induction k as [|k IH].
  - unfold add_days. rewrite Z.add_0_r.
    apply civil_from_days_from_civil, Hv.
  - rewrite Nat.iter_succ, <- IH. unfold add_days.
    rewrite <- civil_from_days_succ. f_equal. lia.
Qed.

(** Adding no day leaves a calendar date where it is, and adding days in
    two steps is adding them at once. *)
Lemma add_days_0 (c : Civil) : valid_civil c = true -> add_days c 0 = c.
Proof.
  intros H. unfold add_days. rewrite Z.add_0_r.
  apply civil_from_days_from_civil, H.
Qed.

Lemma add_days_add_days (c : Civil) (j k : Z) :
  add_days (add_days c j) k = add_days c (j + k).
Proof.
  unfold add_days. rewrite days_from_civil_from_days. f_equal. lia.
Qed.

(** ** Local-time arithmetic on a host without daylight saving *)

Lemma Day_add_days (t k : Z) : Day (t + k * msPerDay) = Day t + k.
Proof. unfold Day, msPerDay. rewrite Z.div_add by lia. reflexivity. Qed.

Lemma plus_days_iso_fixed (tz : TimeZone) (c t0 k : Z) :
  fixed_offset tz c ->
  Z.abs (t0 + k * msPerDay) <= maxTime ->
  Deadlines.plus_days_iso tz (Some t0) k
  = Some (add_days (civil_from_days (Day t0)) k).
Proof.
  intros Hfix Hclip.
  unfold Deadlines.plus_days_iso, getDate, num_add, setDate.
  unfold LocalTime, UTC.
  destruct (Hfix t0) as [Hu _]. rewrite Hu.
  unfold YearFromTime, MonthFromTime, DateFromTime.
  pose proof (MakeDay_civil_from_days (Day (t0 + c))
                (day (civil_from_days (Day (t0 + c))) + k)) as HMD.
  cbv zeta in HMD. rewrite HMD. clear HMD.
  match goal with
  | |- context [offset_at_local tz ?x] => destruct (Hfix x) as [_ Hl]
  end.
  rewrite Hl.
  replace (MakeDate
             (Day (t0 + c)
              + (day (civil_from_days (Day (t0 + c))) + k
                 - day (civil_from_days (Day (t0 + c)))))
             (TimeWithinDay (t0 + c)) - c)
    with (t0 + k * msPerDay).
  2:{ unfold MakeDate, Day, TimeWithinDay.
      pose proof (Z.div_mod (t0 + c) msPerDay ltac:(unfold msPerDay; lia)).
      lia. }
  unfold TimeClip.
  replace (Z.abs (t0 + k * msPerDay) <=? maxTime) with true
    by (symmetry; apply Z.leb_le; exact Hclip).
  unfold toISODate. rewrite Day_add_days.
  unfold add_days. rewrite days_from_civil_from_days. reflexivity.
Qed.

(** The time value of a calendar date written in ISO form. *)
Lemma Date_parse_iso (s : Civil) :
  valid_civil s = true -> 0 <= year s <= 9999 ->
  Date_parse (Deadlines.iso_text s)
  = Some (MakeDate (days_from_civil (year s) (month s) (day s)) 0)
  /\ Z.abs (days_from_civil (year s) (month s) (day s)) <= 4000000.
Proof.
  destruct s as [y m d]. unfold valid_civil. cbn [year month day].
  intros Hv Hy. bool_to_Z.
  assert (Hd31 : d <= 31).
  { unfold days_in_month in *.
    repeat match goal with
           | H : context [if ?b then _ else _] |- _ => destruct b
           end; lia. }
  assert (Hb : Z.abs (days_from_civil y m d) <= 4000000).
  { unfold days_from_civil, era_month_start, year_start, month_start.
    destruct (Z.leb_spec m 2), (Z.ltb_spec 2 m); try lia; div_lia. }
  split; [|exact Hb].
  unfold Deadlines.iso_text, Date_parse. cbn [year month day].
  replace ((0 <=? y) && (y <=? 9999) && (1 <=? m) && (m <=? 12)
           && (1 <=? d) && (d <=? 31)) with true
    by (symmetry; repeat (apply andb_true_intro; split);
        first [apply Z.leb_le; lia]).
  rewrite MakeDay_in_year by lia.
  unfold TimeClip, MakeDate, maxTime, msPerDay in *.
  replace (Z.abs (days_from_civil y m d * 86400000 + 0)
           <=? 8640000000000000) with true
    by (symmetry; apply Z.leb_le; lia).
  reflexivity.
Qed.


(** ** Rounding to the cent *)

Lemma round_half_away_nearest (x den : Z) :
  0 < den -> 2 * Z.abs (den * round_half_away x den - x) <= den.
Proof.
  intros Hd. unfold round_half_away.
  destruct (Z.sgn_spec x) as [[? ->]|[[? ->]|[? ->]]];
    Z.div_mod_to_equations; nia.
Qed.

Lemma round_half_away_whole (n den : Z) :
  0 < den -> round_half_away (n * den) den = n.
Proof.
  intros Hd. unfold round_half_away.
  destruct (Z.sgn_spec n) as [[Hn Hs]|[[Hn Hs]|[Hn Hs]]].
  - replace (Z.sgn (n * den)) with 1 by (symmetry; apply Z.sgn_pos_iff; nia).
    rewrite Z.abs_eq by nia. Z.div_mod_to_equations. nia.
  - subst n. reflexivity.
  - replace (Z.sgn (n * den)) with (-1)
      by (symmetry; apply Z.sgn_neg_iff; nia).
    rewrite Z.abs_neq by nia. Z.div_mod_to_equations. nia.
Qed.

Lemma round_half_away_shift_up (P n den : Z) :
  0 < den -> 0 <= n -> P <= round_half_away (P * den + n) den.
Proof.
  intros Hd Hn. unfold round_half_away.
  destruct (Z.sgn_spec (P * den + n)) as [[H ->]|[[H ->]|[H ->]]].
  - rewrite Z.abs_eq by lia. Z.div_mod_to_equations. nia.
  - nia.
  - rewrite Z.abs_neq by lia. Z.div_mod_to_equations. nia.
Qed.

Lemma round_half_away_shift_down (P n den : Z) :
  0 < den -> n <= 0 -> round_half_away (P * den + n) den <= P.
Proof.
  intros Hd Hn. unfold round_half_away.
  destruct (Z.sgn_spec (P * den + n)) as [[H ->]|[[H ->]|[H ->]]].
  - rewrite Z.abs_eq by lia. Z.div_mod_to_equations. nia.
  - nia.
  - rewrite Z.abs_neq by lia. Z.div_mod_to_equations. nia.
Qed.

Lemma to_column_inject_Z (n : Z) : to_column (inject_Z n) = n.
Proof.
  unfold to_column, inject_Z. cbn [Qnum Qden].
  rewrite <- (round_half_away_whole n 1) at 2 by lia.
  rewrite Z.mul_1_r. reflexivity.
Qed.

(** The stored value is within half a unit of the value assigned. *)
Lemma to_column_nearest (q : Q) :
  2 * Z.abs (Zpos (Qden q) * to_column q - Qnum q) <= Zpos (Qden q).
Proof. apply round_half_away_nearest. lia. Qed.

(** A payment of a whole number of cents: nothing is rounded, and the
    tests on the sum are tests on the stored value. *)
Lemma new_total_whole (x : Q) (n : Z) (inv : Invoice) :
  (x == inject_Z n)%Q ->
  to_column (Invoices.new_total x inv) = amount_paid inv + n
  /\ (forall a : Z,
        Qle_bool (inject_Z a) (Invoices.new_total x inv)
        = (a <=? amount_paid inv + n))
  /\ Qle_bool (Invoices.new_total x inv) 0 = (amount_paid inv + n <=? 0)
  /\ to_column x = n.
Proof.
  intros Hx. unfold Invoices.new_total.
  assert (Hsum : (inject_Z (amount_paid inv) + x
                  == inject_Z (amount_paid inv + n))%Q).
  { rewrite Hx, inject_Z_plus. reflexivity. }
  unfold Qeq in Hx, Hsum. cbn [inject_Z Qnum Qden] in Hx, Hsum.
  rewrite Z.mul_1_r in Hx, Hsum.
  split; [|split; [|split]].
  - unfold to_column. rewrite Hsum. apply round_half_away_whole. lia.
  - intros a. apply eq_true_iff_eq.
    rewrite Qle_bool_iff, Z.leb_le. unfold Qle. cbn [inject_Z Qnum Qden].
    rewrite Hsum. nia.
  - apply eq_true_iff_eq.
    rewrite Qle_bool_iff, Z.leb_le. unfold Qle. cbn [Qnum Qden].
    rewrite Hsum. nia.
  - unfold to_column. rewrite Hx. apply round_half_away_whole. lia.
Qed.

(** Rounding the sum never crosses the stored amount_paid. *)
Lemma new_total_monotone (x : Q) (inv : Invoice) :
  ((0 <= x)%Q -> amount_paid inv <= to_column (Invoices.new_total x inv))
  /\ ((x <= 0)%Q -> to_column (Invoices.new_total x inv) <= amount_paid inv).
Proof.
  unfold Invoices.new_total, to_column, Qle.
  cbn [Qplus inject_Z Qnum Qden]. rewrite !Z.mul_1_r, Pos.mul_1_l.
  split; intros H.
  - apply round_half_away_shift_up; lia.
  - apply round_half_away_shift_down; lia.
Qed.

(** ** The invoice ledger *)

Section Ledger.

Variable lost : nat -> bool.
Variables paymentId invoiceId : string.
Variable body : Invoices.PaymentBody.
Variable db : DB.

(** What an accepted payment has done to the store. *)
Lemma recordPayment_accepted (p : Payment) (db' : DB) :
  Invoices.recordPayment lost paymentId invoiceId body db = (R201 p, db') ->
  exists (x : Q) (date : Civil) (inv : Invoice),
    to_param (Invoices.p_amount body) = Some x
    /\ truthy_num (Invoices.p_amount body) = true
    /\ Invoices.p_paymentDate body ≫= sql_date = Some date
    /\ invoices db !! invoiceId = Some inv
    /\ pay_amount p = to_column x /\ payment_date p = date
    /\ pay_invoice p = invoiceId
    /\ payments db' = payments db ++ [p]
    /\ invoices db'
       = <[invoiceId := Invoices.apply_payment x date inv]> (invoices db).
Proof.
  unfold Invoices.recordPayment, handle, mbind, M_bind, mret, M_ret, query.
  destruct (negb (truthy_date (Invoices.p_paymentDate body))
            || negb (truthy_num (Invoices.p_amount body))) eqn:Hv;
    [intros H; discriminate H|].
  apply orb_false_elim in Hv as [_ Hx0].
  apply negb_false_iff in Hx0.
  destruct (lost 0%nat); [intros H'; discriminate H'|].
  unfold Invoices.insert_payment.
  destruct (Invoices.p_paymentDate body ≫= sql_date) as [date|] eqn:Hd;
    [|intros H'; discriminate H'].
  destruct (to_param (Invoices.p_amount body)) as [x|] eqn:Hx;
    [|intros H'; discriminate H'].
  match goal with
  | |- context [if ?c then _ else _] => destruct c eqn:Hins
  end; [|intros H'; discriminate H'].
  split_andb.
  match goal with
  | H : bool_decide (is_Some _) = true |- _ =>
      apply bool_decide_eq_true in H as [inv Hinv]
  end.
  destruct (lost 1%nat); [intros H'; discriminate H'|].
  unfold Invoices.update_invoice_paid.
  cbn [with_payments invoices payments]. rewrite Hd, Hinv.
  match goal with
  | |- context [if ?c then _ else _] => destruct c eqn:Hfit
  end; [|intros H'; discriminate H'].
  intros H'. injection H' as <- <-.
  exists x, date, inv. cbn. repeat split; auto.
Qed.

End Ledger.

(** X27: a well-formed payment on an existing invoice is accepted: the
    handler answers 201, appends the payment, rounded to the cent, and
    updates the invoice. *)
Lemma recordPayment_succeeds (lost : nat -> bool) (paymentId invoiceId : string)
    (body : Invoices.PaymentBody) (db : DB) (x : Q) (date : Civil)
    (inv : Invoice) :
  lost 0%nat = false -> lost 1%nat = false ->
  to_param (Invoices.p_amount body) = Some x ->
  truthy_num (Invoices.p_amount body) = true ->
  Invoices.p_paymentDate body ≫= sql_date = Some date ->
  Forall (fun p => pay_id p <> paymentId) (payments db) ->
  invoices db !! invoiceId = Some inv ->
  fits_money (to_column x) = true ->
  fits_money (to_column (Invoices.new_total x inv)) = true ->
  from_option (fits_varchar 50) true (Invoices.p_paymentMethod body) = true ->
  from_option (fits_varchar 100) true (Invoices.p_checkNumber body) = true ->
  exists p,
    Invoices.recordPayment lost paymentId invoiceId body db
    = (R201 p,
       with_invoices (with_payments db (payments db ++ [p]))
         (<[invoiceId := Invoices.apply_payment x date inv]> (invoices db)))
    /\ pay_amount p = to_column x /\ payment_date p = date.
Proof.
  intros H0 H1 Hx Hx0 Hd Hfresh Hinv Hfx Hfp Hm Hc.
  unfold Invoices.recordPayment, handle, mbind, M_bind, mret, M_ret, query.
  rewrite Hx, Hx0, H0, H1.
  assert (Htd : truthy_date (Invoices.p_paymentDate body) = true).
  { destruct (Invoices.p_paymentDate body) as [[y m d|s]|]; try discriminate Hd.
    reflexivity. }
  rewrite Htd. cbn [negb orb].
  unfold Invoices.insert_payment. rewrite Hd, Hfx, Hm, Hc.
  replace (forallb (fun p => negb (String.eqb (pay_id p) paymentId))
             (payments db)) with true.
  2:{ symmetry. apply forallb_forall. intros p Hp.
      rewrite Forall_forall in Hfresh.
      apply negb_true_iff, String.eqb_neq, Hfresh.
      apply list_elem_of_In, Hp. }
  rewrite bool_decide_eq_true_2 by (rewrite Hinv; eauto).
  cbn [andb]. unfold Invoices.update_invoice_paid.
  cbn [with_payments invoices payments]. rewrite Hd, Hinv.
  cbn [Invoices.apply_payment amount_paid]. rewrite Hfp.
  eexists. split; [reflexivity|]. split; reflexivity.
Qed.

(** C1, as stated, fails: on an invoice of 100.00 with 33.34 paid, a
    payment of 66.656 is recorded as 66.66 and amount_paid becomes 100.00,
    which is not 33.34 + 66.656, while the status is decided on 99.996
    and stays partial although amount_paid has reached the amount. *)
Lemma fraction_of_a_cent_paid :
  (amount <$> invoices Cases.db_third !! "i3") = Some 10000
  /\ (amount_paid <$> invoices Cases.db_third !! "i3") = Some 3334
  /\ (exists p, Cases.fraction_paid.1 = R201 p /\ pay_amount p = 6666)
  /\ (amount_paid <$> invoices Cases.fraction_paid.2 !! "i3") = Some 10000
  /\ (payment_status <$> invoices Cases.fraction_paid.2 !! "i3")
     = Some Partial
  /\ ~ (inject_Z 10000 == inject_Z 3334 + 6665.6)%Q.
Proof.
  vm_compute. repeat split; try reflexivity.
  - eexists; split; reflexivity.
  - intros H; discriminate H.
Qed.

(** C1, amended: an accepted payment of amount x on an invoice with
    amount A and amount_paid P is recorded as x rounded to the cent and
    leaves amount_paid = P + x rounded to the cent, with no clamp at A,
    and payment_status paid when P + x >= A, else partial when P + x > 0,
    else pending, P + x being the sum before rounding.  For x a whole
    number of cents nothing is rounded: amount_paid = P + x, the status is
    that of the stored amount_paid, and an over-payment gives paid and
    amount_paid = P + x. *)
Theorem recordPayment_amount_and_status (lost : nat -> bool)
    (paymentId invoiceId : string) (body : Invoices.PaymentBody)
    (db db' : DB) (p : Payment) (inv : Invoice) :
  Invoices.recordPayment lost paymentId invoiceId body db = (R201 p, db') ->
  invoices db !! invoiceId = Some inv ->
  exists (x : Q) (inv' : Invoice),
    to_param (Invoices.p_amount body) = Some x
    /\ invoices db' !! invoiceId = Some inv'
    /\ pay_amount p = to_column x
    /\ amount inv' = amount inv
    /\ amount_paid inv' = to_column (inject_Z (amount_paid inv) + x)
    /\ ((inject_Z (amount inv) <= inject_Z (amount_paid inv) + x)%Q ->
        payment_status inv' = Paid)
    /\ ((inject_Z (amount_paid inv) + x < inject_Z (amount inv))%Q ->
        (0 < inject_Z (amount_paid inv) + x)%Q ->
        payment_status inv' = Partial)
    /\ ((inject_Z (amount_paid inv) + x < inject_Z (amount inv))%Q ->
        (inject_Z (amount_paid inv) + x <= 0)%Q ->
        payment_status inv' = Pending)
    /\ (forall n : Z,
          (x == inject_Z n)%Q ->
          pay_amount p = n
          /\ amount_paid inv' = amount_paid inv + n
          /\ (amount inv <= amount_paid inv + n ->
              payment_status inv' = Paid)
          /\ (amount_paid inv + n < amount inv ->
              0 < amount_paid inv + n ->
              payment_status inv' = Partial)
          /\ (amount_paid inv + n < amount inv ->
              amount_paid inv + n <= 0 ->
              payment_status inv' = Pending)
          /\ (amount inv < amount_paid inv + n ->
              payment_status inv' = Paid /\ amount inv < amount_paid inv')).
Proof.
  intros Hrun Hinv.
  destruct (recordPayment_accepted _ _ _ _ _ _ _ Hrun)
    as (x & date & inv0 & Hx & _ & _ & Hinv0 & Hpx & _ & _ & _ & Hdb').
  rewrite Hinv in Hinv0. injection Hinv0 as <-.
  exists x, (Invoices.apply_payment x date inv).
  rewrite Hdb', lookup_insert_eq, Hpx.
  cbn [Invoices.apply_payment amount amount_paid payment_status].
  unfold Invoices.new_total.
  split; [exact Hx|]. do 4 (split; [reflexivity|]).
  split; [|split; [|split]].
  - intros H. apply Qle_bool_iff in H.
    rewrite H. reflexivity.
  - intros H1 H2.
    destruct (Qle_bool (inject_Z (amount inv))
                (inject_Z (amount_paid inv) + x)) eqn:E1.
    { apply Qle_bool_iff in E1. exfalso. exact (Qlt_not_le _ _ H1 E1). }
    destruct (Qle_bool (inject_Z (amount_paid inv) + x) 0) eqn:E2.
    { apply Qle_bool_iff in E2. exfalso. exact (Qlt_not_le _ _ H2 E2). }
    reflexivity.
  - intros H1 H2.
    destruct (Qle_bool (inject_Z (amount inv))
                (inject_Z (amount_paid inv) + x)) eqn:E1.
    { apply Qle_bool_iff in E1. exfalso. exact (Qlt_not_le _ _ H1 E1). }
    apply Qle_bool_iff in H2. rewrite H2. reflexivity.
  - intros n Hn.
    destruct (new_total_whole x n inv Hn) as (Hsum & Hle & Hz & Hcol).
    unfold Invoices.new_total in Hsum, Hle, Hz.
    rewrite Hsum, Hle, Hz, Hcol.
    split; [reflexivity|]. split; [reflexivity|].
    repeat split; intros;
      repeat match goal with
             | |- context [?a <=? ?b] => destruct (Z.leb_spec a b)
             end; cbn [negb]; first [reflexivity | lia].
Qed.

(** The over-payment of the specification: 1200.00 on an unpaid invoice of
    1000.00. *)
Lemma recordPayment_amount_and_status_witness :
  Samples.overpaid = (R201 Samples.payment_1200, Samples.overpaid.2)
  /\ invoices Samples.db_invoice !! "i1" = Some Samples.invoice_open
  /\ exists (x : Q) (inv' : Invoice),
      to_param (Invoices.p_amount (Samples.pay 120000 2024 1 15)) = Some x
      /\ invoices Samples.overpaid.2 !! "i1" = Some inv'
      /\ pay_amount Samples.payment_1200 = to_column x
      /\ amount inv' = 100000
      /\ amount_paid inv' = to_column (inject_Z 0 + x)
      /\ ((inject_Z 100000 <= inject_Z 0 + x)%Q -> payment_status inv' = Paid)
      /\ ((inject_Z 0 + x < inject_Z 100000)%Q -> (0 < inject_Z 0 + x)%Q ->
          payment_status inv' = Partial)
      /\ ((inject_Z 0 + x < inject_Z 100000)%Q -> (inject_Z 0 + x <= 0)%Q ->
          payment_status inv' = Pending)
      /\ (forall n : Z,
            (x == inject_Z n)%Q ->
            pay_amount Samples.payment_1200 = n
            /\ amount_paid inv' = 0 + n
            /\ (100000 <= 0 + n -> payment_status inv' = Paid)
            /\ (0 + n < 100000 -> 0 < 0 + n ->
                payment_status inv' = Partial)
            /\ (0 + n < 100000 -> 0 + n <= 0 ->
                payment_status inv' = Pending)
            /\ (100000 < 0 + n ->
                payment_status inv' = Paid /\ 100000 < amount_paid inv')).
Proof.
  assert (H1 : Samples.overpaid
               = (R201 Samples.payment_1200, Samples.overpaid.2))
    by (vm_compute; reflexivity).
  assert (H2 : invoices Samples.db_invoice !! "i1"
               = Some Samples.invoice_open)
    by (vm_compute; reflexivity).
  split; [exact H1|]. split; [exact H2|].
  exact (recordPayment_amount_and_status Samples.online "pay1" "i1"
           (Samples.pay 120000 2024 1 15) Samples.db_invoice
           Samples.overpaid.2 Samples.payment_1200 Samples.invoice_open
           H1 H2).
Defined.

(** [transaction] is all or nothing: when the callback throws, the store is
    as it was before BEGIN, whatever the callback had written. *)
Lemma transaction_rolls_back {A : Type} (callback : M A) (db db' : DB) :
  transaction callback db = Throw db' -> db' = db.
Proof.
  unfold transaction. destruct (callback db); intros H; [discriminate H|].
  injection H as <-. reflexivity.
Qed.

Lemma transaction_commits {A : Type} (callback : M A) (db db' : DB) (a : A) :
  transaction callback db = Ok a db' -> callback db = Ok a db'.
Proof.
  unfold transaction. destruct (callback db); intros H; [|discriminate H].
  exact H.
Qed.

(** X28: the handler runs its two statements outside [transaction]: when
    the second one fails, for whatever reason, the payment stays committed
    and the invoice is as before. *)
Lemma recordPayment_torn (lost : nat -> bool) (paymentId invoiceId : string)
    (body : Invoices.PaymentBody) (db db1 db2 : DB) (p : Payment) :
  truthy_date (Invoices.p_paymentDate body) = true ->
  truthy_num (Invoices.p_amount body) = true ->
  query (lost 0%nat)
    (Invoices.insert_payment paymentId invoiceId
       (Invoices.p_paymentDate body) (to_param (Invoices.p_amount body))
       (Invoices.p_paymentMethod body) (Invoices.p_checkNumber body)
       (Invoices.p_notes body)) db = Ok p db1 ->
  query (lost 1%nat)
    (Invoices.update_invoice_paid (to_param (Invoices.p_amount body))
       (Invoices.p_paymentDate body) invoiceId) db1 = Throw db2 ->
  Invoices.recordPayment lost paymentId invoiceId body db = (R500, db1)
  /\ payments db1 = payments db ++ [p]
  /\ invoices db1 = invoices db.
Proof.
  intros Hd Ha Hins Hupd.
  assert (db2 = db1) as ->.
  { unfold query in Hupd. destruct (lost 1%nat); [congruence|].
    destruct (Invoices.update_invoice_paid _ _ _ db1) as [[? ?]|];
      congruence. }
  unfold Invoices.recordPayment, handle, mbind, M_bind.
  rewrite Hd, Ha. cbn [negb orb]. rewrite Hins, Hupd.
  split; [reflexivity|].
  unfold query, Invoices.insert_payment in Hins.
  destruct (lost 0%nat); [discriminate Hins|].
  destruct (Invoices.p_paymentDate body ≫= sql_date); [|discriminate Hins].
  destruct (to_param (Invoices.p_amount body)); [|discriminate Hins].
  match type of Hins with
  | context [if ?c then _ else _] => destruct c
  end; [|discriminate Hins].
  injection Hins as <- <-. split; reflexivity.
Qed.

(** C2: the payment insert and the invoice update are not atomic.  On an
    invoice whose amount_paid is 9999999999.99, a payment of 0.01 is
    inserted and committed, the invoice update overflows its column and
    fails, and the handler answers 500 with the payment left in the ledger
    and the invoice untouched. *)
Theorem recordPayment_not_atomic :
  Samples.torn.1 = R500
  /\ payments Samples.torn.2
     = payments Samples.db_max_paid
       ++ [mkPayment "pay2" "i2" (mkCivil 2024 1 16) 1 (Some "check")
             None None]
  /\ invoices Samples.torn.2 = invoices Samples.db_max_paid
  /\ (amount_paid <$> invoices Samples.torn.2 !! "i2") = Some 999999999999
  /\ foldr (fun p s => pay_amount p + s) 0 (payments Samples.torn.2)
     = 999999999999 + 1.
Proof. vm_compute. repeat split; reflexivity. Qed.

(** C6, as stated, fails: a further payment of 1.00 on 20 February on an
    invoice settled on 20 January moves paid_date to 20 February. *)
Lemma paid_date_overwritten :
  (payment_status <$> invoices Samples.db_paid !! "i1") = Some Paid
  /\ (paid_date <$> invoices Samples.db_paid !! "i1")
     = Some (Some (mkCivil 2024 1 20))
  /\ (exists p, Samples.paid_again.1 = R201 p)
  /\ (paid_date <$> invoices Samples.paid_again.2 !! "i1")
     = Some (Some (mkCivil 2024 2 20)).
Proof. vm_compute. repeat split; try reflexivity. eexists; reflexivity. Qed.

(** C6, amended: an accepted payment sets paid_date to the payment's date
    whenever the sum of the stored amount_paid and the amount of the
    request, before rounding, reaches or exceeds the amount, also when the
    invoice was paid already, and leaves paid_date unchanged otherwise.
    For an amount in whole cents that is: whenever the new amount_paid
    reaches or exceeds the amount. *)
Theorem recordPayment_paid_date (lost : nat -> bool)
    (paymentId invoiceId : string) (body : Invoices.PaymentBody)
    (db db' : DB) (p : Payment) (inv : Invoice) :
  Invoices.recordPayment lost paymentId invoiceId body db = (R201 p, db') ->
  invoices db !! invoiceId = Some inv ->
  exists (x : Q) (inv' : Invoice),
    to_param (Invoices.p_amount body) = Some x
    /\ invoices db' !! invoiceId = Some inv'
    /\ ((inject_Z (amount inv) <= inject_Z (amount_paid inv) + x)%Q ->
        paid_date inv' = Some (payment_date p))
    /\ ((inject_Z (amount_paid inv) + x < inject_Z (amount inv))%Q ->
        paid_date inv' = paid_date inv)
    /\ (forall n : Z,
          (x == inject_Z n)%Q ->
          amount_paid inv' = amount_paid inv + pay_amount p
          /\ (amount inv <= amount_paid inv + pay_amount p ->
              paid_date inv' = Some (payment_date p))
          /\ (amount_paid inv + pay_amount p < amount inv ->
              paid_date inv' = paid_date inv)).
Proof.
  intros Hrun Hinv.
  destruct (recordPayment_accepted _ _ _ _ _ _ _ Hrun)
    as (x & date & inv0 & Hx & _ & _ & Hinv0 & Hpx & Hpd & _ & _ & Hdb').
  rewrite Hinv in Hinv0. injection Hinv0 as <-.
  exists x, (Invoices.apply_payment x date inv).
  rewrite Hdb', lookup_insert_eq, Hpx, Hpd.
  cbn [Invoices.apply_payment paid_date amount_paid].
  unfold Invoices.new_total.
  split; [exact Hx|]. split; [reflexivity|]. split; [|split].
  - intros H. apply Qle_bool_iff in H. rewrite H. reflexivity.
  - intros H.
    destruct (Qle_bool (inject_Z (amount inv))
                (inject_Z (amount_paid inv) + x)) eqn:E1; [|reflexivity].
    apply Qle_bool_iff in E1. exfalso. exact (Qlt_not_le _ _ H E1).
  - intros n Hn.
    destruct (new_total_whole x n inv Hn) as (Hsum & Hle & _ & Hcol).
    unfold Invoices.new_total in Hsum, Hle.
    rewrite Hsum, Hle, Hcol. split; [reflexivity|].
    destruct (Z.leb_spec (amount inv) (amount_paid inv + n));
      split; intros; first [reflexivity | lia].
Qed.

(** The second payment of the specification: 600.00 on 20 January settles
    the invoice of 1000.00 on which 400.00 had been paid. *)
Lemma recordPayment_paid_date_witness :
  Samples.settled = (R201 Samples.payment_600, Samples.settled.2)
  /\ invoices Samples.db_partial !! "i1" = Some Samples.invoice_partial
  /\ exists (x : Q) (inv' : Invoice),
      to_param (Invoices.p_amount (Samples.pay 60000 2024 1 20)) = Some x
      /\ invoices Samples.settled.2 !! "i1" = Some inv'
      /\ ((inject_Z 100000 <= inject_Z 40000 + x)%Q ->
          paid_date inv' = Some (mkCivil 2024 1 20))
      /\ ((inject_Z 40000 + x < inject_Z 100000)%Q ->
          paid_date inv' = None)
      /\ (forall n : Z,
            (x == inject_Z n)%Q ->
            amount_paid inv' = 40000 + 60000
            /\ (100000 <= 40000 + 60000 ->
                paid_date inv' = Some (mkCivil 2024 1 20))
            /\ (40000 + 60000 < 100000 -> paid_date inv' = None)).
Proof.
  assert (H1 : Samples.settled
               = (R201 Samples.payment_600, Samples.settled.2))
    by (vm_compute; reflexivity).
  assert (H2 : invoices Samples.db_partial !! "i1"
               = Some Samples.invoice_partial)
    by (vm_compute; reflexivity).
  split; [exact H1|]. split; [exact H2|].
  exact (recordPayment_paid_date Samples.online "pay2" "i1"
           (Samples.pay 60000 2024 1 20) Samples.db_partial
           Samples.settled.2 Samples.payment_600 Samples.invoice_partial
           H1 H2).
Defined.


(** The handler refuses a payment whose amount is absent, null or the
    number 0, and leaves the store alone. *)
Lemma recordPayment_rejects_zero (lost : nat -> bool)
    (paymentId invoiceId : string) (body : Invoices.PaymentBody) (db : DB) :
  truthy_num (Invoices.p_amount body) = false ->
  Invoices.recordPayment lost paymentId invoiceId body db = (R400, db).
Proof.
  intros H. unfold Invoices.recordPayment, handle. rewrite H.
  rewrite orb_true_r. reflexivity.
Qed.

(** What the amount test lets through: every number but 0, and every
    text. *)
Lemma truthy_num_spec (v : jsnum) :
  truthy_num v = true
  <-> (exists q, v = Num q /\ ~ (q == 0)%Q) \/ (exists q, v = NumText q).
Proof.
  destruct v as [| |q|q]; cbn [truthy_num].
  - split; [discriminate|]. intros [(q & H & _)|(q & H)]; discriminate H.
  - split; [discriminate|]. intros [(q & H & _)|(q & H)]; discriminate H.
  - rewrite negb_true_iff, Z.eqb_neq. split.
    + intros H. left. exists q. split; [reflexivity|].
      unfold Qeq. cbn [Qnum Qden]. lia.
    + intros [(q' & H & Hq)|(q' & H)]; [|discriminate H].
      injection H as <-. unfold Qeq in Hq. cbn [Qnum Qden] in Hq. lia.
  - split; [|reflexivity]. intros _. right. exists q. reflexivity.
Qed.

(** Amounts of less than half a cent, and a refund of half a cent, pass
    the amount test: 0.004 is recorded as a payment of 0.00, and -0.005 as
    a payment of -0.01 that leaves amount_paid where it was. *)
Example payments_below_a_cent :
  (exists p, Cases.tiny_payment.1 = R201 p /\ pay_amount p = 0)
  /\ (exists p, Cases.half_cent_back.1 = R201 p /\ pay_amount p = -1)
  /\ (amount_paid <$> invoices Cases.db_one_paid !! "i4") = Some 100
  /\ (amount_paid <$> invoices Cases.half_cent_back.2 !! "i4") = Some 100.
Proof.
  vm_compute. repeat split; try reflexivity; eexists; split; reflexivity.
Qed.



(** ** Invoice retainage *)

(** The retainage that the handlers compute for an amount and a
    percentage, as its column stores it. *)
Lemma retainage_of_null (percent : jsnum) :
  defined percent = true ->
  (to_column ∘ number_param) <$> Invoices.retainage Null percent = Some 0.
Proof.
  destruct percent as [| |q|q]; [discriminate| | |]; intros _; reflexivity.
Qed.

(** With only one of the two fields in the request, the update keeps the
    stored retainage_amount. *)
Lemma update_one_field_keeps_retainage (lost : nat -> bool) (id : string)
    (body : Invoices.UpdateBody) (db db' : DB) (old row : Invoice) :
  defined (Invoices.u_amount body)
  && defined (Invoices.u_retainagePercent body) = false ->
  invoices db !! id = Some old ->
  Invoices.update lost id body db = (R200 row, db') ->
  retainage_amount row = retainage_amount old
  /\ amount row
     = coalesce (to_column <$> to_param (Invoices.u_amount body))
                (amount old)
  /\ retainage_percent row
     = coalesce_null
         (to_column <$> to_param (Invoices.u_retainagePercent body))
         (retainage_percent old).
Proof.
  intros Hdef Hold.
  unfold Invoices.update, handle, mbind, M_bind, mret, M_ret, query.
  rewrite Hdef.
  destruct (lost 0%nat); [intros H; discriminate H|].
  unfold Invoices.update_invoice. rewrite Hold.
  destruct (convert_opt sql_date (Invoices.u_invoiceDate body));
    [|intros H; discriminate H].
  destruct (convert_opt sql_date (Invoices.u_dueDate body));
    [|intros H; discriminate H].
  destruct (convert_opt sql_date (Invoices.u_paidDate body));
    [|intros H; discriminate H].
  destruct (convert_opt payment_status_of_text
              (Invoices.u_paymentStatus body));
    [|intros H; discriminate H].
  match goal with
  | |- context [if ?c then _ else _] => destruct c
  end; [|intros H; discriminate H].
  intros H. injection H as <- <-. cbn. auto.
Qed.

(** With both fields in the request, the update recomputes it, in
    JavaScript's arithmetic. *)
Lemma update_both_fields_recomputes (lost : nat -> bool) (id : string)
    (body : Invoices.UpdateBody) (db db' : DB) (row : Invoice) (a p : Q) :
  Invoices.u_amount body = Num a ->
  Invoices.u_retainagePercent body = Num p ->
  Invoices.update lost id body db = (R200 row, db') ->
  amount row = to_column a /\ retainage_percent row = Some (to_column p)
  /\ retainage_amount row
     = (to_column ∘ number_param) <$> Invoices.retainage (Num a) (Num p).
Proof.
  intros Ha Hp.
  unfold Invoices.update, handle, mbind, M_bind, mret, M_ret, query.
  rewrite Ha, Hp. cbn [defined andb Invoices.retainage to_number to_param].
  destruct (lost 0%nat); [intros H; discriminate H|].
  unfold Invoices.update_invoice.
  destruct (convert_opt sql_date (Invoices.u_invoiceDate body));
    [|intros H; discriminate H].
  destruct (convert_opt sql_date (Invoices.u_dueDate body));
    [|intros H; discriminate H].
  destruct (convert_opt sql_date (Invoices.u_paidDate body));
    [|intros H; discriminate H].
  destruct (invoices db !! id);
    [|destruct (is_uuid id); intros H; discriminate H].
  destruct (convert_opt payment_status_of_text
              (Invoices.u_paymentStatus body));
    [|intros H; discriminate H].
  match goal with
  | |- context [if ?c then _ else _] => destruct c
  end; [|intros H; discriminate H].
  intros H. injection H as <- <-. cbn. auto.
Qed.

(** The product is a Number before the column rounds it: 7716620598.43 at
    72.93 % is the Number 5627731402.435, stored as 5627731402.44, where
    the exact product rounds to 5627731402.43. *)
Example retainage_in_doubles :
  (to_column ∘ number_param)
  <$> Invoices.retainage (Num 771662059843) (Num 7293)
  = Some 562773140244
  /\ round_half_away (771662059843 * 7293) 10000 = 562773140243.
Proof. split; vm_compute; reflexivity. Qed.

(** C8: an update that supplies only the amount leaves retainage_amount as
    stored.  Raising the amount of an invoice of 1000.00 at 10 % to
    2000.00 answers 200 with amount 2000.00, retainage_percent 10.00 and
    retainage_amount still 100.00, where amount x retainage_percent / 100
    is 200.00. *)
Theorem update_amount_only_keeps_retainage :
  (exists row,
      Samples.amount_raised.1 = R200 row
      /\ invoices Samples.amount_raised.2 !! "i1" = Some row
      /\ amount row = 200000
      /\ retainage_percent row = Some 1000
      /\ retainage_amount row = Some 10000)
  /\ (to_column ∘ number_param) <$> Invoices.retainage (Num 200000) (Num 1000)
     = Some 20000.
Proof.
  vm_compute. split; [|reflexivity].
  eexists. repeat split; reflexivity.
Qed.

(** ** Creating an invoice *)


(** What the amount test refuses: the number 0, null and an absent
    field, and nothing else. *)
Lemma falsy_num_spec (v : jsnum) :
  truthy_num v = false
  <-> (exists q, v = Num q /\ (q == 0)%Q) \/ v = Undefined \/ v = Null.
Proof.
  destruct v as [| |q|q]; cbn [truthy_num].
  - split; [intros _; right; left; reflexivity|reflexivity].
  - split; [intros _; right; right; reflexivity|reflexivity].
  - rewrite negb_false_iff, Z.eqb_eq. split.
    + intros H. left. exists q. split; [reflexivity|].
      unfold Qeq. cbn [Qnum Qden]. lia.
    + intros [(q' & H & Hq) | [H | H]]; try discriminate H.
      injection H as <-. unfold Qeq in Hq. cbn [Qnum Qden] in Hq. lia.
  - split; [discriminate|].
    intros [(q' & H & _) | [H | H]]; discriminate H.
Qed.



(** A create-invoice request with its required fields, a user and project
    that exist and values that fit their columns is answered 201. *)
Example create_accepts_invoice :
  exists row, Invoices.create Samples.online "i1" Samples.invoice_1000
                Samples.db0 = (R201 row, Samples.db_invoice)
              /\ row = Samples.invoice_open.
Proof. eexists. split; vm_compute; reflexivity. Qed.

(** ** Derived fields of the deadline list *)

Lemma ceil_div_spec (a b : Z) :
  0 < b -> (ceil_div a b - 1) * b < a <= ceil_div a b * b.
Proof. intros Hb. unfold ceil_div. Z.div_mod_to_equations. nia. Qed.

Lemma select_deadlines_stored (userId : string) (status : option string)
    (db db' : DB) (rows : list (string * Deadline)) (r : string * Deadline) :
  Deadlines.select_deadlines userId status db = Some (rows, db') ->
  r ∈ rows -> deadlines db !! r.1 = Some r.2 /\ dl_user r.2 = userId.
Proof.
  unfold Deadlines.select_deadlines. intros H Hr. injection H as <- <-.
  rewrite merge_sort_Permutation in Hr.
  apply list_elem_of_In, filter_In in Hr as [Hin Hmine].
  apply list_elem_of_In in Hin. destruct r as [i d].
  apply elem_of_map_to_list in Hin. split; [exact Hin|].
  apply andb_prop in Hmine as [Hu _]. apply String.eqb_eq, Hu.
Qed.

(** A list request that names its user is answered 200 with one row per
    selected deadline. *)
Lemma listAll_answers (lost : nat -> bool) (pg_date : Civil -> Z)
    (clock : nat -> Z) (u : string) (status : option string) (db : DB) :
  lost 0%nat = false -> u <> "" ->
  exists rows sel,
    Deadlines.listAll lost pg_date clock (Some u) status db = (R200 rows, db)
    /\ Deadlines.select_deadlines u
         (if truthy_text status then status else None) db = Some (sel, db)
    /\ length rows = length sel.
Proof.
  intros Hl Hu.
  unfold Deadlines.listAll, handle, mbind, M_bind, mret, M_ret, query.
  cbn [truthy_text].
  replace (String.eqb u "") with false
    by (symmetry; apply String.eqb_neq, Hu).
  cbn [negb]. rewrite Hl. unfold Deadlines.select_deadlines.
  eexists _, _. split; [reflexivity|]. split; [reflexivity|].
  apply length_imap.
Qed.

(** C5: every row of the list is a stored deadline with days_remaining the
    ceiling of (deadline_date - today) in days, negative when overdue, and
    calculated_priority the stored priority when that is set and not
    normal, and otherwise the tier of days_remaining: below 0 critical, up
    to 7 critical, up to 14 high, up to 30 normal, above low. *)
Theorem listAll_derived_fields (lost : nat -> bool) (pg_date : Civil -> Z)
    (clock : nat -> Z) (userId status : option string) (db db' : DB)
    (rows : list Deadlines.Listed) (i : nat) (x : Deadlines.Listed) :
  Deadlines.listAll lost pg_date clock userId status db = (R200 rows, db') ->
  rows !! i = Some x ->
  deadlines db !! Deadlines.l_id x = Some (Deadlines.l_row x)
  /\ (Deadlines.days_remaining x - 1) * msPerDay
     < pg_date (deadline_date (Deadlines.l_row x)) - clock i
     <= Deadlines.days_remaining x * msPerDay
  /\ (forall p, priority (Deadlines.l_row x) = Some p -> p <> Normal ->
      Deadlines.calculated_priority x = p)
  /\ (priority (Deadlines.l_row x) = None
      \/ priority (Deadlines.l_row x) = Some Normal ->
      Expected.tier_of (Deadlines.days_remaining x)
                       (Deadlines.calculated_priority x)).
Proof.
  unfold Deadlines.listAll, handle, mbind, M_bind, mret, M_ret, query.
  destruct userId as [u|]; [|intros H; discriminate H].
  destruct (negb (truthy_text (Some u))); [intros H; discriminate H|].
  destruct (lost 0%nat); [intros H; discriminate H|].
  destruct (Deadlines.select_deadlines u _ db) as [[sel db1]|] eqn:Hsel;
    [|intros H; discriminate H].
  intros H Hx. injection H as <- <-.
  rewrite list_lookup_imap in Hx.
  destruct (sel !! i) as [r|] eqn:Hr; [|discriminate Hx].
  injection Hx as <-.
  pose proof (select_deadlines_stored _ _ _ _ _ r Hsel
                ltac:(eapply list_elem_of_lookup_2; exact Hr)) as [Hst _].
  unfold Deadlines.derive.
  cbn [Deadlines.l_id Deadlines.l_row Deadlines.days_remaining
       Deadlines.calculated_priority].
  change (1000 * 60 * 60 * 24) with msPerDay.
  split; [exact Hst|]. split; [apply ceil_div_spec; reflexivity|].
  set (dr := ceil_div (pg_date (deadline_date r.2) - clock i) msPerDay).
  split.
  - intros p Hp Hn. rewrite Hp. destruct p; congruence.
  - intros [Hp | Hp]; rewrite Hp; unfold Expected.tier_of;
      destruct (Z.ltb_spec dr 0), (Z.leb_spec dr 7), (Z.leb_spec dr 14),
               (Z.leb_spec dr 30);
      repeat split; intros; first [reflexivity | lia].
Qed.

(** A deadline due on 1 June, listed at 10:00 on 27 May. *)
Lemma listAll_derived_fields_witness :
  Deadlines.listAll Samples.online Samples.pg_date_utc Samples.clock_may_27
    (Some "u1") None Samples.db_deadline
  = (R200 [Samples.notice_listed], Samples.db_deadline)
  /\ [Samples.notice_listed] !! 0%nat = Some Samples.notice_listed
  /\ deadlines Samples.db_deadline !! "d1"
     = Some (Deadlines.l_row Samples.notice_listed)
  /\ (5 - 1) * msPerDay
     < Samples.pg_date_utc (mkCivil 2024 6 1) - Samples.clock_may_27 0%nat
     <= 5 * msPerDay
  /\ (forall p, Some Normal = Some p -> p <> Normal -> Critical = p)
  /\ (Some Normal = None \/ Some Normal = Some Normal ->
      Expected.tier_of 5 Critical).
Proof.
  assert (H1 : Deadlines.listAll Samples.online Samples.pg_date_utc
                 Samples.clock_may_27 (Some "u1") None Samples.db_deadline
               = (R200 [Samples.notice_listed], Samples.db_deadline))
    by (vm_compute; reflexivity).
  assert (H2 : [Samples.notice_listed] !! 0%nat = Some Samples.notice_listed)
    by reflexivity.
  split; [exact H1|]. split; [exact H2|].
  exact (listAll_derived_fields Samples.online Samples.pg_date_utc
           Samples.clock_may_27 (Some "u1") None Samples.db_deadline
           Samples.db_deadline [Samples.notice_listed] 0%nat
           Samples.notice_listed H1 H2).
Defined.

(** The examples of the specification, on a row without a manual
    priority: 5 days remaining is critical, 10 high, 20 normal, 40 low and
    3 days overdue critical; a manual low stays low. *)
Example derive_tiers (r : string * Deadline) (today : Z) :
  priority r.2 = None ->
  map (fun days =>
         Deadlines.calculated_priority
           (Deadlines.derive (today + days * msPerDay) today r))
      [5; 10; 20; 40; -3]
  = [Critical; High; Normal; Low; Critical].
Proof.
  intros Hp. unfold Deadlines.derive. rewrite Hp. cbn [map].
  change (1000 * 60 * 60 * 24) with msPerDay.
  repeat match goal with
         | |- context [ceil_div (today + ?d * msPerDay - today) msPerDay] =>
             replace (ceil_div (today + d * msPerDay - today) msPerDay)
               with d
               by (unfold ceil_div; replace (- (today + d * msPerDay - today))
                     with ((- d) * msPerDay) by lia;
                   rewrite Z.div_mul by (unfold msPerDay; lia); lia)
         end.
  reflexivity.
Qed.

Example derive_manual_low (r : string * Deadline) (deadlineDate today : Z) :
  priority r.2 = Some Low ->
  Deadlines.calculated_priority (Deadlines.derive deadlineDate today r) = Low.
Proof. intros Hp. unfold Deadlines.derive. rewrite Hp. reflexivity. Qed.

(** ** The deadline calculator *)

(** Without a matching rule the calculator answers 404. *)
Lemma calculate_not_found (lost : nat -> bool) (tz : TimeZone)
    (body : Deadlines.CalculateBody) (db : DB) (ty : string) :
  lost 0%nat = false ->
  Deadlines.k_deadlineType body = Some ty -> ty <> "" ->
  truthy_date (Deadlines.k_triggerDate body) = true ->
  (forall r, r ∈ colorado_lien_rules db ->
             ~ (rule_type r = ty
                /\ Some (rule_project_type r)
                   = or_default "private" (Deadlines.k_projectType body))) ->
  Deadlines.calculate lost tz body db = (R404, db).
Proof.
  intros Hl Hty Hne Htd Hnone.
  unfold Deadlines.calculate, handle, mbind, M_bind, mret, M_ret, query.
  rewrite Hty, Hl.
  destruct (Deadlines.k_triggerDate body) as [t|] eqn:Ht;
    [|discriminate Htd].
  rewrite Htd. cbn [truthy_text].
  replace (String.eqb ty "") with false
    by (symmetry; apply String.eqb_neq, Hne).
  cbn [negb orb]. unfold Deadlines.select_rule.
  destruct (find _ (colorado_lien_rules db)) as [r|] eqn:Hf; [|reflexivity].
  apply find_some in Hf as [Hin Hm]. apply andb_prop in Hm as [H1 H2].
  exfalso. apply (Hnone r); [apply list_elem_of_In, Hin|].
  split; [apply String.eqb_eq, H1|].
  destruct (or_default "private" (Deadlines.k_projectType body));
    [|discriminate H2].
  apply String.eqb_eq in H2. rewrite H2. reflexivity.
Qed.

(** A projectType of null is looked up as it is, matches no rule and is
    answered 404, whatever the trigger date. *)
Lemma calculate_null_type (lost : nat -> bool) (tz : TimeZone)
    (body : Deadlines.CalculateBody) (db : DB) (ty : string) :
  lost 0%nat = false ->
  Deadlines.k_deadlineType body = Some ty -> ty <> "" ->
  truthy_date (Deadlines.k_triggerDate body) = true ->
  Deadlines.k_projectType body = NullText ->
  Deadlines.calculate lost tz body db = (R404, db).
Proof.
  intros Hl Hty Hne Htd Hnull.
  apply (calculate_not_found lost tz body db ty Hl Hty Hne Htd).
  intros r _ [_ H]. rewrite Hnull in H. discriminate H.
Qed.

(** X29: on a host without daylight saving the calculator is exact: the
    rule found for the deadline type and the project type of the request
    (private when the field is absent), applied to a trigger date of the
    calendar, gives that date plus deadline_days. *)
Lemma calculate_exact_fixed_zone (lost : nat -> bool) (tz : TimeZone)
    (c : Z) (body : Deadlines.CalculateBody) (db : DB) (ty pt : string)
    (trigger : Civil) (rule : LienRule) :
  fixed_offset tz c ->
  lost 0%nat = false ->
  Deadlines.k_deadlineType body = Some ty -> ty <> "" ->
  Deadlines.k_triggerDate body = Some (Deadlines.iso_text trigger) ->
  valid_civil trigger = true -> 0 <= year trigger <= 9999 ->
  or_default "private" (Deadlines.k_projectType body) = Some pt ->
  find (fun r => String.eqb (rule_type r) ty
                 && String.eqb (rule_project_type r) pt)
       (colorado_lien_rules db) = Some rule ->
  Z.abs (deadline_days rule) <= 90000000 ->
  Deadlines.calculate lost tz body db
  = (R200 {| Deadlines.deadlineDate :=
               add_days trigger (deadline_days rule);
             Deadlines.deadlineDays := deadline_days rule;
             Deadlines.description := rule_description rule;
             Deadlines.triggerEvent := trigger_event rule;
             Deadlines.statutoryReference := statutory_reference rule |},
     db).
Proof.
  intros Hfix Hl Hty Hne Ht Hv Hy Hpt Hfind Hdays.
  unfold Deadlines.calculate, handle, mbind, M_bind, mret, M_ret, query.
  rewrite Hty, Ht, Hl, Hpt.
  cbn [truthy_text truthy_date Deadlines.iso_text].
  replace (String.eqb ty "") with false
    by (symmetry; apply String.eqb_neq, Hne).
  cbn [negb orb]. unfold Deadlines.select_rule. rewrite Hfind.
  destruct (Date_parse_iso trigger Hv Hy) as [Hparse Hbound].
  rewrite Hparse.
  rewrite (plus_days_iso_fixed tz c) by
    (try exact Hfix; unfold MakeDate, maxTime, msPerDay; lia).
  unfold Deadlines.of_exception, mret, M_ret.
  replace (Day (MakeDate (days_from_civil (year trigger) (month trigger)
                            (day trigger)) 0))
    with (days_from_civil (year trigger) (month trigger) (day trigger))
    by (unfold Day, MakeDate, msPerDay; rewrite Z.add_0_r, Z.div_mul; lia).
  rewrite civil_from_days_from_civil by exact Hv. reflexivity.
Qed.

(** C3: on a host in America/Denver the calculator, given the seeded
    preliminary-notice rule of 10 days and the trigger date 1 March 2024,
    answers 10 March 2024, one day short of 1 March plus 10 calendar
    days: daylight saving starts in between. *)
Theorem calculate_drifts_across_dst :
  (exists r,
      (Deadlines.calculate Samples.online denver_2024 Samples.from_march_1
         Samples.db0).1 = R200 r
      /\ Deadlines.deadlineDays r = 10
      /\ Deadlines.deadlineDate r = mkCivil 2024 3 10)
  /\ add_days (mkCivil 2024 3 1) 10 = mkCivil 2024 3 11.
Proof.
  vm_compute. split; [|reflexivity]. eexists. repeat split; reflexivity.
Qed.

(** The same request on a host in UTC. *)
Example calculate_on_utc_host :
  exists r,
    (Deadlines.calculate Samples.online utc_zone Samples.from_march_1
       Samples.db0).1 = R200 r
    /\ Deadlines.deadlineDate r = mkCivil 2024 3 11.
Proof. vm_compute. eexists. split; reflexivity. Qed.

(** ** The completed-date invariant *)

Section Keeps.

Context {P : DB -> Prop}.

Lemma keeps_ret {A : Type} (a : A) : keeps P (mret a).
Proof. intros db H. exact H. Qed.

Lemma keeps_raise {A : Type} : keeps P (@raise A).
Proof. intros db H. exact H. Qed.

Lemma keeps_bind {A B : Type} (m : M A) (f : A -> M B) :
  keeps P m -> (forall a, keeps P (f a)) -> keeps P (m ≫= f).
Proof.
  intros Hm Hf db H. specialize (Hm db H).
  unfold mbind, M_bind. destruct (m db) as [a db'|db']; cbn [final] in *.
  - apply Hf, Hm.
  - exact Hm.
Qed.

Lemma keeps_query {A : Type} (lost : bool) (s : Stmt A) :
  (forall db a db', s db = Some (a, db') -> P db -> P db') ->
  keeps P (query lost s).
Proof.
  intros Hs db H. unfold query. destruct lost; [exact H|].
  destruct (s db) as [[a db']|] eqn:E; cbn [final]; [|exact H].
  eapply Hs; eassumption.
Qed.

Lemma keeps_of_exception {A : Type} (v : option A) :
  keeps P (Deadlines.of_exception v).
Proof. destruct v; [apply keeps_ret|apply keeps_raise]. Qed.

Lemma keeps_handle {A : Type} (m : M (Response A)) (db : DB) :
  keeps P m -> P db -> P (handle m db).2.
Proof.
  intros Hm H. specialize (Hm db H). unfold handle.
  destruct (m db); exact Hm.
Qed.

End Keeps.

Ltac keeps_step :=
  first
    [ apply keeps_ret
    | apply keeps_raise
    | apply keeps_of_exception
    | apply keeps_bind; [|intros ?]
    | match goal with
      | |- keeps _ (if ?c then _ else _) => destruct c
      | |- keeps _ (match ?x with _ => _ end) => destruct x
      end ].

Lemma insert_deadline_consistent (id : string) (userId projectId : option string)
    (deadlineType : option string) (deadlineDate triggerDate : option date_text)
    (ttl description prio notes : option string) (db db' : DB)
    (r : string * Deadline) :
  Deadlines.insert_deadline id userId projectId deadlineType deadlineDate
    triggerDate ttl description prio notes db = Some (r, db') ->
  Expected.all_consistent db -> Expected.all_consistent db'.
Proof.
  unfold Deadlines.insert_deadline. intros H Hinv.
  destruct userId; [|discriminate H].
  destruct (deadlineType ≫= deadline_type_of_text); [|discriminate H].
  destruct (deadlineDate ≫= sql_date); [|discriminate H].
  destruct (convert_opt sql_date triggerDate); [|discriminate H].
  destruct ttl; [|discriminate H].
  destruct (convert_opt priority_of_text prio); [|discriminate H].
  match type of H with
  | context [if ?c then _ else _] => destruct c
  end; [|discriminate H].
  injection H as <- <-. unfold Expected.all_consistent.
  cbn [with_deadlines deadlines]. apply map_Forall_insert_2; [|exact Hinv].
  unfold Expected.consistent. cbn. split; [intros [? ?]|]; discriminate.
Qed.

Lemma complete_deadline_consistent (today : Civil) (id : string)
    (db db' : DB) (r : option (string * Deadline)) :
  Deadlines.complete_deadline today id db = Some (r, db') ->
  Expected.all_consistent db -> Expected.all_consistent db'.
Proof.
  unfold Deadlines.complete_deadline. intros H Hinv.
  destruct (deadlines db !! id) as [old|]; injection H as <- <-;
    [|exact Hinv].
  unfold Expected.all_consistent.
  cbn [with_deadlines deadlines]. apply map_Forall_insert_2; [|exact Hinv].
  unfold Expected.consistent. cbn. split; [reflexivity|eauto].
Qed.

Lemma delete_deadline_consistent (id : string) (db db' : DB)
    (r : option (string * Deadline)) :
  Deadlines.delete_deadline id db = Some (r, db') ->
  Expected.all_consistent db -> Expected.all_consistent db'.
Proof.
  unfold Deadlines.delete_deadline. intros H Hinv.
  destruct (deadlines db !! id) as [old|]; injection H as <- <-;
    [|exact Hinv].
  unfold Expected.all_consistent.
  cbn [with_deadlines deadlines]. apply map_Forall_delete, Hinv.
Qed.

Lemma update_deadline_consistent (id : string) (body : Deadlines.UpdateBody)
    (db db' : DB) (r : option (string * Deadline)) :
  (Deadlines.u_status body = None /\ Deadlines.u_completedDate body = None)
  \/ (Deadlines.u_status body = Some "completed"
      /\ is_Some (Deadlines.u_completedDate body)) ->
  Deadlines.update_deadline id body db = Some (r, db') ->
  Expected.all_consistent db -> Expected.all_consistent db'.
Proof.
  unfold Deadlines.update_deadline. intros Hbody H Hinv.
  destruct (convert_opt sql_date (Deadlines.u_deadlineDate body));
    [|discriminate H].
  destruct (convert_opt sql_date (Deadlines.u_completedDate body))
    as [cdate|] eqn:Hcd; [|discriminate H].
  destruct (deadlines db !! id) as [old|] eqn:Hold;
    [|injection H as <- <-; exact Hinv].
  destruct (convert_opt status_of_text (Deadlines.u_status body))
    as [st|] eqn:Hst; [|discriminate H].
  destruct (convert_opt priority_of_text (Deadlines.u_priority body));
    [|discriminate H].
  match type of H with
  | context [if ?c then _ else _] => destruct c
  end; [|discriminate H].
  injection H as <- <-. unfold Expected.all_consistent.
  cbn [with_deadlines deadlines]. apply map_Forall_insert_2; [|exact Hinv].
  unfold Expected.consistent. cbn [completed_date status].
  destruct Hbody as [[Hs Hc] | [Hs [t Hc]]].
  - rewrite Hs in Hst. rewrite Hc in Hcd. cbn in Hst, Hcd.
    injection Hst as <-. injection Hcd as <-. cbn.
    exact (Hinv id old Hold).
  - rewrite Hs in Hst. rewrite Hc in Hcd. cbn in Hst, Hcd.
    injection Hst as <-. destruct (sql_date t); [|discriminate Hcd].
    injection Hcd as <-. cbn. split; [reflexivity|eauto].
Qed.

(** The generator only inserts pending deadlines without completed_date. *)
Lemma autoCreate_keeps_completed_invariant (lost : nat -> bool)
    (tz : TimeZone) (pg_date : Civil -> Z) (prelimId lienId : string)
    (body : Deadlines.AutoCreateBody) (db : DB) :
  Expected.all_consistent db ->
  Expected.all_consistent
    (Deadlines.autoCreate lost tz pg_date prelimId lienId body db).2.
Proof.
  apply keeps_handle. unfold Deadlines.autoCreate.
  repeat first
    [ keeps_step
    | (apply keeps_query; intros ? ? ? E;
       first [ (injection E as <- <-; tauto)
             | (eapply insert_deadline_consistent; exact E) ]) ].
Qed.

(** C9, amended: create, complete and delete keep completed_date present
    exactly on the completed deadlines; so does a partial update that
    supplies neither status nor completedDate, or that supplies status
    completed together with a completedDate. *)
Theorem deadline_ops_keep_completed_invariant (db : DB) :
  Expected.all_consistent db ->
  (forall lost id body,
      Expected.all_consistent (Deadlines.create lost id body db).2)
  /\ (forall lost today id,
        Expected.all_consistent (Deadlines.complete lost today id db).2)
  /\ (forall lost id,
        Expected.all_consistent (Deadlines.delete lost id db).2)
  /\ (forall lost id body,
        (Deadlines.u_status body = None
         /\ Deadlines.u_completedDate body = None)
        \/ (Deadlines.u_status body = Some "completed"
            /\ is_Some (Deadlines.u_completedDate body)) ->
        Expected.all_consistent (Deadlines.update lost id body db).2).
Proof.
  intros Hinv. split; [|split; [|split]].
  - intros lost id body. revert Hinv. apply keeps_handle.
    unfold Deadlines.create.
    repeat first
      [ keeps_step
      | (apply keeps_query; intros ? ? ? E;
         eapply insert_deadline_consistent; exact E) ].
  - intros lost today id. revert Hinv. apply keeps_handle.
    unfold Deadlines.complete.
    repeat first
      [ keeps_step
      | (apply keeps_query; intros ? ? ? E;
         eapply complete_deadline_consistent; exact E) ].
  - intros lost id. revert Hinv. apply keeps_handle.
    unfold Deadlines.delete.
    repeat first
      [ keeps_step
      | (apply keeps_query; intros ? ? ? E;
         eapply delete_deadline_consistent; exact E) ].
  - intros lost id body Hbody. revert Hinv. apply keeps_handle.
    unfold Deadlines.update.
    repeat first
      [ keeps_step
      | (apply keeps_query; intros ? ? ? E;
         eapply update_deadline_consistent; [exact Hbody|exact E]) ].
Qed.

Lemma deadline_ops_keep_completed_invariant_witness :
  Expected.all_consistent Samples.db_deadline
  /\ (forall lost id body,
        Expected.all_consistent
          (Deadlines.create lost id body Samples.db_deadline).2)
  /\ (forall lost today id,
        Expected.all_consistent
          (Deadlines.complete lost today id Samples.db_deadline).2)
  /\ (forall lost id,
        Expected.all_consistent
          (Deadlines.delete lost id Samples.db_deadline).2)
  /\ (forall lost id body,
        (Deadlines.u_status body = None
         /\ Deadlines.u_completedDate body = None)
        \/ (Deadlines.u_status body = Some "completed"
            /\ is_Some (Deadlines.u_completedDate body)) ->
        Expected.all_consistent
          (Deadlines.update lost id body Samples.db_deadline).2).
Proof.
  assert (H : Expected.all_consistent Samples.db_deadline)
    by (apply (bool_decide_unpack _); vm_compute; exact I).
  split; [exact H|].
  exact (deadline_ops_keep_completed_invariant Samples.db_deadline H).
Defined.

(** C9, as stated, fails: PUT /:id with status completed and nothing else
    leaves a completed deadline without completed_date, and PUT /:id with
    status pending on a completed deadline leaves a pending deadline with a
    completed_date. *)
Lemma update_breaks_completed_invariant :
  Expected.all_consistent Samples.db_deadline
  /\ (exists d,
        Samples.marked_completed.1 = R200 ("d1", d)
        /\ deadlines Samples.marked_completed.2 !! "d1" = Some d
        /\ status d = DCompleted /\ completed_date d = None)
  /\ ~ Expected.all_consistent Samples.marked_completed.2
  /\ (exists d,
        Samples.reopened.1 = R200 ("d1", d)
        /\ deadlines Samples.reopened.2 !! "d1" = Some d
        /\ status d = DPending
        /\ completed_date d = Some (mkCivil 2024 6 3))
  /\ ~ Expected.all_consistent Samples.reopened.2.
Proof.
  split; [apply (bool_decide_unpack _); vm_compute; exact I|].
  split; [eexists; repeat split; vm_compute; reflexivity|].
  split; [apply (bool_decide_eq_false_1 _); vm_compute; reflexivity|].
  split; [eexists; repeat split; vm_compute; reflexivity|].
  apply (bool_decide_eq_false_1 _); vm_compute; reflexivity.
Qed.

(** ** The deadline generator *)

Lemma string_length_app (a b : string) :
  String.length (a +:+ b) = (String.length a + String.length b)%nat.
Proof. induction a as [|ch a IH]; simpl; [reflexivity|]. f_equal. exact IH. Qed.

Lemma sql_date_iso_text (c : Civil) :
  sql_date_ok c = true -> sql_date (Deadlines.iso_text c) = Some c.
Proof.
  intros H. destruct c as [y m d].
  unfold Deadlines.iso_text, sql_date. cbn [year month day].
  rewrite H. reflexivity.
Qed.

Lemma insert_deadline_ok (id u pid tyText : string) (ty : DeadlineType)
    (ddate tdate : Civil) (ttl : string) (desc : option string)
    (prioText : string) (prio : Priority) (db : DB) :
  deadline_type_of_text tyText = Some ty ->
  sql_date_ok ddate = true -> sql_date_ok tdate = true ->
  priority_of_text prioText = Some prio ->
  deadlines db !! id = None -> u ∈ users db ->
  is_Some (projects db !! pid) ->
  (String.length ttl <= 255)%nat ->
  Deadlines.insert_deadline id (Some u) (Some pid) (Some tyText)
    (Some (Deadlines.iso_text ddate)) (Some (Deadlines.iso_text tdate))
    (Some ttl) desc (Some prioText) None db
  = Some ((id, mkDeadline u (Some pid) ty ddate (Some tdate) ttl desc
                 DPending (Some prio) None None),
          with_deadlines db
            (<[id := mkDeadline u (Some pid) ty ddate (Some tdate) ttl desc
                      DPending (Some prio) None None]> (deadlines db))).
Proof.
  intros Hty Hd Ht Hp Hfresh Hu Hpr Hlen.
  unfold Deadlines.insert_deadline.
  cbn [mbind option_bind convert_opt].
  rewrite Hty, (sql_date_iso_text _ Hd), (sql_date_iso_text _ Ht), Hp.
  rewrite !bool_decide_eq_true_2 by assumption.
  unfold fits_varchar.
  replace (String.length ttl <=? 255)%nat with true
    by (symmetry; apply Nat.leb_le, Hlen).
  reflexivity.
Qed.

(** The date [k] days after a calendar date written in the request, as the
    handler computes it on a host without daylight saving. *)
Lemma plus_days_iso_of_text (tz : TimeZone) (c : Z) (s : Civil) (k : Z) :
  fixed_offset tz c -> sql_date_ok s = true -> Z.abs k <= 90000000 ->
  Deadlines.plus_days_iso tz (Date_parse (Deadlines.iso_text s)) k
  = Some (add_days s k)
  /\ toISODate (Date_parse (Deadlines.iso_text s)) = Some s.
Proof.
  intros Hfix Hok Hk. unfold sql_date_ok in Hok. bool_to_Z.
  destruct (Date_parse_iso s) as [Hparse Hbound]; [assumption|lia|].
  rewrite Hparse.
  assert (HDay : Day (MakeDate (days_from_civil (year s) (month s) (day s)) 0)
                 = days_from_civil (year s) (month s) (day s))
    by (unfold Day, MakeDate, msPerDay; rewrite Z.add_0_r, Z.div_mul; lia).
  split.
  - rewrite (plus_days_iso_fixed tz c) by
      (try exact Hfix; unfold MakeDate, maxTime, msPerDay; lia).
    rewrite HDay, civil_from_days_from_civil by assumption. reflexivity.
  - unfold toISODate. rewrite HDay, civil_from_days_from_civil by assumption.
    reflexivity.
Qed.

(** C4, as stated, fails: on a public project of which only the start of
    work is known the generator creates no deadline. *)
Lemma autoCreate_public_start_only :
  Deadlines.autoCreate Samples.online utc_zone Samples.pg_date_utc "d1" "d2"
    Samples.auto_public_start Samples.db0
  = (R201 [], Samples.db0).
Proof. vm_compute. reflexivity. Qed.

(** C4, amended: on a host without daylight saving, for dates the request
    supplies, the generator creates the preliminary notice (start + 10
    days, priority high, trigger_date the start) on a private project only,
    and the filing (end + 120 days, priority critical, trigger_date the
    end; a mechanics lien on a private project, a payment bond claim
    otherwise) whenever the request has an end date.  The project is
    private when projectType is the text private or is absent from the
    request; a projectType of null is not private.  A private project
    with a start date so gets one deadline without an end date and two
    with one; any other project gets none without an end date, without an
    error, and one with an end date. *)
Theorem autoCreate_by_project_type (lost : nat -> bool) (tz : TimeZone)
    (c : Z) (pg_date : Civil -> Z) (prelimId lienId : string)
    (body : Deadlines.AutoCreateBody) (db : DB) (u pid : string)
    (project : Project) (start : Civil) (finish : option Civil) :
  fixed_offset tz c ->
  (forall k, lost k = false) ->
  Deadlines.a_userId body = Some u -> u <> "" -> u ∈ users db ->
  Deadlines.a_projectId body = Some pid -> pid <> "" ->
  projects db !! pid = Some project ->
  (String.length (project_name project) <= 227)%nat ->
  deadlines db !! prelimId = None -> deadlines db !! lienId = None ->
  prelimId <> lienId ->
  (Expected.is_private (Deadlines.a_projectType body) = true ->
   Deadlines.a_workStartDate body = Some (Deadlines.iso_text start)
   /\ sql_date_ok start = true /\ sql_date_ok (add_days start 10) = true) ->
  Deadlines.a_workEndDate body = Deadlines.iso_text <$> finish ->
  (forall e, finish = Some e ->
             sql_date_ok e = true /\ sql_date_ok (add_days e 120) = true) ->
  Deadlines.autoCreate lost tz pg_date prelimId lienId body db
  = (R201 (Expected.auto_deadlines prelimId lienId u pid
             (project_name project)
             (Expected.is_private (Deadlines.a_projectType body))
             start finish),
     with_deadlines db
       (foldl (fun m r => <[r.1 := r.2]> m) (deadlines db)
          (Expected.auto_deadlines prelimId lienId u pid
             (project_name project)
             (Expected.is_private (Deadlines.a_projectType body))
             start finish))).
Proof.
  intros Hfix Hl Hu Hune Huin Hp Hpne Hproj Hlen Hf1 Hf2 Hids Hstart Hend
         Hfin.
  unfold Deadlines.autoCreate, handle, mbind, M_bind, mret, M_ret, query.
  rewrite Hp, Hu, !Hl. cbn [truthy_text].
  replace (String.eqb u "") with false
    by (symmetry; apply String.eqb_neq, Hune).
  replace (String.eqb pid "") with false
    by (symmetry; apply String.eqb_neq, Hpne).
  cbn [negb orb]. unfold Deadlines.select_project. rewrite Hproj.
  unfold Deadlines.truthy_object. cbn [andb].
  unfold Expected.is_private in *.
  unfold Expected.auto_deadlines.
  destruct (strict_eq (or_default "private" (Deadlines.a_projectType body))
                      "private") eqn:Hpriv.
  - destruct (Hstart eq_refl) as (Hs & Hsok & Hs10).
    unfold Deadlines.start_date. rewrite Hs.
    cbn [truthy_date Deadlines.iso_text mbind option_bind].
    change (IsoDate (year start) (month start) (day start))
      with (Deadlines.iso_text start).
    destruct (plus_days_iso_of_text tz c start 10 Hfix Hsok ltac:(lia))
      as [Hplus Hiso].
    rewrite Hplus, Hiso. unfold Deadlines.of_exception, mret, M_ret.
    rewrite (insert_deadline_ok prelimId u pid "preliminary_notice"
               PreliminaryNotice (add_days start 10) start _ _ "high" High)
      by (first [reflexivity | assumption | (rewrite Hproj; eauto)
                | (rewrite string_length_app; cbn; lia)]).
    rewrite Hend. destruct finish as [e|]; cbn [fmap option_fmap option_map
                                                truthy_date Deadlines.iso_text
                                                mbind option_bind].
    + destruct (Hfin e eq_refl) as [Heok He120].
      change (IsoDate (year e) (month e) (day e))
        with (Deadlines.iso_text e).
      destruct (plus_days_iso_of_text tz c e 120 Hfix Heok ltac:(lia))
        as [Hplus' Hiso'].
      rewrite Hplus', Hiso'.
      rewrite (insert_deadline_ok lienId u pid "mechanics_lien"
                 MechanicsLien (add_days e 120) e _ _ "critical" Critical)
        by (first [reflexivity | assumption
                  | (cbn [with_deadlines deadlines projects users];
                     first [assumption | (rewrite Hproj; eauto)
                           | (rewrite lookup_insert_ne by exact Hids;
                              assumption)])
                  | (rewrite !string_length_app; cbn; lia)]).
      reflexivity.
    + reflexivity.
  - rewrite Hend. destruct finish as [e|]; cbn [fmap option_fmap option_map
                                                truthy_date Deadlines.iso_text
                                                mbind option_bind].
    + destruct (Hfin e eq_refl) as [Heok He120].
      change (IsoDate (year e) (month e) (day e))
        with (Deadlines.iso_text e).
      destruct (plus_days_iso_of_text tz c e 120 Hfix Heok ltac:(lia))
        as [Hplus' Hiso'].
      rewrite Hplus', Hiso'. unfold Deadlines.of_exception, mret, M_ret.
      rewrite (insert_deadline_ok lienId u pid "payment_bond_claim"
                 PaymentBondClaim (add_days e 120) e _ _ "critical" Critical)
        by (first [reflexivity | assumption | (rewrite Hproj; eauto)
                  | (rewrite !string_length_app; cbn; lia)]).
      reflexivity.
    + destruct db; reflexivity.
Qed.

(** Work from 1 May to 30 September 2024 on a private project, on a host in
    UTC: the notice is due on 11 May and the lien on 28 January 2025. *)
Lemma autoCreate_by_project_type_witness :
  fixed_offset utc_zone 0
  /\ (forall k, Samples.online k = false)
  /\ Deadlines.a_userId Samples.auto_both = Some "u1" /\ "u1" <> ""
  /\ "u1" ∈ users Samples.db0
  /\ Deadlines.a_projectId Samples.auto_both = Some "p1" /\ "p1" <> ""
  /\ projects Samples.db0 !! "p1" = Some Samples.tower
  /\ (String.length (project_name Samples.tower) <= 227)%nat
  /\ deadlines Samples.db0 !! "d1" = None
  /\ deadlines Samples.db0 !! "d2" = None
  /\ "d1" <> "d2"
  /\ (Expected.is_private (Deadlines.a_projectType Samples.auto_both) = true ->
      Deadlines.a_workStartDate Samples.auto_both
      = Some (Deadlines.iso_text Samples.may_1)
      /\ sql_date_ok Samples.may_1 = true
      /\ sql_date_ok (add_days Samples.may_1 10) = true)
  /\ Deadlines.a_workEndDate Samples.auto_both
     = Deadlines.iso_text <$> Some Samples.september_30
  /\ (forall e, Some Samples.september_30 = Some e ->
                sql_date_ok e = true /\ sql_date_ok (add_days e 120) = true)
  /\ Deadlines.autoCreate Samples.online utc_zone Samples.pg_date_utc
       "d1" "d2" Samples.auto_both Samples.db0
     = (R201 (Expected.auto_deadlines "d1" "d2" "u1" "p1"
                (project_name Samples.tower)
                (Expected.is_private
                   (Deadlines.a_projectType Samples.auto_both))
                Samples.may_1 (Some Samples.september_30)),
        with_deadlines Samples.db0
          (foldl (fun m r => <[r.1 := r.2]> m) (deadlines Samples.db0)
             (Expected.auto_deadlines "d1" "d2" "u1" "p1"
                (project_name Samples.tower)
                (Expected.is_private
                   (Deadlines.a_projectType Samples.auto_both))
                Samples.may_1 (Some Samples.september_30)))).
Proof.
  assert (H1 : fixed_offset utc_zone 0) by (intros t; split; reflexivity).
  assert (H2 : forall k, Samples.online k = false) by (intros k; reflexivity).
  assert (H3 : Deadlines.a_userId Samples.auto_both = Some "u1")
    by reflexivity.
  assert (H4 : "u1" <> "") by discriminate.
  assert (H5 : "u1" ∈ users Samples.db0)
    by (apply (bool_decide_unpack _); vm_compute; exact I).
  assert (H6 : Deadlines.a_projectId Samples.auto_both = Some "p1")
    by reflexivity.
  assert (H7 : "p1" <> "") by discriminate.
  assert (H8 : projects Samples.db0 !! "p1" = Some Samples.tower)
    by (vm_compute; reflexivity).
  assert (H9 : (String.length (project_name Samples.tower) <= 227)%nat)
    by (vm_compute; lia).
  assert (H10 : deadlines Samples.db0 !! "d1" = None)
    by (vm_compute; reflexivity).
  assert (H11 : deadlines Samples.db0 !! "d2" = None)
    by (vm_compute; reflexivity).
  assert (H12 : "d1" <> "d2") by discriminate.
  assert (H13 : Expected.is_private
                  (Deadlines.a_projectType Samples.auto_both) = true ->
                Deadlines.a_workStartDate Samples.auto_both
                = Some (Deadlines.iso_text Samples.may_1)
                /\ sql_date_ok Samples.may_1 = true
                /\ sql_date_ok (add_days Samples.may_1 10) = true)
    by (intros _; repeat split; vm_compute; reflexivity).
  assert (H14 : Deadlines.a_workEndDate Samples.auto_both
                = Deadlines.iso_text <$> Some Samples.september_30)
    by reflexivity.
  assert (H15 : forall e, Some Samples.september_30 = Some e ->
                          sql_date_ok e = true
                          /\ sql_date_ok (add_days e 120) = true)
    by (intros e [= <-]; split; vm_compute; reflexivity).
  repeat (split; [assumption|]).
  exact (autoCreate_by_project_type Samples.online utc_zone 0
           Samples.pg_date_utc "d1" "d2" Samples.auto_both Samples.db0
           "u1" "p1" Samples.tower Samples.may_1 (Some Samples.september_30)
           H1 H2 H3 H4 H5 H6 H7 H8 H9 H10 H11 H12 H13 H14 H15).
Defined.

(** What that request creates. *)
Example autoCreate_both_dates :
  (Deadlines.autoCreate Samples.online utc_zone Samples.pg_date_utc
     "d1" "d2" Samples.auto_both Samples.db0).1
  = R201 [("d1", Expected.preliminary_notice_of "u1" "p1" "Tower"
                   (mkCivil 2024 5 1));
          ("d2", Expected.filing_of "u1" "p1" "Tower" true
                   (mkCivil 2024 9 30))]
  /\ add_days (mkCivil 2024 5 1) 10 = mkCivil 2024 5 11
  /\ add_days (mkCivil 2024 9 30) 120 = mkCivil 2025 1 28.
Proof. vm_compute. repeat split; reflexivity. Qed.

(** A projectType of null is not given the default: the request creates no
    notice, and a payment bond claim for the end of work. *)
Example autoCreate_null_type :
  Expected.is_private (Deadlines.a_projectType Cases.auto_null_type) = false
  /\ (Deadlines.autoCreate Samples.online utc_zone Samples.pg_date_utc
        "d1" "d2" Cases.auto_null_type Samples.db0).1
     = R201 [("d2", Expected.filing_of "u1" "p1" "Tower" false
                      (mkCivil 2024 9 30))].
Proof. vm_compute. split; reflexivity. Qed.

(** On a private project of which no date is known at all, the handler
    tests the [Date] object it built from null, which is truthy, and
    creates a preliminary notice counted from 1 January 1970. *)
Example autoCreate_private_undated :
  (Deadlines.autoCreate Samples.online utc_zone Samples.pg_date_utc
     "d1" "d2" Samples.auto_private_undated Samples.db0).1
  = R201 [("d1", Expected.preliminary_notice_of "u1" "p1" "Tower"
                   (mkCivil 1970 1 1))].
Proof. vm_compute. reflexivity. Qed.

(** ** The ledger and the invoices *)

Lemma paid_total_app (id : string) (l1 l2 : list Payment) :
  Accounts.paid_total id (l1 ++ l2)
  = Accounts.paid_total id l1 + Accounts.paid_total id l2.
Proof.
  unfold Accounts.paid_total.
  induction l1 as [|p l1 IH]; cbn [app foldr]; [reflexivity|].
  rewrite IH. destruct (String.eqb (pay_invoice p) id); lia.
Qed.

Lemma paid_total_none (id : string) (l : list Payment) :
  Forall (fun p => pay_invoice p <> id) l -> Accounts.paid_total id l = 0.
Proof.
  unfold Accounts.paid_total.
  induction 1 as [|p l Hp _ IH]; [reflexivity|].
  cbn [foldr]. rewrite IH.
  destruct (String.eqb_spec (pay_invoice p) id); [contradiction|].
  reflexivity.
Qed.

Lemma paid_total_filter_other (id id' : string) (l : list Payment) :
  id' <> id ->
  Accounts.paid_total id'
    (List.filter (fun p => negb (String.eqb (pay_invoice p) id)) l)
  = Accounts.paid_total id' l.
Proof.
  intros Hne. unfold Accounts.paid_total.
  induction l as [|p l IH]; [reflexivity|].
  cbn [List.filter foldr].
  destruct (String.eqb_spec (pay_invoice p) id) as [E|E]; cbn [negb].
  - rewrite IH. destruct (String.eqb_spec (pay_invoice p) id'); [congruence|].
    reflexivity.
  - cbn [foldr]. rewrite IH. reflexivity.
Qed.

Lemma insert_invoice_ledger (id : string) (userId : option string)
    (projectId invoiceNumber : option string)
    (invoiceDate dueDate : option date_text)
    (amount retainagePercent retainageAmount : option Q)
    (description notes : option string) (db db' : DB) (row : Invoice) :
  Invoices.insert_invoice id userId projectId invoiceNumber invoiceDate
    dueDate amount retainagePercent retainageAmount description notes db
  = Some (row, db') ->
  Accounts.ledger_ok db -> Accounts.ledger_ok db'.
Proof.
  unfold Invoices.insert_invoice. intros H [Hbal Horph].
  destruct userId; [|discriminate H].
  destruct invoiceNumber; [|discriminate H].
  destruct (invoiceDate ≫= sql_date); [|discriminate H].
  destruct (dueDate ≫= sql_date); [|discriminate H].
  destruct amount; [|discriminate H].
  match type of H with
  | context [if ?c then _ else _] => destruct c eqn:Hc
  end; [|discriminate H].
  split_andb.
  match goal with
  | Hf : bool_decide (_ = None) = true |- _ =>
      apply bool_decide_eq_true in Hf; rename Hf into Hfresh
  end.
  injection H as <- <-. split.
  - unfold Accounts.balanced. cbn [with_invoices invoices payments].
    apply map_Forall_insert_2; [|exact Hbal].
    cbn [amount_paid]. symmetry. apply paid_total_none.
    eapply Forall_impl; [exact Horph|]. intros p [i Hi] E.
    cbn beta in Hi. rewrite E in Hi. congruence.
  - unfold Accounts.no_orphans. cbn [with_invoices invoices payments].
    eapply Forall_impl; [exact Horph|]. intros p [i Hi]. cbn beta in *.
    destruct (decide (id = pay_invoice p)) as [->|Hne].
    + rewrite lookup_insert_eq. eauto.
    + rewrite lookup_insert_ne by exact Hne. eauto.
Qed.

Lemma update_invoice_ledger (id : string) (invoiceNumber : option string)
    (invoiceDate dueDate : option date_text)
    (amount retainagePercent retainageAmount : option Q)
    (paymentStatus : option string) (paidDate : option date_text)
    (description notes : option string) (db db' : DB)
    (r : option Invoice) :
  Invoices.update_invoice id invoiceNumber invoiceDate dueDate amount
    retainagePercent retainageAmount paymentStatus paidDate description
    notes db = Some (r, db') ->
  Accounts.ledger_ok db -> Accounts.ledger_ok db'.
Proof.
  unfold Invoices.update_invoice. intros H [Hbal Horph].
  destruct (convert_opt sql_date invoiceDate); [|discriminate H].
  destruct (convert_opt sql_date dueDate); [|discriminate H].
  destruct (convert_opt sql_date paidDate); [|discriminate H].
  destruct (invoices db !! id) as [old|] eqn:Hold;
    [|destruct (is_uuid id); [|discriminate H];
      injection H as <- <-; split; assumption].
  destruct (convert_opt payment_status_of_text paymentStatus);
    [|discriminate H].
  match type of H with
  | context [if ?c then _ else _] => destruct c
  end; [|discriminate H].
  injection H as <- <-. split.
  - unfold Accounts.balanced. cbn [with_invoices invoices payments].
    apply map_Forall_insert_2; [|exact Hbal].
    cbn [amount_paid]. exact (Hbal id old Hold).
  - unfold Accounts.no_orphans. cbn [with_invoices invoices payments].
    eapply Forall_impl; [exact Horph|]. intros p [i Hi]. cbn beta in *.
    destruct (decide (id = pay_invoice p)) as [->|Hne].
    + rewrite lookup_insert_eq. eauto.
    + rewrite lookup_insert_ne by exact Hne. eauto.
Qed.

Lemma delete_invoice_ledger (id : string) (db db' : DB)
    (r : option Invoice) :
  InvoiceRoutes.delete_invoice id db = Some (r, db') ->
  Accounts.ledger_ok db -> Accounts.ledger_ok db'.
Proof.
  unfold InvoiceRoutes.delete_invoice. intros H [Hbal Horph].
  destruct (invoices db !! id) as [old|] eqn:Hold;
    [|destruct (is_uuid id); [|discriminate H];
      injection H as <- <-; split; assumption].
  injection H as <- <-. split.
  - unfold Accounts.balanced.
    cbn [with_payments with_invoices invoices payments].
    intros i inv Hi. apply lookup_delete_Some in Hi as [Hne Hi].
    rewrite paid_total_filter_other by congruence. exact (Hbal i inv Hi).
  - unfold Accounts.no_orphans.
    cbn [with_payments with_invoices invoices payments].
    apply Forall_forall. intros p Hp.
    apply list_elem_of_In, filter_In in Hp as [Hp Hne].
    apply negb_true_iff, String.eqb_neq in Hne.
    unfold Accounts.no_orphans in Horph. rewrite Forall_forall in Horph.
    destruct (Horph p (proj2 (list_elem_of_In _ _) Hp)) as [i Hi].
    exists i. rewrite lookup_delete_ne by congruence. exact Hi.
Qed.

(** X1: creating, updating and deleting invoices keep the ledger in
    balance, whichever way the request ends: every invoice's amount_paid
    stays the sum of its payments and no payment is left without its
    invoice. *)
Theorem invoice_writes_keep_ledger (db : DB) :
  Accounts.ledger_ok db ->
  (forall lost id body,
      Accounts.ledger_ok (Invoices.create lost id body db).2)
  /\ (forall lost id body,
        Accounts.ledger_ok (Invoices.update lost id body db).2)
  /\ (forall lost id,
        Accounts.ledger_ok (InvoiceRoutes.remove lost id db).2).
Proof.
  intros Hinv. split; [|split].
  - intros lost id body. revert Hinv. apply keeps_handle.
    unfold Invoices.create.
    repeat first
      [ keeps_step
      | (apply keeps_query; intros ? ? ? E;
         eapply insert_invoice_ledger; exact E) ].
  - intros lost id body. revert Hinv. apply keeps_handle.
    unfold Invoices.update.
    repeat first
      [ keeps_step
      | (apply keeps_query; intros ? ? ? E;
         eapply update_invoice_ledger; exact E) ].
  - intros lost id. revert Hinv. apply keeps_handle.
    unfold InvoiceRoutes.remove.
    repeat first
      [ keeps_step
      | (apply keeps_query; intros ? ? ? E;
         eapply delete_invoice_ledger; exact E) ].
Qed.

Lemma invoice_writes_keep_ledger_witness :
  Accounts.ledger_ok Samples.db_partial
  /\ (forall lost id body,
        Accounts.ledger_ok (Invoices.create lost id body Samples.db_partial).2)
  /\ (forall lost id body,
        Accounts.ledger_ok (Invoices.update lost id body Samples.db_partial).2)
  /\ (forall lost id,
        Accounts.ledger_ok (InvoiceRoutes.remove lost id Samples.db_partial).2).
Proof.
  assert (H : Accounts.ledger_ok Samples.db_partial)
    by (apply (bool_decide_unpack _); vm_compute; exact I).
  split; [exact H|].
  exact (invoice_writes_keep_ledger Samples.db_partial H).
Defined.

Lemma recordPayment_answers (lost : nat -> bool)
    (paymentId invoiceId : string) (body : Invoices.PaymentBody)
    (db db' : DB) (r : Response Payment) :
  Invoices.recordPayment lost paymentId invoiceId body db = (r, db') ->
  (exists p, r = R201 p) \/ (r = R400 /\ db' = db) \/ r = R500.
Proof.
  unfold Invoices.recordPayment, handle, mbind, M_bind, mret, M_ret.
  destruct (_ || _).
  - intros H. injection H as <- <-. right. left. split; reflexivity.
  - destruct (query _ _ db) as [a db1|db1];
      [|intros H; injection H as <- _; right; right; reflexivity].
    destruct (query _ _ db1); intros H; injection H as <- _;
      [left; eexists; reflexivity | right; right; reflexivity].
Qed.

(** X2: a payment request that is not answered 500 leaves the ledger in
    balance exactly when, if it was accepted, the invoice's former
    amount_paid plus the amount of the request, rounded to the cent, is
    the former amount_paid plus the recorded payment.  That is so for
    every amount in whole cents: then, after a 201, the invoice's
    amount_paid is again the sum of its payments, the new one included.
    A request refused with 400 changes nothing. *)
Theorem recordPayment_keeps_ledger (lost : nat -> bool)
    (paymentId invoiceId : string) (body : Invoices.PaymentBody)
    (db db' : DB) (r : Response Payment) :
  Accounts.ledger_ok db ->
  Invoices.recordPayment lost paymentId invoiceId body db = (r, db') ->
  r <> R500 ->
  (Accounts.ledger_ok db'
   <-> (forall (p : Payment) (inv : Invoice) (x : Q),
          r = R201 p -> invoices db !! invoiceId = Some inv ->
          to_param (Invoices.p_amount body) = Some x ->
          to_column (inject_Z (amount_paid inv) + x)
          = amount_paid inv + pay_amount p))
  /\ (forall (x : Q) (n : Z),
        to_param (Invoices.p_amount body) = Some x -> (x == inject_Z n)%Q ->
        Accounts.ledger_ok db')
  /\ (r = R400 -> db' = db).
Proof.
  intros [Hbal Horph] Hrun Hr.
  assert (Hiff :
    Accounts.ledger_ok db'
    <-> (forall (p : Payment) (inv : Invoice) (x : Q),
           r = R201 p -> invoices db !! invoiceId = Some inv ->
           to_param (Invoices.p_amount body) = Some x ->
           to_column (inject_Z (amount_paid inv) + x)
           = amount_paid inv + pay_amount p)).
  { destruct (recordPayment_answers _ _ _ _ _ _ _ Hrun)
      as [[p ->] | [[-> ->] | ->]]; [| |congruence].
    - destruct (recordPayment_accepted _ _ _ _ _ _ _ Hrun)
        as (x & date & inv & Hx & _ & _ & Hinv & Hpx & _ & Hpi & Hpay & Hdb').
      split.
      + intros [Hbal' _] p0 inv0 x0 Hp0 Hinv0 Hx0.
        injection Hp0 as <-.
        rewrite Hinv in Hinv0. injection Hinv0 as <-.
        rewrite Hx in Hx0. injection Hx0 as <-.
        specialize (Hbal' invoiceId (Invoices.apply_payment x date inv)).
        rewrite Hdb', lookup_insert_eq, Hpay, paid_total_app in Hbal'.
        specialize (Hbal' eq_refl).
        cbn [Accounts.paid_total foldr Invoices.apply_payment amount_paid]
          in Hbal'.
        rewrite Hpi, String.eqb_refl in Hbal'.
        fold (Accounts.paid_total invoiceId (payments db)) in Hbal'.
        rewrite <- (Hbal invoiceId inv Hinv) in Hbal'.
        unfold Invoices.new_total in Hbal'. lia.
      + intros Hcond. specialize (Hcond p inv x eq_refl Hinv Hx). split.
        * unfold Accounts.balanced. rewrite Hdb', Hpay.
          intros i row Hi. rewrite paid_total_app.
          cbn [Accounts.paid_total foldr]. rewrite Hpi.
          destruct (decide (invoiceId = i)) as [->|Hne].
          -- rewrite lookup_insert_eq in Hi. injection Hi as <-.
             cbn [Invoices.apply_payment amount_paid].
             unfold Invoices.new_total.
             rewrite String.eqb_refl, Hcond.
             fold (Accounts.paid_total i (payments db)).
             rewrite <- (Hbal i inv Hinv). lia.
          -- rewrite lookup_insert_ne in Hi by exact Hne.
             destruct (String.eqb_spec invoiceId i); [contradiction|].
             fold (Accounts.paid_total i (payments db)).
             rewrite <- (Hbal i row Hi). lia.
        * unfold Accounts.no_orphans. rewrite Hdb', Hpay.
          apply Forall_app. split.
          -- eapply Forall_impl; [exact Horph|].
             intros q [i Hi]. cbn beta in *.
             destruct (decide (invoiceId = pay_invoice q)) as [->|Hne].
             ++ rewrite lookup_insert_eq. eauto.
             ++ rewrite lookup_insert_ne by exact Hne. eauto.
          -- apply Forall_singleton. rewrite Hpi, lookup_insert_eq. eauto.
    - split; [intros _ p inv x H; discriminate H|].
      intros _. split; assumption. }
  split; [exact Hiff|]. split.
  - intros x n Hx Hn. apply Hiff. intros p inv x0 -> Hinv Hx0.
    rewrite Hx in Hx0. injection Hx0 as <-.
    destruct (recordPayment_accepted _ _ _ _ _ _ _ Hrun)
      as (x1 & _ & _ & Hx1 & _ & _ & _ & Hpx & _).
    rewrite Hx in Hx1. injection Hx1 as <-.
    destruct (new_total_whole x n inv Hn) as (Hsum & _ & _ & Hcol).
    unfold Invoices.new_total in Hsum. rewrite Hsum, Hpx, Hcol. reflexivity.
  - intros ->.
    destruct (recordPayment_answers _ _ _ _ _ _ _ Hrun)
      as [[p H] | [[_ H] | H]]; [discriminate H|exact H|discriminate H].
Qed.

(** The second payment of the specification, 600.00 on a balance of
    400.00. *)
Lemma recordPayment_keeps_ledger_witness :
  Accounts.ledger_ok Samples.db_partial
  /\ Samples.settled = (R201 Samples.payment_600, Samples.db_paid)
  /\ R201 Samples.payment_600 <> R500
  /\ (Accounts.ledger_ok Samples.db_paid
      <-> (forall (p : Payment) (inv : Invoice) (x : Q),
             R201 Samples.payment_600 = R201 p ->
             invoices Samples.db_partial !! "i1" = Some inv ->
             to_param (Invoices.p_amount (Samples.pay 60000 2024 1 20))
             = Some x ->
             to_column (inject_Z (amount_paid inv) + x)
             = amount_paid inv + pay_amount p))
  /\ (forall (x : Q) (n : Z),
        to_param (Invoices.p_amount (Samples.pay 60000 2024 1 20)) = Some x ->
        (x == inject_Z n)%Q ->
        Accounts.ledger_ok Samples.db_paid)
  /\ (R201 Samples.payment_600 = R400 -> Samples.db_paid = Samples.db_partial).
Proof.
  assert (H1 : Accounts.ledger_ok Samples.db_partial)
    by (apply (bool_decide_unpack _); vm_compute; exact I).
  assert (H2 : Samples.settled = (R201 Samples.payment_600, Samples.db_paid))
    by (vm_compute; reflexivity).
  assert (H3 : R201 Samples.payment_600 <> R500) by discriminate.
  split; [exact H1|]. split; [exact H2|]. split; [exact H3|].
  exact (recordPayment_keeps_ledger Samples.online "pay2" "i1"
           (Samples.pay 60000 2024 1 20) Samples.db_partial Samples.db_paid
           (R201 Samples.payment_600) H1 H2 H3).
Defined.

(** Half a cent taken back from a balance of 1.00 is recorded as a payment
    of -0.01, while amount_paid stays 1.00: the ledger was in balance and
    no longer is. *)
Example half_cent_unbalances :
  Accounts.ledger_ok Cases.db_one_paid
  /\ (exists p, Cases.half_cent_back.1 = R201 p)
  /\ ~ Accounts.ledger_ok Cases.half_cent_back.2.
Proof.
  split; [apply (bool_decide_unpack _); vm_compute; exact I|].
  split; [eexists; vm_compute; reflexivity|].
  apply (bool_decide_eq_false_1 _). vm_compute. reflexivity.
Qed.

(** ** Reading and deleting an invoice *)

#[global] Instance later_first_total : Total InvoiceRoutes.later_first.
Proof. intros a b. unfold InvoiceRoutes.later_first. lia. Qed.

Lemma total_Permutation (l1 l2 : list Payment) :
  l1 ≡ₚ l2 -> Accounts.total l1 = Accounts.total l2.
Proof.
  unfold Accounts.total.
  induction 1 as [|p l1 l2 _ IH|p q l|l1 l2 l3 _ IH1 _ IH2];
    cbn [foldr]; lia.
Qed.

Lemma total_filter (id : string) (l : list Payment) :
  Accounts.total (List.filter (fun p => String.eqb (pay_invoice p) id) l)
  = Accounts.paid_total id l.
Proof.
  unfold Accounts.total, Accounts.paid_total.
  induction l as [|p l IH]; [reflexivity|].
  cbn [List.filter foldr].
  destruct (String.eqb (pay_invoice p) id); cbn [foldr]; rewrite IH;
    reflexivity.
Qed.

(** X3: GET /:id on a stored invoice answers 200 with the invoice and
    its payment history: exactly the payments of the ledger booked on it,
    latest payment_date first.  On a balanced ledger the history adds up to
    the invoice's amount_paid.  The store is left as it was. *)
Theorem getOne_history (lost : nat -> bool) (id : string) (db : DB)
    (inv : Invoice) :
  lost 0%nat = false -> lost 1%nat = false ->
  invoices db !! id = Some inv ->
  exists ps,
    InvoiceRoutes.getOne lost id db = (R200 (inv, ps), db)
    /\ Sorted InvoiceRoutes.later_first ps
    /\ ps ≡ₚ List.filter (fun p => String.eqb (pay_invoice p) id)
                         (payments db)
    /\ (Accounts.ledger_ok db -> Accounts.total ps = amount_paid inv).
Proof.
  intros H0 H1 Hinv.
  unfold InvoiceRoutes.getOne, handle, mbind, M_bind, mret, M_ret, query.
  rewrite H0. unfold InvoiceRoutes.select_invoice. rewrite Hinv, H1.
  unfold InvoiceRoutes.select_payments.
  eexists. split; [reflexivity|]. split; [|split].
  - apply (Sorted_merge_sort InvoiceRoutes.later_first).
  - apply merge_sort_Permutation.
  - intros [Hbal _].
    rewrite (total_Permutation _ _ (merge_sort_Permutation _ _)).
    rewrite total_filter. symmetry. exact (Hbal id inv Hinv).
Qed.

Lemma getOne_history_witness :
  Samples.online 0%nat = false /\ Samples.online 1%nat = false
  /\ invoices Samples.db_paid !! "i1"
     = Some (Invoices.apply_payment 60000 (mkCivil 2024 1 20)
               Samples.invoice_partial)
  /\ exists ps,
      InvoiceRoutes.getOne Samples.online "i1" Samples.db_paid
      = (R200 (Invoices.apply_payment 60000 (mkCivil 2024 1 20)
                 Samples.invoice_partial, ps), Samples.db_paid)
      /\ Sorted InvoiceRoutes.later_first ps
      /\ ps ≡ₚ List.filter (fun p => String.eqb (pay_invoice p) "i1")
                           (payments Samples.db_paid)
      /\ (Accounts.ledger_ok Samples.db_paid ->
          Accounts.total ps
          = amount_paid (Invoices.apply_payment 60000 (mkCivil 2024 1 20)
                           Samples.invoice_partial)).
Proof.
  assert (H0 : Samples.online 0%nat = false) by reflexivity.
  assert (H1 : Samples.online 1%nat = false) by reflexivity.
  assert (H2 : invoices Samples.db_paid !! "i1"
               = Some (Invoices.apply_payment 60000 (mkCivil 2024 1 20)
                         Samples.invoice_partial))
    by (vm_compute; reflexivity).
  split; [exact H0|]. split; [exact H1|]. split; [exact H2|].
  exact (getOne_history Samples.online "i1" Samples.db_paid
           (Invoices.apply_payment 60000 (mkCivil 2024 1 20)
              Samples.invoice_partial) H0 H1 H2).
Defined.

Lemma filter_filter_other (id id' : string) (l : list Payment) :
  id' <> id ->
  List.filter (fun p => String.eqb (pay_invoice p) id')
    (List.filter (fun p => negb (String.eqb (pay_invoice p) id)) l)
  = List.filter (fun p => String.eqb (pay_invoice p) id') l.
Proof.
  intros Hne. induction l as [|p l IH]; [reflexivity|].
  cbn [List.filter].
  destruct (String.eqb_spec (pay_invoice p) id) as [E|E]; cbn [negb].
  - rewrite IH. destruct (String.eqb_spec (pay_invoice p) id'); [congruence|].
    reflexivity.
  - cbn [List.filter]. rewrite IH. reflexivity.
Qed.





(** An id that is read as a UUID and one that is not. *)
Example unknown_invoice_answers :
  is_uuid Cases.unknown_id = true /\ is_uuid "i9" = false
  /\ (InvoiceRoutes.getOne Samples.online Cases.unknown_id
        Samples.db_invoice).1 = R404
  /\ (InvoiceRoutes.getOne Samples.online "i9" Samples.db_invoice).1 = R500
  /\ (InvoiceRoutes.remove Samples.online "i9" Samples.db_invoice).1 = R500
  /\ (Invoices.update Samples.online "i9" (Samples.only_amount 200000)
        Samples.db_invoice).1 = R500.
Proof. vm_compute. repeat split; reflexivity. Qed.

(** ** Creating and updating invoices *)

(** What a 201 of POST / has done. *)
Lemma create_accepted (lost : nat -> bool) (id : string)
    (body : Invoices.CreateBody) (db db' : DB) (row : Invoice) :
  Invoices.create lost id body db = (R201 row, db') ->
  exists a,
    to_param (Invoices.c_amount body) = Some a
    /\ truthy_num (Invoices.c_amount body) = true
    /\ invoices db !! id = None
    /\ db' = with_invoices db (<[id := row]> (invoices db))
    /\ amount row = to_column a /\ amount_paid row = 0
    /\ payment_status row = Pending /\ paid_date row = None
    /\ inv_project row = Invoices.c_projectId body
    /\ retainage_percent row
       = match Invoices.c_retainagePercent body with
         | Undefined => Some 0
         | Null => None
         | Num p | NumText p => Some (to_column p)
         end.
Proof.
  unfold Invoices.create, handle, mbind, M_bind, mret, M_ret, query.
  destruct (_ || _) eqn:Hv; [intros H; discriminate H|].
  repeat (apply orb_false_elim in Hv as [Hv ?]).
  match goal with
  | Ht : negb (truthy_num _) = false |- _ =>
      apply negb_false_iff in Ht; rename Ht into Htruthy
  end.
  destruct (lost 0%nat); [intros H'; discriminate H'|].
  unfold Invoices.insert_invoice.
  destruct (Invoices.c_userId body); [|intros H'; discriminate H'].
  destruct (Invoices.c_invoiceNumber body); [|intros H'; discriminate H'].
  destruct (Invoices.c_invoiceDate body ≫= sql_date);
    [|intros H'; discriminate H'].
  destruct (Invoices.c_dueDate body ≫= sql_date);
    [|intros H'; discriminate H'].
  destruct (to_param (Invoices.c_amount body)) as [a|];
    [|intros H'; discriminate H'].
  match goal with
  | |- context [if ?c then _ else _] => destruct c eqn:Hc
  end; [|intros H'; discriminate H'].
  split_andb.
  match goal with
  | Hf : bool_decide (_ = None) = true |- _ =>
      apply bool_decide_eq_true in Hf; rename Hf into Hfresh
  end.
  intros H'. injection H' as <- <-. exists a.
  cbn [amount amount_paid payment_status paid_date retainage_percent
       inv_project].
  repeat (split; [first [reflexivity | assumption]|]).
  destruct (Invoices.c_retainagePercent body); reflexivity.
Qed.

Lemma no_payments_of_fresh (id : string) (db : DB) :
  Accounts.no_orphans db -> invoices db !! id = None ->
  List.filter (fun p => String.eqb (pay_invoice p) id) (payments db) = [].
Proof.
  unfold Accounts.no_orphans. intros Horph Hnone.
  induction Horph as [|p l [i Hi] _ IH]; [reflexivity|].
  cbn [List.filter].
  destruct (String.eqb_spec (pay_invoice p) id) as [E|E]; [|exact IH].
  rewrite E in Hi. congruence.
Qed.

(** X6: an invoice created with 201 starts unpaid - amount_paid 0,
    status pending, no paid_date, the amount of the request rounded to
    the cent - and GET /:id finds it, with these columns as they were
    returned and an empty payment history; the ledger and the other
    invoices are as before. *)
Theorem create_then_getOne (lost lost' : nat -> bool) (id : string)
    (body : Invoices.CreateBody) (db db' : DB) (row : Invoice) :
  Invoices.create lost id body db = (R201 row, db') ->
  Accounts.no_orphans db ->
  lost' 0%nat = false -> lost' 1%nat = false ->
  (exists found,
      InvoiceRoutes.getOne lost' id db' = (R200 (found, []), db')
      /\ amount found = amount row
      /\ amount_paid found = 0 /\ payment_status found = Pending
      /\ paid_date found = None)
  /\ amount_paid row = 0 /\ payment_status row = Pending
  /\ paid_date row = None
  /\ (exists a, to_param (Invoices.c_amount body) = Some a
                /\ amount row = to_column a)
  /\ payments db' = payments db
  /\ (forall id', id' <> id -> invoices db' !! id' = invoices db !! id').
Proof.
  intros Hrun Horph H0 H1.
  destruct (create_accepted _ _ _ _ _ _ Hrun)
    as (a & Ha & _ & Hfresh & -> & Hamt & Hp & Hs & Hd & _ & _).
  split; [|split; [exact Hp|split; [exact Hs|split; [exact Hd|split;
           [|split]]]]].
  - exists row. split; [|auto].
    unfold InvoiceRoutes.getOne, handle, mbind, M_bind, mret, M_ret, query.
    rewrite H0. unfold InvoiceRoutes.select_invoice.
    cbn [with_invoices invoices]. rewrite lookup_insert_eq, H1.
    unfold InvoiceRoutes.select_payments. cbn [with_invoices payments].
    rewrite (no_payments_of_fresh id db Horph Hfresh). reflexivity.
  - exists a. split; assumption.
  - reflexivity.
  - intros id' Hne. cbn [with_invoices invoices].
    apply lookup_insert_ne. congruence.
Qed.

Lemma create_then_getOne_witness :
  Invoices.create Samples.online "i1" Samples.invoice_1000 Samples.db0
  = (R201 Samples.invoice_open, Samples.db_invoice)
  /\ Accounts.no_orphans Samples.db0
  /\ Samples.online 0%nat = false /\ Samples.online 1%nat = false
  /\ (exists found,
        InvoiceRoutes.getOne Samples.online "i1" Samples.db_invoice
        = (R200 (found, []), Samples.db_invoice)
        /\ amount found = amount Samples.invoice_open
        /\ amount_paid found = 0 /\ payment_status found = Pending
        /\ paid_date found = None)
  /\ amount_paid Samples.invoice_open = 0
  /\ payment_status Samples.invoice_open = Pending
  /\ paid_date Samples.invoice_open = None
  /\ (exists a, to_param (Invoices.c_amount Samples.invoice_1000) = Some a
                /\ amount Samples.invoice_open = to_column a)
  /\ payments Samples.db_invoice = payments Samples.db0
  /\ (forall id', id' <> "i1" ->
        invoices Samples.db_invoice !! id' = invoices Samples.db0 !! id').
Proof.
  assert (H1 : Invoices.create Samples.online "i1" Samples.invoice_1000
                 Samples.db0
               = (R201 Samples.invoice_open, Samples.db_invoice))
    by (vm_compute; reflexivity).
  assert (H2 : Accounts.no_orphans Samples.db0) by constructor.
  assert (H3 : Samples.online 0%nat = false) by reflexivity.
  assert (H4 : Samples.online 1%nat = false) by reflexivity.
  split; [exact H1|]. split; [exact H2|]. split; [exact H3|].
  split; [exact H4|].
  exact (create_then_getOne Samples.online Samples.online "i1"
           Samples.invoice_1000 Samples.db0 Samples.db_invoice
           Samples.invoice_open H1 H2 H3 H4).
Defined.

(** X8: POST / answers 400 exactly when userId, invoiceNumber,
    invoiceDate, dueDate or amount is missing, empty or zero, and then
    leaves the store as it was. *)
Theorem create_rejects_iff (lost : nat -> bool) (id : string)
    (body : Invoices.CreateBody) (db : DB) :
  ((Invoices.create lost id body db).1 = R400
   <-> truthy_text (Invoices.c_userId body)
       && truthy_text (Invoices.c_invoiceNumber body)
       && truthy_date (Invoices.c_invoiceDate body)
       && truthy_date (Invoices.c_dueDate body)
       && truthy_num (Invoices.c_amount body) = false)
  /\ ((Invoices.create lost id body db).1 = R400 ->
      (Invoices.create lost id body db).2 = db).
Proof.
  unfold Invoices.create, handle, mbind, M_bind, mret, M_ret, query.
  destruct (truthy_text (Invoices.c_userId body)),
           (truthy_text (Invoices.c_invoiceNumber body)),
           (truthy_date (Invoices.c_invoiceDate body)),
           (truthy_date (Invoices.c_dueDate body)),
           (truthy_num (Invoices.c_amount body));
    cbn [negb orb andb fst snd]; try (split; [split|]; reflexivity).
  destruct (lost 0%nat); cbn [fst snd];
    [split; [split|]; intros H; discriminate H|].
  destruct (Invoices.insert_invoice _ _ _ _ _ _ _ _ _ _ _ db) as [[r d]|];
    cbn [fst snd]; split; try split; intros H; discriminate H.
Qed.

(** What a 200 of PUT /:id has done. *)
Lemma update_accepted (lost : nat -> bool) (id : string)
    (body : Invoices.UpdateBody) (db db' : DB) (row : Invoice) :
  Invoices.update lost id body db = (R200 row, db') ->
  exists old idate ddate pdate pstatus,
    invoices db !! id = Some old
    /\ convert_opt sql_date (Invoices.u_invoiceDate body) = Some idate
    /\ convert_opt sql_date (Invoices.u_dueDate body) = Some ddate
    /\ convert_opt sql_date (Invoices.u_paidDate body) = Some pdate
    /\ convert_opt payment_status_of_text (Invoices.u_paymentStatus body)
       = Some pstatus
    /\ row
       = {| inv_user := inv_user old; inv_project := inv_project old;
            invoice_number :=
              coalesce (Invoices.u_invoiceNumber body) (invoice_number old);
            invoice_date := coalesce idate (invoice_date old);
            due_date := coalesce ddate (due_date old);
            amount :=
              coalesce (to_column <$> to_param (Invoices.u_amount body))
                       (amount old);
            retainage_percent :=
              coalesce_null
                (to_column <$> to_param (Invoices.u_retainagePercent body))
                (retainage_percent old);
            retainage_amount :=
              coalesce_null
                (to_column
                 <$> (number_param
                      <$> (if defined (Invoices.u_amount body)
                              && defined (Invoices.u_retainagePercent body)
                           then Invoices.retainage (Invoices.u_amount body)
                                  (Invoices.u_retainagePercent body)
                           else None)))
                (retainage_amount old);
            amount_paid := amount_paid old;
            payment_status := coalesce pstatus (payment_status old);
            paid_date := coalesce_null pdate (paid_date old);
            inv_description :=
              coalesce_null (Invoices.u_description body)
                            (inv_description old);
            inv_notes :=
              coalesce_null (Invoices.u_notes body) (inv_notes old) |}
    /\ Accounts.storable row = true
    /\ db' = with_invoices db (<[id := row]> (invoices db)).
Proof.
  unfold Invoices.update, handle, mbind, M_bind, mret, M_ret, query.
  destruct (lost 0%nat); [intros H; discriminate H|].
  unfold Invoices.update_invoice.
  destruct (convert_opt sql_date (Invoices.u_invoiceDate body)) as [idate|];
    [|intros H; discriminate H].
  destruct (convert_opt sql_date (Invoices.u_dueDate body)) as [ddate|];
    [|intros H; discriminate H].
  destruct (convert_opt sql_date (Invoices.u_paidDate body)) as [pdate|];
    [|intros H; discriminate H].
  destruct (invoices db !! id) as [old|];
    [|destruct (is_uuid id); intros H; discriminate H].
  destruct (convert_opt payment_status_of_text
              (Invoices.u_paymentStatus body)) as [pstatus|];
    [|intros H; discriminate H].
  match goal with
  | |- context [if ?c then _ else _] => destruct c eqn:Hfit
  end; [|intros H; discriminate H].
  intros H. injection H as <- <-.
  exists old, idate, ddate, pdate, pstatus.
  repeat (split; [reflexivity|]). split; [exact Hfit|reflexivity].
Qed.

(** X9: PUT /:id never changes an invoice's amount_paid, owner or
    project, never clears a nullable column that holds a value, and touches
    no other invoice, no payment, project or deadline. *)
Theorem update_never_touches (lost : nat -> bool) (id : string)
    (body : Invoices.UpdateBody) (db db' : DB) (row : Invoice) :
  Invoices.update lost id body db = (R200 row, db') ->
  exists old,
    invoices db !! id = Some old
    /\ amount_paid row = amount_paid old
    /\ inv_user row = inv_user old /\ inv_project row = inv_project old
    /\ (is_Some (paid_date old) -> is_Some (paid_date row))
    /\ (is_Some (retainage_percent old) -> is_Some (retainage_percent row))
    /\ (is_Some (retainage_amount old) -> is_Some (retainage_amount row))
    /\ (is_Some (inv_description old) -> is_Some (inv_description row))
    /\ (is_Some (inv_notes old) -> is_Some (inv_notes row))
    /\ invoices db' = <[id := row]> (invoices db)
    /\ payments db' = payments db /\ projects db' = projects db
    /\ deadlines db' = deadlines db.
Proof.
  intros Hrun.
  destruct (update_accepted _ _ _ _ _ _ Hrun)
    as (old & idate & ddate & pdate & pstatus & Hold & _ & _ & _ & _
        & -> & _ & ->).
  exists old. cbn.
  split; [exact Hold|]. do 3 (split; [reflexivity|]).
  repeat split;
    try (intros [v Hv]; rewrite Hv;
         match goal with
         | |- is_Some (coalesce_null ?p _) => destruct p; cbn; eauto
         end).
Qed.

Lemma update_never_touches_witness :
  Samples.amount_raised
  = (R200 (mkInvoice "u1" (Some "p1") "INV-1" (mkCivil 2024 1 2)
             (mkCivil 2024 2 1) 200000 (Some 1000) (Some 10000) 0 Pending
             None None None), Samples.amount_raised.2)
  /\ exists old,
      invoices Samples.db_invoice !! "i1" = Some old
      /\ 0 = amount_paid old
      /\ "u1" = inv_user old /\ Some "p1" = inv_project old
      /\ (is_Some (paid_date old) -> is_Some (@None Civil))
      /\ (is_Some (retainage_percent old) -> is_Some (Some 1000))
      /\ (is_Some (retainage_amount old) -> is_Some (Some 10000))
      /\ (is_Some (inv_description old) -> is_Some (@None string))
      /\ (is_Some (inv_notes old) -> is_Some (@None string))
      /\ invoices Samples.amount_raised.2
         = <["i1" := mkInvoice "u1" (Some "p1") "INV-1" (mkCivil 2024 1 2)
                       (mkCivil 2024 2 1) 200000 (Some 1000) (Some 10000) 0
                       Pending None None None]>
             (invoices Samples.db_invoice)
      /\ payments Samples.amount_raised.2 = payments Samples.db_invoice
      /\ projects Samples.amount_raised.2 = projects Samples.db_invoice
      /\ deadlines Samples.amount_raised.2 = deadlines Samples.db_invoice.
Proof.
  assert (H1 : Samples.amount_raised
               = (R200 (mkInvoice "u1" (Some "p1") "INV-1" (mkCivil 2024 1 2)
                          (mkCivil 2024 2 1) 200000 (Some 1000) (Some 10000)
                          0 Pending None None None),
                  Samples.amount_raised.2))
    by (vm_compute; reflexivity).
  split; [exact H1|].
  exact (update_never_touches Samples.online "i1"
           (Samples.only_amount 200000) Samples.db_invoice
           Samples.amount_raised.2
           (mkInvoice "u1" (Some "p1") "INV-1" (mkCivil 2024 1 2)
              (mkCivil 2024 2 1) 200000 (Some 1000) (Some 10000) 0 Pending
              None None None) H1).
Defined.

(** X11: a null amount counts as supplied: PUT /:id with amount null
    and a retainagePercent (a number or null) keeps the stored amount but
    sets retainage_amount to 0, whatever the percentage. *)
Theorem update_null_amount_zeroes_retainage (lost : nat -> bool)
    (id : string) (body : Invoices.UpdateBody) (db db' : DB)
    (old row : Invoice) :
  Invoices.u_amount body = Null ->
  defined (Invoices.u_retainagePercent body) = true ->
  invoices db !! id = Some old ->
  Invoices.update lost id body db = (R200 row, db') ->
  amount row = amount old /\ retainage_amount row = Some 0
  /\ retainage_percent row
     = coalesce_null
         (to_column <$> to_param (Invoices.u_retainagePercent body))
         (retainage_percent old).
Proof.
  intros Ha Hp Hold Hrun.
  destruct (update_accepted _ _ _ _ _ _ Hrun)
    as (old' & idate & ddate & pdate & pstatus & Hold' & _ & _ & _ & _
        & -> & _ & _).
  rewrite Hold in Hold'. injection Hold' as <-.
  cbn [amount retainage_amount retainage_percent].
  rewrite Ha, Hp. cbn [defined andb to_param coalesce fmap option_fmap
                       option_map].
  split; [reflexivity|]. split; [|reflexivity].
  destruct (Invoices.u_retainagePercent body) as [| |p|p];
    [discriminate Hp| | |]; reflexivity.
Qed.

Lemma update_null_amount_zeroes_retainage_witness :
  Invoices.u_amount Cases.null_amount = Null
  /\ defined (Invoices.u_retainagePercent Cases.null_amount) = true
  /\ invoices Samples.db_invoice !! "i1" = Some Samples.invoice_open
  /\ Invoices.update Samples.online "i1" Cases.null_amount
       Samples.db_invoice
     = (R200 (mkInvoice "u1" (Some "p1") "INV-1" (mkCivil 2024 1 2)
                (mkCivil 2024 2 1) 100000 (Some 500) (Some 0) 0 Pending
                None None None),
        (Invoices.update Samples.online "i1" Cases.null_amount
           Samples.db_invoice).2)
  /\ 100000 = amount Samples.invoice_open
  /\ Some 0 = Some 0
  /\ Some 500
     = coalesce_null
         (to_column
          <$> to_param (Invoices.u_retainagePercent Cases.null_amount))
         (retainage_percent Samples.invoice_open).
Proof.
  assert (H1 : Invoices.u_amount Cases.null_amount = Null) by reflexivity.
  assert (H2 : defined (Invoices.u_retainagePercent Cases.null_amount)
               = true) by reflexivity.
  assert (H3 : invoices Samples.db_invoice !! "i1"
               = Some Samples.invoice_open) by (vm_compute; reflexivity).
  assert (H4 : Invoices.update Samples.online "i1" Cases.null_amount
                 Samples.db_invoice
               = (R200 (mkInvoice "u1" (Some "p1") "INV-1"
                          (mkCivil 2024 1 2) (mkCivil 2024 2 1) 100000
                          (Some 500) (Some 0) 0 Pending None None None),
                  (Invoices.update Samples.online "i1" Cases.null_amount
                     Samples.db_invoice).2))
    by (vm_compute; reflexivity).
  split; [exact H1|]. split; [exact H2|]. split; [exact H3|].
  split; [exact H4|].
  exact (update_null_amount_zeroes_retainage Samples.online "i1"
           Cases.null_amount Samples.db_invoice
           (Invoices.update Samples.online "i1" Cases.null_amount
              Samples.db_invoice).2
           Samples.invoice_open
           (mkInvoice "u1" (Some "p1") "INV-1" (mkCivil 2024 1 2)
              (mkCivil 2024 2 1) 100000 (Some 500) (Some 0) 0 Pending
              None None None) H1 H2 H3 H4).
Defined.

(** ** Payments *)

(** X12: two accepted payments of whole cents on an invoice add up:
    amount_paid grows by both amounts, the status is the one a single
    payment of their sum would have given, and the ledger holds the two
    payments after those it had. *)
Theorem payments_add_up (lost1 lost2 : nat -> bool)
    (paymentId1 paymentId2 invoiceId : string)
    (body1 body2 : Invoices.PaymentBody) (db db1 db2 : DB)
    (p1 p2 : Payment) (inv : Invoice) (x1 x2 : Q) (n1 n2 : Z) :
  Invoices.recordPayment lost1 paymentId1 invoiceId body1 db
  = (R201 p1, db1) ->
  Invoices.recordPayment lost2 paymentId2 invoiceId body2 db1
  = (R201 p2, db2) ->
  invoices db !! invoiceId = Some inv ->
  to_param (Invoices.p_amount body1) = Some x1 -> (x1 == inject_Z n1)%Q ->
  to_param (Invoices.p_amount body2) = Some x2 -> (x2 == inject_Z n2)%Q ->
  exists inv2,
    invoices db2 !! invoiceId = Some inv2
    /\ pay_amount p1 = n1 /\ pay_amount p2 = n2
    /\ amount_paid inv2 = amount_paid inv + pay_amount p1 + pay_amount p2
    /\ payment_status inv2
       = payment_status
           (Invoices.apply_payment
              (inject_Z (pay_amount p1 + pay_amount p2))
              (payment_date p2) inv)
    /\ amount inv2 = amount inv
    /\ payments db2 = payments db ++ [p1; p2].
Proof.
  intros Hrun1 Hrun2 Hinv Hx1 Hn1 Hx2 Hn2.
  destruct (recordPayment_accepted _ _ _ _ _ _ _ Hrun1)
    as (x & d1 & i0 & Hx & _ & _ & Hi0 & Hp1 & _ & _ & Hpay1 & Hdb1).
  rewrite Hinv in Hi0. injection Hi0 as <-.
  rewrite Hx1 in Hx. injection Hx as <-.
  destruct (recordPayment_accepted _ _ _ _ _ _ _ Hrun2)
    as (y & d2 & i1 & Hy & _ & _ & Hi1 & Hp2 & Hd2 & _ & Hpay2 & Hdb2).
  rewrite Hdb1, lookup_insert_eq in Hi1. injection Hi1 as <-.
  rewrite Hx2 in Hy. injection Hy as <-.
  destruct (new_total_whole x1 n1 inv Hn1) as (Hs1 & _ & _ & Hc1).
  destruct (new_total_whole x2 n2 (Invoices.apply_payment x1 d1 inv) Hn2)
    as (Hs2 & Hle2 & Hz2 & Hc2).
  destruct (new_total_whole (inject_Z (n1 + n2)) (n1 + n2) inv
              (Qeq_refl _)) as (_ & Hle & Hz & _).
  cbn [Invoices.apply_payment amount_paid amount] in Hs2, Hle2, Hz2.
  rewrite Hs1 in Hs2, Hle2, Hz2.
  eexists. rewrite Hdb2, lookup_insert_eq. split; [reflexivity|].
  rewrite Hp1, Hp2, Hc1, Hc2, Hpay2, Hpay1, <- app_assoc, Hd2.
  split; [reflexivity|]. split; [reflexivity|].
  cbn [Invoices.apply_payment amount_paid payment_status amount app].
  rewrite Hs2, Hle2, Hz2, Hle, Hz, !Z.add_assoc.
  repeat split; reflexivity.
Qed.

Lemma payments_add_up_witness :
  Samples.first_payment = (R201 Samples.payment_400, Samples.db_partial)
  /\ Samples.settled = (R201 Samples.payment_600, Samples.db_paid)
  /\ invoices Samples.db_invoice !! "i1" = Some Samples.invoice_open
  /\ to_param (Invoices.p_amount (Samples.pay 40000 2024 1 15))
     = Some (inject_Z 40000)
  /\ (inject_Z 40000 == inject_Z 40000)%Q
  /\ to_param (Invoices.p_amount (Samples.pay 60000 2024 1 20))
     = Some (inject_Z 60000)
  /\ (inject_Z 60000 == inject_Z 60000)%Q
  /\ exists inv2,
      invoices Samples.db_paid !! "i1" = Some inv2
      /\ 40000 = 40000 /\ 60000 = 60000
      /\ amount_paid inv2 = 0 + 40000 + 60000
      /\ payment_status inv2
         = payment_status
             (Invoices.apply_payment (inject_Z (40000 + 60000))
                (mkCivil 2024 1 20) Samples.invoice_open)
      /\ amount inv2 = 100000
      /\ payments Samples.db_paid
         = payments Samples.db_invoice
           ++ [Samples.payment_400; Samples.payment_600].
Proof.
  assert (H1 : Samples.first_payment
               = (R201 Samples.payment_400, Samples.db_partial))
    by (vm_compute; reflexivity).
  assert (H2 : Samples.settled
               = (R201 Samples.payment_600, Samples.db_paid))
    by (vm_compute; reflexivity).
  assert (H3 : invoices Samples.db_invoice !! "i1"
               = Some Samples.invoice_open) by (vm_compute; reflexivity).
  assert (H4 : to_param (Invoices.p_amount (Samples.pay 40000 2024 1 15))
               = Some (inject_Z 40000)) by reflexivity.
  assert (H5 : (inject_Z 40000 == inject_Z 40000)%Q) by reflexivity.
  assert (H6 : to_param (Invoices.p_amount (Samples.pay 60000 2024 1 20))
               = Some (inject_Z 60000)) by reflexivity.
  assert (H7 : (inject_Z 60000 == inject_Z 60000)%Q) by reflexivity.
  split; [exact H1|]. split; [exact H2|]. split; [exact H3|].
  split; [exact H4|]. split; [exact H5|]. split; [exact H6|].
  split; [exact H7|].
  exact (payments_add_up Samples.online Samples.online "pay1" "pay2" "i1"
           (Samples.pay 40000 2024 1 15) (Samples.pay 60000 2024 1 20)
           Samples.db_invoice Samples.db_partial Samples.db_paid
           Samples.payment_400 Samples.payment_600 Samples.invoice_open
           (inject_Z 40000) (inject_Z 60000) 40000 60000
           H1 H2 H3 H4 H5 H6 H7).
Defined.

(** With a fraction of a cent the amounts no longer add up: after 33.34
    on an invoice of 100.00, a payment of 66.656 is recorded as 66.66 and
    amount_paid is 100.00, yet the invoice is partial, where one payment
    of 100.00 makes it paid. *)
Example fractions_do_not_add_up :
  (exists p, Cases.fraction_paid.1 = R201 p /\ pay_amount p = 6666)
  /\ (exists inv2,
        invoices Cases.fraction_paid.2 !! "i3" = Some inv2
        /\ amount_paid inv2 = 3334 + 6666
        /\ payment_status inv2 = Partial)
  /\ (exists inv,
        invoices Cases.db_third !! "i3" = Some inv
        /\ amount_paid inv = 3334
        /\ payment_status
             (Invoices.apply_payment (inject_Z 6666) (mkCivil 2024 1 20) inv)
           = Paid).
Proof.
  split; [eexists; split; vm_compute; reflexivity|].
  split; eexists; (split; [vm_compute; reflexivity|]);
    split; vm_compute; reflexivity.
Qed.

(** ** The dashboard totals *)

Lemma sum_balances_filter_Permutation (f : string * Invoice -> bool)
    (l1 l2 : list (string * Invoice)) :
  l1 ≡ₚ l2 ->
  InvoiceRoutes.sum_balances (List.filter f l1)
  = InvoiceRoutes.sum_balances (List.filter f l2).
Proof.
  unfold InvoiceRoutes.sum_balances.
  induction 1 as [|r l1 l2 _ IH|r q l|l1 l2 l3 _ IH1 _ IH2].
  - reflexivity.
  - cbn [List.filter]. destruct (f r); cbn [foldr]; rewrite IH; reflexivity.
  - cbn [List.filter]. destruct (f r), (f q); cbn [foldr]; lia.
  - congruence.
Qed.

(** Replacing a row changes a filtered total by the row's share. *)
Lemma sum_balances_replace (f : string * Invoice -> bool) (id : string)
    (old new : Invoice) (m : gmap string Invoice) :
  m !! id = Some old ->
  InvoiceRoutes.sum_balances
    (List.filter f (map_to_list (<[id := new]> m)))
  + (if f (id, old) then amount old - amount_paid old else 0)
  = InvoiceRoutes.sum_balances (List.filter f (map_to_list m))
    + (if f (id, new) then amount new - amount_paid new else 0).
Proof.
  intros Hold.
  rewrite <- (insert_delete_eq m id new).
  rewrite (sum_balances_filter_Permutation f _ _
             (map_to_list_insert (delete id m) id new
                (lookup_delete_eq m id))).
  rewrite <- (sum_balances_filter_Permutation f _ _
                (map_to_list_delete m id old Hold)).
  cbn [List.filter]. unfold InvoiceRoutes.sum_balances.
  destruct (f (id, new)), (f (id, old)); cbn [foldr snd]; lia.
Qed.

(** X13: an accepted payment on an invoice that is not marked paid
    lowers the total outstanding of the invoice's owner by the growth of
    the invoice's amount_paid when the invoice stays open, and by the
    invoice's whole balance when the payment settles it; the total
    overdue falls by the same amount when the invoice is past due and not
    at all otherwise; the totals of the other users do not move.  For an
    amount in whole cents the growth of amount_paid is the recorded
    payment, and the payment settles the invoice exactly when amount_paid
    plus the payment reaches the amount. *)
Theorem payment_lowers_outstanding (lost : nat -> bool)
    (paymentId invoiceId : string) (body : Invoices.PaymentBody)
    (db db' : DB) (p : Payment) (inv : Invoice) (today : Civil) :
  Invoices.recordPayment lost paymentId invoiceId body db = (R201 p, db') ->
  invoices db !! invoiceId = Some inv ->
  payment_status inv <> Paid ->
  exists (x : Q) (inv' : Invoice),
    to_param (Invoices.p_amount body) = Some x
    /\ invoices db' !! invoiceId = Some inv'
    /\ InvoiceRoutes.total_outstanding (inv_user inv) db'
       = InvoiceRoutes.total_outstanding (inv_user inv) db
         - (if bool_decide (payment_status inv' = Paid)
            then amount inv - amount_paid inv
            else amount_paid inv' - amount_paid inv)
    /\ InvoiceRoutes.total_overdue today (inv_user inv) db'
       = InvoiceRoutes.total_overdue today (inv_user inv) db
         - (if days_from_civil (year (due_date inv)) (month (due_date inv))
                 (day (due_date inv))
               <? days_from_civil (year today) (month today) (day today)
            then if bool_decide (payment_status inv' = Paid)
                 then amount inv - amount_paid inv
                 else amount_paid inv' - amount_paid inv
            else 0)
    /\ (forall u, u <> inv_user inv ->
          InvoiceRoutes.total_outstanding u db'
          = InvoiceRoutes.total_outstanding u db
          /\ InvoiceRoutes.total_overdue today u db'
             = InvoiceRoutes.total_overdue today u db)
    /\ (forall n : Z,
          (x == inject_Z n)%Q ->
          amount_paid inv' - amount_paid inv = pay_amount p
          /\ (payment_status inv' = Paid
              <-> amount inv <= amount_paid inv + pay_amount p)).
Proof.
  intros Hrun Hinv Hst.
  destruct (recordPayment_accepted _ _ _ _ _ _ _ Hrun)
    as (x & date & i0 & Hx & _ & _ & Hi0 & Hpx & _ & _ & _ & Hdb').
  rewrite Hinv in Hi0. injection Hi0 as <-.
  exists x, (Invoices.apply_payment x date inv).
  split; [exact Hx|].
  split; [rewrite Hdb', lookup_insert_eq; reflexivity|].
  unfold InvoiceRoutes.total_outstanding, InvoiceRoutes.total_overdue.
  rewrite Hdb'.
  split; [|split; [|split; [|]]].
  - match goal with
    | |- InvoiceRoutes.sum_balances (List.filter ?f _) = _ =>
        pose proof (sum_balances_replace f invoiceId inv
                      (Invoices.apply_payment x date inv) (invoices db)
                      Hinv) as Hsum
    end.
    cbn [snd] in Hsum.
    replace (inv_user (Invoices.apply_payment x date inv))
      with (inv_user inv) in Hsum by reflexivity.
    replace (amount (Invoices.apply_payment x date inv))
      with (amount inv) in Hsum by reflexivity.
    rewrite String.eqb_refl in Hsum.
    rewrite (bool_decide_eq_false_2 _ Hst) in Hsum.
    cbn [andb negb] in Hsum.
    destruct (bool_decide
                (payment_status (Invoices.apply_payment x date inv) = Paid));
      cbn [negb] in Hsum; lia.
  - match goal with
    | |- InvoiceRoutes.sum_balances (List.filter ?f _) = _ =>
        pose proof (sum_balances_replace f invoiceId inv
                      (Invoices.apply_payment x date inv) (invoices db)
                      Hinv) as Hsum
    end.
    cbn [snd] in Hsum.
    replace (inv_user (Invoices.apply_payment x date inv))
      with (inv_user inv) in Hsum by reflexivity.
    replace (amount (Invoices.apply_payment x date inv))
      with (amount inv) in Hsum by reflexivity.
    replace (due_date (Invoices.apply_payment x date inv))
      with (due_date inv) in Hsum by reflexivity.
    rewrite String.eqb_refl in Hsum.
    rewrite (bool_decide_eq_false_2 _ Hst) in Hsum.
    cbn [andb negb] in Hsum.
    destruct (_ <? _);
      destruct (bool_decide
                  (payment_status (Invoices.apply_payment x date inv)
                   = Paid));
      cbn [negb andb] in Hsum; lia.
  - intros u Hu. split.
    + match goal with
      | |- InvoiceRoutes.sum_balances (List.filter ?f _) = _ =>
          pose proof (sum_balances_replace f invoiceId inv
                        (Invoices.apply_payment x date inv) (invoices db)
                        Hinv) as Hsum
      end.
      cbn [snd Invoices.apply_payment inv_user] in Hsum.
      replace (String.eqb (inv_user inv) u) with false in Hsum
        by (symmetry; apply String.eqb_neq; congruence).
      cbn [andb] in Hsum. lia.
    + match goal with
      | |- InvoiceRoutes.sum_balances (List.filter ?f _) = _ =>
          pose proof (sum_balances_replace f invoiceId inv
                        (Invoices.apply_payment x date inv) (invoices db)
                        Hinv) as Hsum
      end.
      cbn [snd Invoices.apply_payment inv_user] in Hsum.
      replace (String.eqb (inv_user inv) u) with false in Hsum
        by (symmetry; apply String.eqb_neq; congruence).
      cbn [andb] in Hsum. lia.
  - intros n Hn.
    destruct (new_total_whole x n inv Hn) as (Hs & Hle & _ & Hc).
    cbn [Invoices.apply_payment amount_paid payment_status].
    rewrite Hs, Hle, Hpx, Hc. split; [lia|].
    destruct (Z.leb_spec (amount inv) (amount_paid inv + n)).
    + split; [intros _; assumption|reflexivity].
    + split; [|lia].
      destruct (negb _); intros H'; discriminate H'.
Qed.

Lemma payment_lowers_outstanding_witness :
  Samples.first_payment = (R201 Samples.payment_400, Samples.db_partial)
  /\ invoices Samples.db_invoice !! "i1" = Some Samples.invoice_open
  /\ payment_status Samples.invoice_open <> Paid
  /\ exists (x : Q) (inv' : Invoice),
      to_param (Invoices.p_amount (Samples.pay 40000 2024 1 15)) = Some x
      /\ invoices Samples.db_partial !! "i1" = Some inv'
      /\ InvoiceRoutes.total_outstanding "u1" Samples.db_partial
         = InvoiceRoutes.total_outstanding "u1" Samples.db_invoice
           - (if bool_decide (payment_status inv' = Paid)
              then 100000 - 0
              else amount_paid inv' - 0)
      /\ InvoiceRoutes.total_overdue (mkCivil 2024 5 27) "u1"
           Samples.db_partial
         = InvoiceRoutes.total_overdue (mkCivil 2024 5 27) "u1"
             Samples.db_invoice
           - (if days_from_civil 2024 2 1 <? days_from_civil 2024 5 27
              then if bool_decide (payment_status inv' = Paid)
                   then 100000 - 0
                   else amount_paid inv' - 0
              else 0)
      /\ (forall u, u <> "u1" ->
            InvoiceRoutes.total_outstanding u Samples.db_partial
            = InvoiceRoutes.total_outstanding u Samples.db_invoice
            /\ InvoiceRoutes.total_overdue (mkCivil 2024 5 27) u
                 Samples.db_partial
               = InvoiceRoutes.total_overdue (mkCivil 2024 5 27) u
                   Samples.db_invoice)
      /\ (forall n : Z,
            (x == inject_Z n)%Q ->
            amount_paid inv' - 0 = 40000
            /\ (payment_status inv' = Paid <-> 100000 <= 0 + 40000)).
Proof.
  assert (H1 : Samples.first_payment
               = (R201 Samples.payment_400, Samples.db_partial))
    by (vm_compute; reflexivity).
  assert (H2 : invoices Samples.db_invoice !! "i1"
               = Some Samples.invoice_open) by (vm_compute; reflexivity).
  assert (H3 : payment_status Samples.invoice_open <> Paid)
    by discriminate.
  split; [exact H1|]. split; [exact H2|]. split; [exact H3|].
  exact (payment_lowers_outstanding Samples.online "pay1" "i1"
           (Samples.pay 40000 2024 1 15) Samples.db_invoice
           Samples.db_partial Samples.payment_400 Samples.invoice_open
           (mkCivil 2024 5 27) H1 H2 H3).
Defined.

(** ** The status of an imported invoice *)



(** ** Listing deadlines *)

#[global] Instance date_le_total : Total Deadlines.date_le.
Proof. intros a b. unfold Deadlines.date_le. lia. Qed.

#[global] Instance date_le_trans : Transitive Deadlines.date_le.
Proof. intros a b c. unfold Deadlines.date_le. lia. Qed.

(** The rows of the answer are the selected rows, in their order. *)
Lemma listed_rows (f : string * Deadline -> Z) (clock : nat -> Z)
    (sel : list (string * Deadline)) :
  (fun x => (Deadlines.l_id x, Deadlines.l_row x))
  <$> imap (fun i r => Deadlines.derive (f r) (clock i) r) sel
  = sel.
Proof.
  revert clock. induction sel as [|[i d] sel IH]; intros clock;
    [reflexivity|].
  rewrite imap_cons, fmap_cons. f_equal. exact (IH (clock ∘ S)).
Qed.

Lemma NoDup_fst_filter {A : Type} (f : string * A -> bool)
    (l : list (string * A)) :
  NoDup l.*1 -> NoDup (List.filter f l).*1.
Proof.
  induction l as [|r l IH]; [intros _; constructor|].
  rewrite fmap_cons, NoDup_cons. intros [Hr Hl]. cbn [List.filter].
  destruct (f r); [|exact (IH Hl)].
  rewrite fmap_cons, NoDup_cons. split; [|exact (IH Hl)].
  intros Hin. apply Hr. apply list_elem_of_fmap in Hin as [x [-> Hx]].
  apply list_elem_of_fmap. exists x. split; [reflexivity|].
  apply list_elem_of_In in Hx. apply filter_In in Hx as [Hx _].
  apply list_elem_of_In, Hx.
Qed.

(** The rows of a list request: the selected deadlines, each with its
    derived fields. *)
Lemma listAll_selected (lost : nat -> bool) (pg_date : Civil -> Z)
    (clock : nat -> Z) (u : string) (status : option string) (db : DB) :
  lost 0%nat = false -> u <> "" ->
  exists rows sel,
    Deadlines.listAll lost pg_date clock (Some u) status db = (R200 rows, db)
    /\ Deadlines.select_deadlines u
         (if truthy_text status then status else None) db = Some (sel, db)
    /\ (fun x => (Deadlines.l_id x, Deadlines.l_row x)) <$> rows = sel.
Proof.
  intros Hl Hu.
  unfold Deadlines.listAll, handle, mbind, M_bind, mret, M_ret, query.
  cbn [truthy_text].
  replace (String.eqb u "") with false
    by (symmetry; apply String.eqb_neq, Hu).
  cbn [negb]. rewrite Hl. unfold Deadlines.select_deadlines.
  eexists _, _. split; [reflexivity|]. split; [reflexivity|].
  apply (listed_rows (fun r => pg_date (deadline_date r.2))).
Qed.

(** The selected deadlines: those of the user, with the status asked
    for. *)
Lemma select_deadlines_member (u : string) (status : option string)
    (db : DB) (sel : list (string * Deadline)) (id : string) (d : Deadline) :
  Deadlines.select_deadlines u
    (if truthy_text status then status else None) db = Some (sel, db) ->
  (id, d) ∈ sel
  <-> deadlines db !! id = Some d /\ dl_user d = u
      /\ (truthy_text status = true ->
          status = Some (status_text (Store.status d))).
Proof.
  unfold Deadlines.select_deadlines. intros Hsel. injection Hsel as <-.
  rewrite merge_sort_Permutation, list_elem_of_In, filter_In,
    <- list_elem_of_In, elem_of_map_to_list.
  cbn [snd]. rewrite andb_true_iff, String.eqb_eq.
  destruct status as [st|]; cbn [truthy_text].
  - destruct (String.eqb_spec st "") as [->|Hst]; cbn [negb].
    + intuition discriminate.
    + rewrite String.eqb_eq. split.
      * intros (? & ? & <-). auto.
      * intros (? & ? & H'). specialize (H' eq_refl).
        injection H' as ->. auto.
  - intuition discriminate.
Qed.



(** X16: where the host keeps one UTC offset all year and the driver
    hands a [DATE] over as local midnight, days_remaining counts calendar
    days in local time: the day number of deadline_date minus the day
    number of the local date of the clock - 0 for a deadline dated today,
    1 for tomorrow, -1 for yesterday - at every time of the day. *)
Theorem days_remaining_counts_local_days (tz : TimeZone) (c today : Z)
    (r : string * Deadline) :
  fixed_offset tz c ->
  Deadlines.days_remaining
    (Deadlines.derive
       (UTC tz (MakeDate (DeadlineRoutes.day_number (deadline_date r.2)) 0))
       today r)
  = DeadlineRoutes.day_number (deadline_date r.2) - Day (LocalTime tz today).
Proof.
  intros Hfix. unfold Deadlines.derive. cbn [Deadlines.days_remaining].
  unfold UTC, LocalTime.
  destruct (Hfix (MakeDate (DeadlineRoutes.day_number (deadline_date r.2)) 0))
    as [_ ->].
  destruct (Hfix today) as [-> _].
  set (D := DeadlineRoutes.day_number (deadline_date r.2)).
  unfold ceil_div, Day, MakeDate, msPerDay.
  replace (- (D * 86400000 + 0 - c - today))
    with ((today + c) + (- D) * 86400000) by lia.
  change (1000 * 60 * 60 * 24) with 86400000.
  rewrite Z.div_add by lia. lia.
Qed.

Lemma days_remaining_counts_local_days_witness :
  fixed_offset (fixed_zone (-7 * msPerHour)) (-7 * msPerHour)
  /\ Deadlines.days_remaining
       (Deadlines.derive
          (UTC (fixed_zone (-7 * msPerHour))
             (MakeDate (DeadlineRoutes.day_number (mkCivil 2024 6 1)) 0))
          (Samples.clock_may_27 0%nat)
          ("d1", Deadlines.l_row Samples.notice_listed))
     = DeadlineRoutes.day_number (mkCivil 2024 6 1)
       - Day (LocalTime (fixed_zone (-7 * msPerHour))
                (Samples.clock_may_27 0%nat)).
Proof.
  assert (H1 : fixed_offset (fixed_zone (-7 * msPerHour)) (-7 * msPerHour))
    by (intros t; split; reflexivity).
  split; [exact H1|].
  exact (days_remaining_counts_local_days (fixed_zone (-7 * msPerHour))
           (-7 * msPerHour) (Samples.clock_may_27 0%nat)
           ("d1", Deadlines.l_row Samples.notice_listed) H1).
Defined.

Lemma is_upcoming_spec (today : Civil) (u : string) (r : string * Deadline) :
  DeadlineRoutes.is_upcoming today u r = true
  <-> dl_user r.2 = u /\ status r.2 = DPending
      /\ DeadlineRoutes.day_number today
         <= DeadlineRoutes.day_number (deadline_date r.2)
         <= DeadlineRoutes.day_number today + 30.
Proof.
  unfold DeadlineRoutes.is_upcoming.
  rewrite !andb_true_iff, String.eqb_eq, bool_decide_eq_true, !Z.leb_le.
  tauto.
Qed.



(** ** Creating, completing and deleting deadlines *)

(** What a 201 of POST / has done. *)
Lemma deadline_create_accepted (lost : nat -> bool) (id : string)
    (body : Deadlines.CreateBody) (db db' : DB) (r : string * Deadline) :
  Deadlines.create lost id body db = (R201 r, db') ->
  exists u ty,
    Deadlines.c_userId body = Some u /\ u <> ""
    /\ Deadlines.c_deadlineType body ≫= deadline_type_of_text = Some ty
    /\ deadlines db !! id = None
    /\ r.1 = id
    /\ dl_user r.2 = u /\ deadline_type r.2 = ty
    /\ status r.2 = DPending /\ completed_date r.2 = None
    /\ Some (priority r.2)
       = convert_opt priority_of_text
           (or_default "normal" (Deadlines.c_priority body))
    /\ db' = with_deadlines db (<[id := r.2]> (deadlines db)).
Proof.
  unfold Deadlines.create, handle, mbind at 1, M_bind, mret, M_ret, query.
  destruct (_ || _) eqn:Hv; [intros H; discriminate H|].
  repeat (apply orb_false_elim in Hv as [Hv ?]).
  destruct (lost 0%nat); [intros H'; discriminate H'|].
  unfold Deadlines.insert_deadline.
  destruct (Deadlines.c_userId body) as [u|] eqn:Hu;
    [|intros H'; discriminate H'].
  destruct (Deadlines.c_deadlineType body ≫= deadline_type_of_text)
    as [ty|]; [|intros H'; discriminate H'].
  destruct (Deadlines.c_deadlineDate body ≫= sql_date);
    [|intros H'; discriminate H'].
  destruct (convert_opt sql_date (Deadlines.c_triggerDate body));
    [|intros H'; discriminate H'].
  destruct (Deadlines.c_title body); [|intros H'; discriminate H'].
  destruct (convert_opt priority_of_text
              (or_default "normal" (Deadlines.c_priority body)))
    as [prio|]; [|intros H'; discriminate H'].
  match goal with
  | |- context [if ?c then _ else _] => destruct c eqn:Hc
  end; [|intros H'; discriminate H'].
  split_andb.
  match goal with
  | Hf : bool_decide (_ = None) = true |- _ =>
      apply bool_decide_eq_true in Hf; rename Hf into Hfresh
  end.
  intros H'. injection H' as <- <-. exists u, ty. cbn.
  split; [reflexivity|]. split.
  { intros ->. cbn in Hv. discriminate Hv. }
  repeat (split; [first [reflexivity | assumption]|]). reflexivity.
Qed.

(** X18: a deadline created with 201 is pending, has no completed_date
    and the priority of the request: normal when the request leaves the
    field out, none when the request sends null; it is then on its user's
    list, under the id and with the row that were returned. *)
Theorem create_then_listAll (lost lost' : nat -> bool) (id : string)
    (body : Deadlines.CreateBody) (db db' : DB) (r : string * Deadline)
    (pg_date : Civil -> Z) (clock : nat -> Z) :
  Deadlines.create lost id body db = (R201 r, db') ->
  lost' 0%nat = false ->
  r.1 = id /\ status r.2 = DPending /\ completed_date r.2 = None
  /\ (Deadlines.c_priority body = Absent -> priority r.2 = Some Normal)
  /\ (Deadlines.c_priority body = NullText -> priority r.2 = None)
  /\ (forall s, Deadlines.c_priority body = Text s ->
                is_Some (priority r.2)
                /\ priority r.2 = priority_of_text s)
  /\ exists rows x,
      Deadlines.listAll lost' pg_date clock (Some (dl_user r.2))
        (Some "pending") db' = (R200 rows, db')
      /\ x ∈ rows /\ Deadlines.l_id x = id /\ Deadlines.l_row x = r.2.
Proof.
  intros Hrun Hl.
  destruct (deadline_create_accepted _ _ _ _ _ _ Hrun)
    as (u & ty & _ & Hu & _ & _ & Hid & Hdu & _ & Hst & Hcd & Hprio & ->).
  split; [exact Hid|]. split; [exact Hst|]. split; [exact Hcd|].
  split; [|split; [|split]].
  { intros Hnone. rewrite Hnone in Hprio. cbn in Hprio.
    injection Hprio as ->. reflexivity. }
  { intros Hnull. rewrite Hnull in Hprio. cbn in Hprio.
    injection Hprio as ->. reflexivity. }
  { intros s Hs. rewrite Hs in Hprio. cbn in Hprio.
    destruct (priority_of_text s) as [q|]; [|discriminate Hprio].
    injection Hprio as ->. split; [eexists|]; reflexivity. }
  rewrite Hdu.
  destruct (listAll_selected lost' pg_date clock u (Some "pending")
              (with_deadlines db (<[id := r.2]> (deadlines db))) Hl Hu)
    as (rows & sel & Hlist & Hsel & Hrows).
  exists rows.
  assert (Hin : (id, r.2) ∈ sel).
  { apply (select_deadlines_member u (Some "pending") _ sel id r.2 Hsel).
    cbn [with_deadlines deadlines]. rewrite lookup_insert_eq.
    split; [reflexivity|]. split; [exact Hdu|].
    intros _. rewrite Hst. reflexivity. }
  rewrite <- Hrows in Hin. apply list_elem_of_fmap in Hin as (x & Hxe & Hx).
  injection Hxe as Hi Hr.
  exists x. split; [exact Hlist|]. split; [exact Hx|]. split; congruence.
Qed.

Lemma create_then_listAll_witness :
  Deadlines.create Samples.online "d1" Samples.notice Samples.db0
  = (R201 ("d1", Deadlines.l_row Samples.notice_listed),
     Samples.db_deadline)
  /\ Samples.online 0%nat = false
  /\ "d1" = "d1"
  /\ status (Deadlines.l_row Samples.notice_listed) = DPending
  /\ completed_date (Deadlines.l_row Samples.notice_listed) = None
  /\ (Deadlines.c_priority Samples.notice = Absent ->
      priority (Deadlines.l_row Samples.notice_listed) = Some Normal)
  /\ (Deadlines.c_priority Samples.notice = NullText ->
      priority (Deadlines.l_row Samples.notice_listed) = None)
  /\ (forall s, Deadlines.c_priority Samples.notice = Text s ->
                is_Some (priority (Deadlines.l_row Samples.notice_listed))
                /\ priority (Deadlines.l_row Samples.notice_listed)
                   = priority_of_text s)
  /\ exists rows x,
      Deadlines.listAll Samples.online Samples.pg_date_utc
        Samples.clock_may_27 (Some "u1") (Some "pending")
        Samples.db_deadline = (R200 rows, Samples.db_deadline)
      /\ x ∈ rows /\ Deadlines.l_id x = "d1"
      /\ Deadlines.l_row x = Deadlines.l_row Samples.notice_listed.
Proof.
  assert (H1 : Deadlines.create Samples.online "d1" Samples.notice
                 Samples.db0
               = (R201 ("d1", Deadlines.l_row Samples.notice_listed),
                  Samples.db_deadline))
    by (vm_compute; reflexivity).
  assert (H2 : Samples.online 0%nat = false) by reflexivity.
  split; [exact H1|]. split; [exact H2|].
  exact (create_then_listAll Samples.online Samples.online "d1"
           Samples.notice Samples.db0 Samples.db_deadline
           ("d1", Deadlines.l_row Samples.notice_listed)
           Samples.pg_date_utc Samples.clock_may_27 H1 H2).
Defined.

(** X19: DELETE /:id undoes POST /: deleting a deadline that was just
    created answers 200 and gives back the store as it was before the
    creation; deleting it once more answers 404 and changes nothing. *)
Theorem delete_undoes_create (lost lost' : nat -> bool) (id : string)
    (body : Deadlines.CreateBody) (db db' : DB) (r : string * Deadline) :
  Deadlines.create lost id body db = (R201 r, db') ->
  lost' 0%nat = false ->
  Deadlines.delete lost' id db' = (R200 tt, db)
  /\ Deadlines.delete lost' id db = (R404, db).
Proof.
  intros Hrun Hl.
  destruct (deadline_create_accepted _ _ _ _ _ _ Hrun)
    as (u & ty & _ & _ & _ & Hfresh & _ & _ & _ & _ & _ & _ & ->).
  unfold Deadlines.delete, handle, mbind, M_bind, mret, M_ret, query.
  rewrite Hl. unfold Deadlines.delete_deadline.
  cbn [with_deadlines deadlines]. rewrite lookup_insert_eq, Hfresh.
  split; [|reflexivity].
  cbn [with_deadlines deadlines users projects invoices payments
       colorado_lien_rules].
  rewrite delete_insert_id by exact Hfresh. destruct db; reflexivity.
Qed.

Lemma delete_undoes_create_witness :
  Deadlines.create Samples.online "d1" Samples.notice Samples.db0
  = (R201 ("d1", Deadlines.l_row Samples.notice_listed),
     Samples.db_deadline)
  /\ Samples.online 0%nat = false
  /\ Deadlines.delete Samples.online "d1" Samples.db_deadline
     = (R200 tt, Samples.db0)
  /\ Deadlines.delete Samples.online "d1" Samples.db0
     = (R404, Samples.db0).
Proof.
  assert (H1 : Deadlines.create Samples.online "d1" Samples.notice
                 Samples.db0
               = (R201 ("d1", Deadlines.l_row Samples.notice_listed),
                  Samples.db_deadline))
    by (vm_compute; reflexivity).
  assert (H2 : Samples.online 0%nat = false) by reflexivity.
  split; [exact H1|]. split; [exact H2|].
  exact (delete_undoes_create Samples.online Samples.online "d1"
           Samples.notice Samples.db0 Samples.db_deadline
           ("d1", Deadlines.l_row Samples.notice_listed) H1 H2).
Defined.

(** X20: POST /:id/complete on a stored deadline, whatever its status,
    answers 200 with the deadline completed on the current date and
    otherwise as it was; the deadline is gone from GET /upcoming from then
    on, and no other deadline has changed. *)
Theorem complete_closes (lost : nat -> bool) (today : Civil) (id : string)
    (db : DB) (old : Deadline) :
  lost 0%nat = false ->
  deadlines db !! id = Some old ->
  exists row db',
    Deadlines.complete lost today id db = (R200 (id, row), db')
    /\ status row = DCompleted /\ completed_date row = Some today
    /\ deadline_date row = deadline_date old
    /\ deadline_type row = deadline_type old
    /\ priority row = priority old /\ title row = title old
    /\ deadlines db' = <[id := row]> (deadlines db)
    /\ (forall lost' day u rows,
          (DeadlineRoutes.upcoming lost' day u db').1 = R200 rows ->
          id ∉ rows.*1).
Proof.
  intros Hl Hold.
  unfold Deadlines.complete, handle, mbind, M_bind, mret, M_ret, query.
  rewrite Hl. unfold Deadlines.complete_deadline. rewrite Hold.
  eexists _, _. split; [reflexivity|]. cbn [status completed_date
    deadline_date deadline_type priority title with_deadlines deadlines].
  do 7 (split; [reflexivity|]).
  intros lost' day u rows.
  unfold DeadlineRoutes.upcoming, handle, mbind, M_bind, mret, M_ret, query.
  destruct u as [u|]; [|intros H; discriminate H].
  destruct (negb (truthy_text (Some u))); [intros H; discriminate H|].
  destruct (lost' 0%nat); [intros H; discriminate H|].
  unfold DeadlineRoutes.select_upcoming. cbn [fst with_deadlines deadlines].
  intros H. injection H as <-. intros Hin.
  apply list_elem_of_fmap in Hin as ([i d] & Hi & Hin). cbn in Hi. subst i.
  apply elem_of_take in Hin as (k & Hk & _).
  apply list_elem_of_lookup_2 in Hk.
  rewrite merge_sort_Permutation in Hk.
  apply list_elem_of_In, filter_In in Hk as [Hk Hup].
  apply list_elem_of_In, elem_of_map_to_list in Hk.
  rewrite lookup_insert_eq in Hk. injection Hk as <-.
  apply is_upcoming_spec in Hup as (_ & Hst & _). discriminate Hst.
Qed.

Lemma complete_closes_witness :
  Samples.online 0%nat = false
  /\ deadlines Samples.db_deadline !! "d1"
     = Some (Deadlines.l_row Samples.notice_listed)
  /\ exists row db',
      Deadlines.complete Samples.online (mkCivil 2024 6 3) "d1"
        Samples.db_deadline = (R200 ("d1", row), db')
      /\ status row = DCompleted
      /\ completed_date row = Some (mkCivil 2024 6 3)
      /\ deadline_date row
         = deadline_date (Deadlines.l_row Samples.notice_listed)
      /\ deadline_type row
         = deadline_type (Deadlines.l_row Samples.notice_listed)
      /\ priority row = priority (Deadlines.l_row Samples.notice_listed)
      /\ title row = title (Deadlines.l_row Samples.notice_listed)
      /\ deadlines db' = <["d1" := row]> (deadlines Samples.db_deadline)
      /\ (forall lost' day u rows,
            (DeadlineRoutes.upcoming lost' day u db').1 = R200 rows ->
            "d1" ∉ rows.*1).
Proof.
  assert (H1 : Samples.online 0%nat = false) by reflexivity.
  assert (H2 : deadlines Samples.db_deadline !! "d1"
               = Some (Deadlines.l_row Samples.notice_listed))
    by (vm_compute; reflexivity).
  split; [exact H1|]. split; [exact H2|].
  exact (complete_closes Samples.online (mkCivil 2024 6 3) "d1"
           Samples.db_deadline (Deadlines.l_row Samples.notice_listed)
           H1 H2).
Defined.

(** X21: PUT /:id never changes a deadline's type, trigger date, owner
    or project and never clears completed_date, priority, description or
    notes once they hold a value - so a completed deadline set back to
    pending keeps its completed_date - and it touches no other deadline. *)
Theorem deadline_update_never_touches (lost : nat -> bool) (id : string)
    (body : Deadlines.UpdateBody) (db db' : DB) (r : string * Deadline) :
  Deadlines.update lost id body db = (R200 r, db') ->
  exists old,
    deadlines db !! id = Some old /\ r.1 = id
    /\ deadline_type r.2 = deadline_type old
    /\ trigger_date r.2 = trigger_date old
    /\ dl_user r.2 = dl_user old /\ dl_project r.2 = dl_project old
    /\ (is_Some (completed_date old) -> is_Some (completed_date r.2))
    /\ (is_Some (priority old) -> is_Some (priority r.2))
    /\ (is_Some (dl_description old) -> is_Some (dl_description r.2))
    /\ (is_Some (dl_notes old) -> is_Some (dl_notes r.2))
    /\ deadlines db' = <[id := r.2]> (deadlines db)
    /\ invoices db' = invoices db /\ payments db' = payments db
    /\ projects db' = projects db.
Proof.
  unfold Deadlines.update, handle, mbind, M_bind, mret, M_ret, query.
  destruct (lost 0%nat); [intros H; discriminate H|].
  unfold Deadlines.update_deadline.
  destruct (convert_opt sql_date (Deadlines.u_deadlineDate body));
    [|intros H; discriminate H].
  destruct (convert_opt sql_date (Deadlines.u_completedDate body))
    as [cdate|]; [|intros H; discriminate H].
  destruct (deadlines db !! id) as [old|]; [|intros H; discriminate H].
  destruct (convert_opt status_of_text (Deadlines.u_status body));
    [|intros H; discriminate H].
  destruct (convert_opt priority_of_text (Deadlines.u_priority body))
    as [prio|]; [|intros H; discriminate H].
  match goal with
  | |- context [if ?c then _ else _] => destruct c
  end; [|intros H; discriminate H].
  intros H. injection H as <- <-. exists old. cbn.
  do 6 (split; [reflexivity|]).
  repeat split;
    try (intros [v Hv]; rewrite Hv;
         match goal with
         | |- is_Some (coalesce_null ?p _) => destruct p; cbn; eauto
         end).
Qed.

Lemma deadline_update_never_touches_witness :
  Samples.reopened
  = (R200 ("d1", mkDeadline "u1" (Some "p1") Custom (mkCivil 2024 6 1) None
                   "Send notice" None DPending (Some Normal) None
                   (Some (mkCivil 2024 6 3))), Samples.reopened.2)
  /\ exists old,
      deadlines (Deadlines.complete Samples.online (mkCivil 2024 6 3) "d1"
                   Samples.db_deadline).2 !! "d1" = Some old
      /\ "d1" = "d1"
      /\ Custom = deadline_type old /\ None = trigger_date old
      /\ "u1" = dl_user old /\ Some "p1" = dl_project old
      /\ (is_Some (completed_date old) ->
          is_Some (Some (mkCivil 2024 6 3)))
      /\ (is_Some (priority old) -> is_Some (Some Normal))
      /\ (is_Some (dl_description old) -> is_Some (@None string))
      /\ (is_Some (dl_notes old) -> is_Some (@None string))
      /\ deadlines Samples.reopened.2
         = <["d1" := mkDeadline "u1" (Some "p1") Custom (mkCivil 2024 6 1)
                       None "Send notice" None DPending (Some Normal) None
                       (Some (mkCivil 2024 6 3))]>
             (deadlines (Deadlines.complete Samples.online
                           (mkCivil 2024 6 3) "d1" Samples.db_deadline).2)
      /\ invoices Samples.reopened.2
         = invoices (Deadlines.complete Samples.online (mkCivil 2024 6 3)
                       "d1" Samples.db_deadline).2
      /\ payments Samples.reopened.2
         = payments (Deadlines.complete Samples.online (mkCivil 2024 6 3)
                       "d1" Samples.db_deadline).2
      /\ projects Samples.reopened.2
         = projects (Deadlines.complete Samples.online (mkCivil 2024 6 3)
                       "d1" Samples.db_deadline).2.
Proof.
  assert (H1 : Samples.reopened
               = (R200 ("d1", mkDeadline "u1" (Some "p1") Custom
                                (mkCivil 2024 6 1) None "Send notice" None
                                DPending (Some Normal) None
                                (Some (mkCivil 2024 6 3))),
                  Samples.reopened.2))
    by (vm_compute; reflexivity).
  split; [exact H1|].
  exact (deadline_update_never_touches Samples.online "d1"
           (Samples.only_status "pending")
           (Deadlines.complete Samples.online (mkCivil 2024 6 3) "d1"
              Samples.db_deadline).2
           Samples.reopened.2
           ("d1", mkDeadline "u1" (Some "p1") Custom (mkCivil 2024 6 1) None
                    "Send notice" None DPending (Some Normal) None
                    (Some (mkCivil 2024 6 3))) H1).
Defined.

(** ** Routes that only read *)

(** X22: the routes that only read - the deadline list, the upcoming
    deadlines, the calculator and the invoice with its history - leave
    the store exactly as it was, whatever the request and whichever
    statement fails. *)
Theorem read_routes_change_nothing (lost : nat -> bool) (db : DB) :
  (forall pg_date clock userId status,
      (Deadlines.listAll lost pg_date clock userId status db).2 = db)
  /\ (forall today userId,
        (DeadlineRoutes.upcoming lost today userId db).2 = db)
  /\ (forall tz body, (Deadlines.calculate lost tz body db).2 = db)
  /\ (forall id, (InvoiceRoutes.getOne lost id db).2 = db).
Proof.
  split; [|split; [|split]].
  - intros pg_date clock userId status.
    unfold Deadlines.listAll, handle, mbind, M_bind, mret, M_ret, query.
    destruct userId; [|reflexivity].
    destruct (negb _); [reflexivity|].
    destruct (lost 0%nat); reflexivity.
  - intros today userId.
    unfold DeadlineRoutes.upcoming, handle, mbind, M_bind, mret, M_ret,
      query.
    destruct userId; [|reflexivity].
    destruct (negb _); [reflexivity|].
    destruct (lost 0%nat); reflexivity.
  - intros tz body.
    unfold Deadlines.calculate, handle, mbind, M_bind, mret, M_ret, query.
    destruct (Deadlines.k_deadlineType body); [|reflexivity].
    destruct (Deadlines.k_triggerDate body); [|reflexivity].
    destruct (_ || _); [reflexivity|].
    destruct (lost 0%nat); [reflexivity|].
    unfold Deadlines.select_rule.
    destruct (find _ _); [|reflexivity].
    destruct (Deadlines.plus_days_iso _ _ _); reflexivity.
  - intros id.
    unfold InvoiceRoutes.getOne, handle, mbind, M_bind, mret, M_ret, query.
    destruct (lost 0%nat); [reflexivity|].
    unfold InvoiceRoutes.select_invoice.
    destruct (invoices db !! id); [|destruct (is_uuid id); reflexivity].
    destruct (lost 1%nat); reflexivity.
Qed.

(** ** The calculator on requests it cannot read *)

(** X23: a trigger date that is present but is not a date is not
    refused with 400: when a rule matches the deadline type and the
    project type of the request (private when the field is absent),
    building the answer throws and the calculator answers 500. *)
Theorem calculate_unreadable_trigger (lost : nat -> bool) (tz : TimeZone)
    (body : Deadlines.CalculateBody) (db : DB) (ty pt : string)
    (t : date_text) (rule : LienRule) :
  lost 0%nat = false ->
  Deadlines.k_deadlineType body = Some ty -> ty <> "" ->
  Deadlines.k_triggerDate body = Some t -> truthy_date (Some t) = true ->
  Date_parse t = None ->
  or_default "private" (Deadlines.k_projectType body) = Some pt ->
  find (fun r => String.eqb (rule_type r) ty
                 && String.eqb (rule_project_type r) pt)
       (colorado_lien_rules db) = Some rule ->
  Deadlines.calculate lost tz body db = (R500, db).
Proof.
  intros Hl Hty Hne Ht Htd Hparse Hpt Hfind.
  unfold Deadlines.calculate, handle, mbind, M_bind, mret, M_ret, query.
  rewrite Hty, Ht, Hl, Htd, Hpt. cbn [truthy_text].
  replace (String.eqb ty "") with false
    by (symmetry; apply String.eqb_neq, Hne).
  cbn [negb orb]. unfold Deadlines.select_rule. rewrite Hfind, Hparse.
  reflexivity.
Qed.

Lemma calculate_unreadable_trigger_witness :
  Samples.online 0%nat = false
  /\ Deadlines.k_deadlineType Cases.from_someday
     = Some "preliminary_notice"
  /\ "preliminary_notice" <> ""
  /\ Deadlines.k_triggerDate Cases.from_someday
     = Some (OtherText "someday")
  /\ truthy_date (Some (OtherText "someday")) = true
  /\ Date_parse (OtherText "someday") = None
  /\ or_default "private" (Deadlines.k_projectType Cases.from_someday)
     = Some "private"
  /\ find (fun r => String.eqb (rule_type r) "preliminary_notice"
                    && String.eqb (rule_project_type r) "private")
          (colorado_lien_rules Samples.db0)
     = Some (mkLienRule "preliminary_notice" "private" 10
               "Preliminary notice must be sent within 10 days of first furnishing labor or materials"
               "first_work_date" (Some "C.R.S. § 38-22-109"))
  /\ Deadlines.calculate Samples.online utc_zone Cases.from_someday
       Samples.db0 = (R500, Samples.db0).
Proof.
  assert (H1 : Samples.online 0%nat = false) by reflexivity.
  assert (H2 : Deadlines.k_deadlineType Cases.from_someday
               = Some "preliminary_notice") by reflexivity.
  assert (H3 : "preliminary_notice" <> "") by discriminate.
  assert (H4 : Deadlines.k_triggerDate Cases.from_someday
               = Some (OtherText "someday")) by reflexivity.
  assert (H5 : truthy_date (Some (OtherText "someday")) = true)
    by reflexivity.
  assert (H6 : Date_parse (OtherText "someday") = None) by reflexivity.
  assert (H7 : or_default "private"
                 (Deadlines.k_projectType Cases.from_someday)
               = Some "private") by reflexivity.
  assert (H8 : find (fun r => String.eqb (rule_type r) "preliminary_notice"
                              && String.eqb (rule_project_type r) "private")
                    (colorado_lien_rules Samples.db0)
               = Some (mkLienRule "preliminary_notice" "private" 10
                         "Preliminary notice must be sent within 10 days of first furnishing labor or materials"
                         "first_work_date" (Some "C.R.S. § 38-22-109")))
    by (vm_compute; reflexivity).
  repeat (split; [assumption|]).
  exact (calculate_unreadable_trigger Samples.online utc_zone
           Cases.from_someday Samples.db0 "preliminary_notice" "private"
           (OtherText "someday")
           (mkLienRule "preliminary_notice" "private" 10
              "Preliminary notice must be sent within 10 days of first furnishing labor or materials"
              "first_work_date" (Some "C.R.S. § 38-22-109"))
           H1 H2 H3 H4 H5 H6 H7 H8).
Defined.

(** The same request with a project type of null, and the calculator's
    answer to a readable date with a project type of null: 404 both. *)
Example calculate_null_project_type :
  Deadlines.calculate Samples.online utc_zone
    (Deadlines.mkCalculateBody (Some "preliminary_notice")
       (Some (OtherText "someday")) NullText) Samples.db0
  = (R404, Samples.db0)
  /\ Deadlines.calculate Samples.online utc_zone Cases.from_march_1_null
       Samples.db0 = (R404, Samples.db0).
Proof. split; vm_compute; reflexivity. Qed.

(** ** Examples for the payment and calculator lemmas *)

Lemma calculate_exact_fixed_zone_witness :
  fixed_offset utc_zone 0
  /\ Samples.online 0%nat = false
  /\ Deadlines.k_deadlineType Samples.from_march_1
     = Some "preliminary_notice"
  /\ "preliminary_notice" <> ""
  /\ Deadlines.k_triggerDate Samples.from_march_1
     = Some (Deadlines.iso_text (mkCivil 2024 3 1))
  /\ valid_civil (mkCivil 2024 3 1) = true
  /\ 0 <= year (mkCivil 2024 3 1) <= 9999
  /\ or_default "private" (Deadlines.k_projectType Samples.from_march_1)
     = Some "private"
  /\ find (fun r => String.eqb (rule_type r) "preliminary_notice"
                    && String.eqb (rule_project_type r) "private")
          (colorado_lien_rules Samples.db0)
     = Some (mkLienRule "preliminary_notice" "private" 10
               "Preliminary notice must be sent within 10 days of first furnishing labor or materials"
               "first_work_date" (Some "C.R.S. § 38-22-109"))
  /\ Z.abs 10 <= 90000000
  /\ Deadlines.calculate Samples.online utc_zone Samples.from_march_1
       Samples.db0
     = (R200 {| Deadlines.deadlineDate := add_days (mkCivil 2024 3 1) 10;
                Deadlines.deadlineDays := 10;
                Deadlines.description :=
                  "Preliminary notice must be sent within 10 days of first furnishing labor or materials";
                Deadlines.triggerEvent := "first_work_date";
                Deadlines.statutoryReference :=
                  Some "C.R.S. § 38-22-109" |},
        Samples.db0).
Proof.
  assert (H1 : fixed_offset utc_zone 0) by (intros t; split; reflexivity).
  assert (H2 : Samples.online 0%nat = false) by reflexivity.
  assert (H3 : Deadlines.k_deadlineType Samples.from_march_1
               = Some "preliminary_notice") by reflexivity.
  assert (H4 : "preliminary_notice" <> "") by discriminate.
  assert (H5 : Deadlines.k_triggerDate Samples.from_march_1
               = Some (Deadlines.iso_text (mkCivil 2024 3 1)))
    by reflexivity.
  assert (H6 : valid_civil (mkCivil 2024 3 1) = true)
    by (vm_compute; reflexivity).
  assert (H7 : 0 <= year (mkCivil 2024 3 1) <= 9999) by (cbn; lia).
  assert (H8 : or_default "private"
                 (Deadlines.k_projectType Samples.from_march_1)
               = Some "private") by reflexivity.
  assert (H9 : find (fun r => String.eqb (rule_type r) "preliminary_notice"
                              && String.eqb (rule_project_type r) "private")
                    (colorado_lien_rules Samples.db0)
               = Some (mkLienRule "preliminary_notice" "private" 10
                         "Preliminary notice must be sent within 10 days of first furnishing labor or materials"
                         "first_work_date" (Some "C.R.S. § 38-22-109")))
    by (vm_compute; reflexivity).
  assert (H10 : Z.abs 10 <= 90000000) by (cbn; lia).
  repeat (split; [assumption|]).
  exact (calculate_exact_fixed_zone Samples.online utc_zone 0
           Samples.from_march_1 Samples.db0 "preliminary_notice" "private"
           (mkCivil 2024 3 1)
           (mkLienRule "preliminary_notice" "private" 10
              "Preliminary notice must be sent within 10 days of first furnishing labor or materials"
              "first_work_date" (Some "C.R.S. § 38-22-109"))
           H1 H2 H3 H4 H5 H6 H7 H8 H9 H10).
Defined.

Lemma recordPayment_succeeds_witness :
  Samples.online 0%nat = false /\ Samples.online 1%nat = false
  /\ to_param (Invoices.p_amount (Samples.pay 40000 2024 1 15))
     = Some (inject_Z 40000)
  /\ truthy_num (Invoices.p_amount (Samples.pay 40000 2024 1 15)) = true
  /\ Invoices.p_paymentDate (Samples.pay 40000 2024 1 15) ≫= sql_date
     = Some (mkCivil 2024 1 15)
  /\ Forall (fun p => pay_id p <> "pay1") (payments Samples.db_invoice)
  /\ invoices Samples.db_invoice !! "i1" = Some Samples.invoice_open
  /\ fits_money (to_column (inject_Z 40000)) = true
  /\ fits_money
       (to_column (Invoices.new_total (inject_Z 40000) Samples.invoice_open))
     = true
  /\ from_option (fits_varchar 50) true
       (Invoices.p_paymentMethod (Samples.pay 40000 2024 1 15)) = true
  /\ from_option (fits_varchar 100) true
       (Invoices.p_checkNumber (Samples.pay 40000 2024 1 15)) = true
  /\ exists p,
      Invoices.recordPayment Samples.online "pay1" "i1"
        (Samples.pay 40000 2024 1 15) Samples.db_invoice
      = (R201 p,
         with_invoices
           (with_payments Samples.db_invoice
              (payments Samples.db_invoice ++ [p]))
           (<["i1" := Invoices.apply_payment (inject_Z 40000)
                        (mkCivil 2024 1 15) Samples.invoice_open]>
              (invoices Samples.db_invoice)))
      /\ pay_amount p = to_column (inject_Z 40000)
      /\ payment_date p = mkCivil 2024 1 15.
Proof.
  assert (H1 : Samples.online 0%nat = false) by reflexivity.
  assert (H2 : Samples.online 1%nat = false) by reflexivity.
  assert (H3 : to_param (Invoices.p_amount (Samples.pay 40000 2024 1 15))
               = Some (inject_Z 40000)) by reflexivity.
  assert (H4 : truthy_num (Invoices.p_amount (Samples.pay 40000 2024 1 15))
               = true) by reflexivity.
  assert (H5 : Invoices.p_paymentDate (Samples.pay 40000 2024 1 15)
               ≫= sql_date = Some (mkCivil 2024 1 15))
    by (vm_compute; reflexivity).
  assert (H6 : Forall (fun p => pay_id p <> "pay1")
                      (payments Samples.db_invoice))
    by (vm_compute; constructor).
  assert (H7 : invoices Samples.db_invoice !! "i1"
               = Some Samples.invoice_open) by (vm_compute; reflexivity).
  assert (H8 : fits_money (to_column (inject_Z 40000)) = true)
    by (vm_compute; reflexivity).
  assert (H9 : fits_money
                 (to_column (Invoices.new_total (inject_Z 40000)
                               Samples.invoice_open)) = true)
    by (vm_compute; reflexivity).
  assert (H10 : from_option (fits_varchar 50) true
                  (Invoices.p_paymentMethod (Samples.pay 40000 2024 1 15))
                = true) by (vm_compute; reflexivity).
  assert (H11 : from_option (fits_varchar 100) true
                  (Invoices.p_checkNumber (Samples.pay 40000 2024 1 15))
                = true) by reflexivity.
  repeat (split; [assumption|]).
  exact (recordPayment_succeeds Samples.online "pay1" "i1"
           (Samples.pay 40000 2024 1 15) Samples.db_invoice
           (inject_Z 40000) (mkCivil 2024 1 15) Samples.invoice_open
           H1 H2 H3 H4 H5 H6 H7 H8 H9 H10 H11).
Defined.

Lemma recordPayment_torn_witness :
  truthy_date (Invoices.p_paymentDate (Samples.pay 1 2024 1 16)) = true
  /\ truthy_num (Invoices.p_amount (Samples.pay 1 2024 1 16)) = true
  /\ query (Samples.online 0%nat)
       (Invoices.insert_payment "pay2" "i2"
          (Invoices.p_paymentDate (Samples.pay 1 2024 1 16))
          (to_param (Invoices.p_amount (Samples.pay 1 2024 1 16)))
          (Invoices.p_paymentMethod (Samples.pay 1 2024 1 16))
          (Invoices.p_checkNumber (Samples.pay 1 2024 1 16))
          (Invoices.p_notes (Samples.pay 1 2024 1 16)))
       Samples.db_max_paid
     = Ok (mkPayment "pay2" "i2" (mkCivil 2024 1 16) 1 (Some "check")
             None None) Samples.torn.2
  /\ query (Samples.online 1%nat)
       (Invoices.update_invoice_paid
          (to_param (Invoices.p_amount (Samples.pay 1 2024 1 16)))
          (Invoices.p_paymentDate (Samples.pay 1 2024 1 16)) "i2")
       Samples.torn.2
     = Throw Samples.torn.2
  /\ Invoices.recordPayment Samples.online "pay2" "i2"
       (Samples.pay 1 2024 1 16) Samples.db_max_paid
     = (R500, Samples.torn.2)
  /\ payments Samples.torn.2
     = payments Samples.db_max_paid
       ++ [mkPayment "pay2" "i2" (mkCivil 2024 1 16) 1 (Some "check")
             None None]
  /\ invoices Samples.torn.2 = invoices Samples.db_max_paid.
Proof.
  assert (H1 : truthy_date (Invoices.p_paymentDate
                              (Samples.pay 1 2024 1 16)) = true)
    by reflexivity.
  assert (H2 : truthy_num (Invoices.p_amount (Samples.pay 1 2024 1 16))
               = true) by reflexivity.
  assert (H3 : query (Samples.online 0%nat)
                 (Invoices.insert_payment "pay2" "i2"
                    (Invoices.p_paymentDate (Samples.pay 1 2024 1 16))
                    (to_param (Invoices.p_amount (Samples.pay 1 2024 1 16)))
                    (Invoices.p_paymentMethod (Samples.pay 1 2024 1 16))
                    (Invoices.p_checkNumber (Samples.pay 1 2024 1 16))
                    (Invoices.p_notes (Samples.pay 1 2024 1 16)))
                 Samples.db_max_paid
               = Ok (mkPayment "pay2" "i2" (mkCivil 2024 1 16) 1
                       (Some "check") None None) Samples.torn.2)
    by (vm_compute; reflexivity).
  assert (H4 : query (Samples.online 1%nat)
                 (Invoices.update_invoice_paid
                    (to_param (Invoices.p_amount (Samples.pay 1 2024 1 16)))
                    (Invoices.p_paymentDate (Samples.pay 1 2024 1 16)) "i2")
                 Samples.torn.2
               = Throw Samples.torn.2)
    by (vm_compute; reflexivity).
  split; [exact H1|]. split; [exact H2|]. split; [exact H3|].
  split; [exact H4|].
  exact (recordPayment_torn Samples.online "pay2" "i2"
           (Samples.pay 1 2024 1 16) Samples.db_max_paid Samples.torn.2
           Samples.torn.2
           (mkPayment "pay2" "i2" (mkCivil 2024 1 16) 1 (Some "check")
              None None) H1 H2 H3 H4).
Defined.

(** ** The deadline generator, when its second half fails *)

(** X24: the generator is not all or nothing.  On a private project
    (projectType private or absent, not null) with a start date, when the
    request carries an end date that is no date, or the second insert
    does not reach the store, the preliminary notice has already been
    stored: the answer is 500 and the notice stays. *)
Theorem autoCreate_keeps_notice_on_failure (lost : nat -> bool)
    (tz : TimeZone) (c : Z) (pg_date : Civil -> Z)
    (prelimId lienId : string) (body : Deadlines.AutoCreateBody) (db : DB)
    (u pid : string) (project : Project) (start : Civil) :
  fixed_offset tz c ->
  lost 0%nat = false -> lost 1%nat = false ->
  Deadlines.a_userId body = Some u -> u <> "" -> u ∈ users db ->
  Deadlines.a_projectId body = Some pid -> pid <> "" ->
  projects db !! pid = Some project ->
  (String.length (project_name project) <= 227)%nat ->
  deadlines db !! prelimId = None ->
  Expected.is_private (Deadlines.a_projectType body) = true ->
  Deadlines.a_workStartDate body = Some (Deadlines.iso_text start) ->
  sql_date_ok start = true -> sql_date_ok (add_days start 10) = true ->
  truthy_date (Deadlines.a_workEndDate body) = true ->
  Deadlines.a_workEndDate body ≫= Date_parse = None
  \/ lost 2%nat = true ->
  Deadlines.autoCreate lost tz pg_date prelimId lienId body db
  = (R500,
     with_deadlines db
       (<[prelimId := Expected.preliminary_notice_of u pid
                        (project_name project) start]> (deadlines db))).
Proof.
  intros Hfix Hl0 Hl1 Hu Hune Huin Hp Hpne Hproj Hlen Hfresh Hpriv Hs Hsok
         Hs10 Hend Hfail.
  unfold Deadlines.autoCreate, handle, mbind, M_bind, mret, M_ret, query.
  rewrite Hp, Hu, Hl0, Hl1. cbn [truthy_text].
  replace (String.eqb u "") with false
    by (symmetry; apply String.eqb_neq, Hune).
  replace (String.eqb pid "") with false
    by (symmetry; apply String.eqb_neq, Hpne).
  cbn [negb orb]. unfold Deadlines.select_project. rewrite Hproj.
  unfold Deadlines.truthy_object. cbn [andb].
  unfold Expected.is_private in Hpriv. rewrite Hpriv.
  unfold Deadlines.start_date. rewrite Hs.
  cbn [truthy_date Deadlines.iso_text mbind option_bind].
  change (IsoDate (year start) (month start) (day start))
    with (Deadlines.iso_text start).
  destruct (plus_days_iso_of_text tz c start 10 Hfix Hsok ltac:(lia))
    as [Hplus Hiso].
  rewrite Hplus, Hiso. unfold Deadlines.of_exception, mret, M_ret.
  rewrite (insert_deadline_ok prelimId u pid "preliminary_notice"
             PreliminaryNotice (add_days start 10) start _ _ "high" High)
    by (first [reflexivity | assumption | (rewrite Hproj; eauto)
              | (rewrite string_length_app; cbn; lia)]).
  clear Hplus Hiso.
  rewrite Hend. unfold Expected.preliminary_notice_of.
  destruct Hfail as [Hbad|Hl2].
  - unfold mbind in Hbad. rewrite Hbad. reflexivity.
  - rewrite Hl2.
    set (e := option_bind _ _ Date_parse (Deadlines.a_workEndDate body)).
    destruct (Deadlines.plus_days_iso tz e 120); [|reflexivity].
    destruct (toISODate e); reflexivity.
Qed.

Lemma autoCreate_keeps_notice_on_failure_witness :
  fixed_offset utc_zone 0
  /\ Samples.online 0%nat = false /\ Samples.online 1%nat = false
  /\ Deadlines.a_userId Cases.auto_bad_end = Some "u1" /\ "u1" <> ""
  /\ "u1" ∈ users Samples.db0
  /\ Deadlines.a_projectId Cases.auto_bad_end = Some "p1" /\ "p1" <> ""
  /\ projects Samples.db0 !! "p1" = Some Samples.tower
  /\ (String.length (project_name Samples.tower) <= 227)%nat
  /\ deadlines Samples.db0 !! "d1" = None
  /\ Expected.is_private (Deadlines.a_projectType Cases.auto_bad_end) = true
  /\ Deadlines.a_workStartDate Cases.auto_bad_end
     = Some (Deadlines.iso_text Samples.may_1)
  /\ sql_date_ok Samples.may_1 = true
  /\ sql_date_ok (add_days Samples.may_1 10) = true
  /\ truthy_date (Deadlines.a_workEndDate Cases.auto_bad_end) = true
  /\ (Deadlines.a_workEndDate Cases.auto_bad_end ≫= Date_parse = None
      \/ Samples.online 2%nat = true)
  /\ Deadlines.autoCreate Samples.online utc_zone Samples.pg_date_utc
       "d1" "d2" Cases.auto_bad_end Samples.db0
     = (R500,
        with_deadlines Samples.db0
          (<["d1" := Expected.preliminary_notice_of "u1" "p1"
                       (project_name Samples.tower) Samples.may_1]>
             (deadlines Samples.db0))).
Proof.
  assert (H1 : fixed_offset utc_zone 0) by (intros t; split; reflexivity).
  assert (H2 : Samples.online 0%nat = false) by reflexivity.
  assert (H3 : Samples.online 1%nat = false) by reflexivity.
  assert (H4 : Deadlines.a_userId Cases.auto_bad_end = Some "u1")
    by reflexivity.
  assert (H5 : "u1" <> "") by discriminate.
  assert (H6 : "u1" ∈ users Samples.db0)
    by (apply (bool_decide_unpack _); vm_compute; exact I).
  assert (H7 : Deadlines.a_projectId Cases.auto_bad_end = Some "p1")
    by reflexivity.
  assert (H8 : "p1" <> "") by discriminate.
  assert (H9 : projects Samples.db0 !! "p1" = Some Samples.tower)
    by (vm_compute; reflexivity).
  assert (H10 : (String.length (project_name Samples.tower) <= 227)%nat)
    by (vm_compute; lia).
  assert (H11 : deadlines Samples.db0 !! "d1" = None)
    by (vm_compute; reflexivity).
  assert (H12 : Expected.is_private
                  (Deadlines.a_projectType Cases.auto_bad_end) = true)
    by reflexivity.
  assert (H13 : Deadlines.a_workStartDate Cases.auto_bad_end
                = Some (Deadlines.iso_text Samples.may_1)) by reflexivity.
  assert (H14 : sql_date_ok Samples.may_1 = true)
    by (vm_compute; reflexivity).
  assert (H15 : sql_date_ok (add_days Samples.may_1 10) = true)
    by (vm_compute; reflexivity).
  assert (H16 : truthy_date (Deadlines.a_workEndDate Cases.auto_bad_end)
                = true) by reflexivity.
  assert (H17 : Deadlines.a_workEndDate Cases.auto_bad_end ≫= Date_parse
                = None \/ Samples.online 2%nat = true)
    by (left; reflexivity).
  repeat (split; [assumption|]).
  exact (autoCreate_keeps_notice_on_failure Samples.online utc_zone 0
           Samples.pg_date_utc "d1" "d2" Cases.auto_bad_end Samples.db0
           "u1" "p1" Samples.tower Samples.may_1
           H1 H2 H3 H4 H5 H6 H7 H8 H9 H10 H11 H12 H13 H14 H15 H16 H17).
Defined.

(** ** Deleting a project *)

(** X25: DELETE /projects/:id on a stored project answers 200 and
    removes the project only: every deadline and invoice stays under its
    id with every column as it was - dates, status, amounts and the rest -
    but the project reference, which is cleared on the rows of the
    project and kept on the others.  No payment, user or rule is touched,
    the ledger stays in balance and completed_date stays in step with the
    status. *)
Theorem project_delete_unlinks (lost : nat -> bool) (id : string) (db : DB)
    (old : Project) :
  lost 0%nat = false ->
  projects db !! id = Some old ->
  exists db',
    Projects.remove lost id db = (R200 tt, db')
    /\ projects db' = delete id (projects db)
    /\ payments db' = payments db /\ users db' = users db
    /\ colorado_lien_rules db' = colorado_lien_rules db
    /\ (forall i,
          match deadlines db !! i with
          | Some d =>
              deadlines db' !! i
              = Some (mkDeadline (dl_user d)
                        (if bool_decide (dl_project d = Some id) then None
                         else dl_project d)
                        (deadline_type d) (deadline_date d) (trigger_date d)
                        (title d) (dl_description d) (status d) (priority d)
                        (dl_notes d) (completed_date d))
          | None => deadlines db' !! i = None
          end)
    /\ (forall i,
          match invoices db !! i with
          | Some v =>
              invoices db' !! i
              = Some (mkInvoice (inv_user v)
                        (if bool_decide (inv_project v = Some id) then None
                         else inv_project v)
                        (invoice_number v) (invoice_date v) (due_date v)
                        (amount v) (retainage_percent v) (retainage_amount v)
                        (amount_paid v) (payment_status v) (paid_date v)
                        (inv_description v) (inv_notes v))
          | None => invoices db' !! i = None
          end)
    /\ (Accounts.ledger_ok db -> Accounts.ledger_ok db')
    /\ (Expected.all_consistent db -> Expected.all_consistent db').
Proof.
  intros Hl Hold.
  unfold Projects.remove, handle, mbind, M_bind, mret, M_ret, query.
  rewrite Hl. unfold Projects.delete_project. rewrite Hold.
  eexists. split; [reflexivity|].
  cbn [projects payments deadlines invoices users colorado_lien_rules].
  do 4 (split; [reflexivity|]).
  split; [|split; [|split]].
  - intros i. rewrite lookup_fmap.
    destruct (deadlines db !! i) as [d|]; [|reflexivity].
    cbn [fmap option_fmap option_map]. f_equal.
    unfold Projects.unlink_deadline.
    destruct (bool_decide (dl_project d = Some id)); [reflexivity|].
    destruct d; reflexivity.
  - intros i. rewrite lookup_fmap.
    destruct (invoices db !! i) as [v|]; [|reflexivity].
    cbn [fmap option_fmap option_map]. f_equal.
    unfold Projects.unlink_invoice.
    destruct (bool_decide (inv_project v = Some id)); [reflexivity|].
    destruct v; reflexivity.
  - intros [Hbal Horph]. split.
    + unfold Accounts.balanced. cbn [invoices payments].
      intros i v' Hv'. apply lookup_fmap_Some in Hv' as (v & <- & Hv).
      rewrite <- (Hbal i v Hv). unfold Projects.unlink_invoice.
      destruct (bool_decide _); reflexivity.
    + unfold Accounts.no_orphans. cbn [invoices payments].
      eapply Forall_impl; [exact Horph|]. intros p [v Hv]. cbn beta in *.
      rewrite lookup_fmap, Hv. eauto.
  - unfold Expected.all_consistent. cbn [deadlines]. intros Hinv i d' Hd'.
    apply lookup_fmap_Some in Hd' as (d & <- & Hd).
    specialize (Hinv i d Hd). unfold Expected.consistent in *.
    unfold Projects.unlink_deadline.
    destruct (bool_decide _); [cbn|]; exact Hinv.
Qed.

Lemma project_delete_unlinks_witness :
  Samples.online 0%nat = false
  /\ projects Cases.db_project !! "p1" = Some Samples.tower
  /\ exists db',
      Projects.remove Samples.online "p1" Cases.db_project = (R200 tt, db')
      /\ projects db' = delete "p1" (projects Cases.db_project)
      /\ payments db' = payments Cases.db_project
      /\ users db' = users Cases.db_project
      /\ colorado_lien_rules db' = colorado_lien_rules Cases.db_project
      /\ (forall i,
            match deadlines Cases.db_project !! i with
            | Some d =>
                deadlines db' !! i
                = Some (mkDeadline (dl_user d)
                          (if bool_decide (dl_project d = Some "p1")
                           then None else dl_project d)
                          (deadline_type d) (deadline_date d)
                          (trigger_date d) (title d) (dl_description d)
                          (status d) (priority d) (dl_notes d)
                          (completed_date d))
            | None => deadlines db' !! i = None
            end)
      /\ (forall i,
            match invoices Cases.db_project !! i with
            | Some v =>
                invoices db' !! i
                = Some (mkInvoice (inv_user v)
                          (if bool_decide (inv_project v = Some "p1")
                           then None else inv_project v)
                          (invoice_number v) (invoice_date v) (due_date v)
                          (amount v) (retainage_percent v)
                          (retainage_amount v) (amount_paid v)
                          (payment_status v) (paid_date v)
                          (inv_description v) (inv_notes v))
            | None => invoices db' !! i = None
            end)
      /\ (Accounts.ledger_ok Cases.db_project -> Accounts.ledger_ok db')
      /\ (Expected.all_consistent Cases.db_project ->
          Expected.all_consistent db').
Proof.
  assert (H1 : Samples.online 0%nat = false) by reflexivity.
  assert (H2 : projects Cases.db_project !! "p1" = Some Samples.tower)
    by (vm_compute; reflexivity).
  split; [exact H1|]. split; [exact H2|].
  exact (project_delete_unlinks Samples.online "p1" Cases.db_project
           Samples.tower H1 H2).
Defined.

(** ** The deadline warning of [routes/emails.ts] *)

(** X26: the warning e-mail rounds the days remaining down where the
    deadline list rounds them up: for the same deadline at the same
    instant the e-mail's count is the list's count or one less, and the
    two agree only when the deadline is a whole number of days away.  The
    e-mail is so never less urgent than the list: what the list ranks
    critical the e-mail calls URGENT, and what the e-mail calls Upcoming is
    more than 14 days away on the list. *)
Theorem warning_days_vs_list (deadlineDate today : Z)
    (r : string * Deadline) :
  Deadlines.days_remaining (Deadlines.derive deadlineDate today r) - 1
  <= Emails.daysRemaining deadlineDate today
  <= Deadlines.days_remaining (Deadlines.derive deadlineDate today r)
  /\ (Emails.daysRemaining deadlineDate today
      = Deadlines.days_remaining (Deadlines.derive deadlineDate today r)
      <-> (deadlineDate - today) mod msPerDay = 0)
  /\ (Deadlines.days_remaining (Deadlines.derive deadlineDate today r) <= 7
      -> Emails.urgencyLevel (Emails.daysRemaining deadlineDate today)
         = Emails.URGENT)
  /\ (Emails.urgencyLevel (Emails.daysRemaining deadlineDate today)
      = Emails.Upcoming ->
      14 < Deadlines.days_remaining (Deadlines.derive deadlineDate today r)).
Proof.
  unfold Deadlines.derive, Emails.daysRemaining, Emails.urgencyLevel.
  cbn [Deadlines.days_remaining].
  change (1000 * 60 * 60 * 24) with 86400000. unfold ceil_div, msPerDay.
  set (x := deadlineDate - today).
  split; [div_lia|]. split; [split; intros H; div_lia|]. split.
  - intros H. destruct (Z.leb_spec (x / 86400000) 7); [reflexivity|].
    exfalso. div_lia.
  - destruct (Z.leb_spec (x / 86400000) 7); [discriminate|].
    destruct (Z.leb_spec (x / 86400000) 14); [discriminate|].
    intros _. div_lia.
Qed.
